(** * Solana Token Suite SDK: shallow embedding and verified properties

    The development follows the TypeScript sources:
    - [utils.ts]  : IST/UTC time helpers, transaction helpers and the
                    transfer-hook extra-account resolver;
    - [token.ts]  : [createToken], its extension conflict logic and the
                    instruction plan of the mint transaction;
    - [ico.ts]    : [buyToken] and the purchase instruction it builds.

    JavaScript numbers are embedded as [Z] (all the numbers the modelled
    code manipulates are integers well inside the safe-integer range),
    strings as [string], optional object fields as [option]. *)

From Stdlib Require Import ZArith Lia Bool List String Ascii.
From Stdlib Require Import Decimal DecimalString.
From Equations Require Import Equations.
Import ListNotations.

Local Open Scope string_scope.
Local Open Scope Z_scope.

(* ================================================================== *)
(** * JavaScript string and number primitives used by the sources      *)
(* ================================================================== *)

Module JS.

(** [n.toString()] for an integer [n]: decimal digits, a leading minus
    sign for negative values. *)
Definition toString (n : Z) : string :=
  NilZero.string_of_int (Z.to_int n).

Fixpoint repeat_char (c : ascii) (n : nat) : string :=
  match n with
  | O => EmptyString
  | S k => String c (repeat_char c k)
  end.

(** [s.padStart(len, c)] with a one-character filler. *)
Definition padStart (len : nat) (c : ascii) (s : string) : string :=
  repeat_char c (len - String.length s) ++ s.

(** [s.split(c)] with a one-character separator: the pieces between
    the separators, the empty string giving one empty piece. *)
Fixpoint split (c : ascii) (s : string) : list string :=
  match s with
  | EmptyString => [EmptyString]
  | String a r =>
      if Ascii.eqb a c then EmptyString :: split c r
      else match split c r with
           | p :: ps => String a p :: ps
           | [] => [String a EmptyString]
           end
  end.

(** [Number(s)] on integer literals: the empty string is [0], an
    optional sign is followed by decimal digits, leading zeros are
    allowed.  [None] stands for [NaN].  Literals with a fraction, an
    exponent, a radix prefix or surrounding blanks are outside this
    embedding (they are mapped to [None] as well). *)
Definition Number (s : string) : option Z :=
  match s with
  | EmptyString => Some 0
  | String "+"%char r => option_map Z.of_uint (NilZero.uint_of_string r)
  | _ => option_map Z.of_int (NilZero.int_of_string s)
  end.

(** [a % b] is the truncated remainder, [Math.floor(a / b)] the floor
    quotient. *)
Definition rem (a b : Z) : Z := Z.rem a b.
Definition floor_div (a b : Z) : Z := a / b.

(** Array destructuring [const [h, m] = xs]: missing positions are
    [undefined], which arithmetic turns into [NaN]. *)
Definition destructure2 {A} (xs : list (option A)) : option A * option A :=
  match xs with
  | [] => (None, None)
  | [h] => (h, None)
  | h :: m :: _ => (h, m)
  end.

End JS.

(* ================================================================== *)
(** * utils.ts: IST <-> UTC time helpers                               *)
(* ================================================================== *)

Definition IST_OFFSET : Z := 330.

(** [utcMinuteToIstTime] (utils.ts, lines 25-31). *)
Definition utcMinuteToIstTime (utcMin : Z) : string :=
  let istMin := utcMin + IST_OFFSET in
  let istMin := if 1440 <=? istMin then istMin - 1440 else istMin in
  let h := JS.floor_div istMin 60 in
  let m := JS.rem istMin 60 in
  JS.padStart 2 "0" (JS.toString h) ++ ":" ++ JS.padStart 2 "0" (JS.toString m).

(** [utcMinuteToUtcTime] (utils.ts, lines 36-40). *)
Definition utcMinuteToUtcTime (utcMin : Z) : string :=
  let h := JS.floor_div utcMin 60 in
  let m := JS.rem utcMin 60 in
  JS.padStart 2 "0" (JS.toString h) ++ ":" ++ JS.padStart 2 "0" (JS.toString m).

(** [istTimeToUtcMinute] (utils.ts, lines 45-50); [None] is [NaN]. *)
Definition istTimeToUtcMinute (istTime : string) : option Z :=
  match JS.destructure2 (map JS.Number (JS.split ":" istTime)) with
  | (Some h, Some m) =>
      let utcMin := h * 60 + m - IST_OFFSET in
      Some (if utcMin <? 0 then utcMin + 1440 else utcMin)
  | _ => None
  end.

(** A valid wall-clock string: two digits, a colon, two digits, with
    the hour below 24 and the minute below 60. *)
Definition isDigit (c : ascii) : bool :=
  (48 <=? nat_of_ascii c)%nat && (nat_of_ascii c <=? 57)%nat.

Definition digitValue (c : ascii) : Z := Z.of_nat (nat_of_ascii c) - 48.

Definition validHHMM (s : string) : bool :=
  match s with
  | String a (String b (String c (String d (String e EmptyString)))) =>
      isDigit a && isDigit b && Ascii.eqb c ":" && isDigit d && isDigit e
      && (10 * digitValue a + digitValue b <? 24)
      && (10 * digitValue d + digitValue e <? 60)
  | _ => false
  end.

(* ================================================================== *)
(** * Ledger data: keys, account metas, instructions, transactions      *)
(* ================================================================== *)

(** A [PublicKey] is kept in its base58 text. *)
Definition PublicKey := string.

Module PublicKey_.
(** [PublicKey.default]: the all-zero key. *)
Definition default : PublicKey := "11111111111111111111111111111111".
End PublicKey_.

(** constants.ts *)
Definition TRANSFER_HOOK_PROGRAM_ID : PublicKey :=
  "AjNBZRCm6jsPjPRiZ3hbAitg9KEgCYqKmGm675Fpi6XU".
Definition ICO_PROGRAM_ID : PublicKey :=
  "3YXfnw8Lk1PsuwbyRxSjHHVwxxDLiDH1BHohgbZcW4zb".
Definition TREASURY_ADDRESS : PublicKey :=
  "HtGXcunbPUU54wMa9ZiXdMXvv1b5ppT7DeFLJWdtH7Lr".
Definition METADATA_PROGRAM_ID : PublicKey :=
  "metaqbxxUerdq28cj1RbAWkYQm3ybzjb6a8bt518x1s".

(** Program ids exported by @solana/spl-token and @solana/web3.js. *)
Definition TOKEN_PROGRAM_ID : PublicKey :=
  "TokenkegQfeZyiNwAJbNbGKPFXCWuBvf9Ss623VQ5DA".
Definition TOKEN_2022_PROGRAM_ID : PublicKey :=
  "TokenzQdBNbLqP5VEhdkAS6EPFLC1PHnBqCXEpPxuEb".
Definition ASSOCIATED_TOKEN_PROGRAM_ID : PublicKey :=
  "ATokenGPvbdGVxr1b2hvZbsiqW5xWH25efTNsLJA8knL".
Definition SystemProgram_programId : PublicKey :=
  "11111111111111111111111111111111".

(** The element type of [TransactionInstruction.keys] and of the result
    of [resolveTransferHookAccounts]. *)
Record AccountMeta := mkMeta {
  pubkey : PublicKey;
  isSigner : bool;
  isWritable : bool
}.

Module ExtensionType.
Inductive t :=
| TransferHook
| PermanentDelegate
| TransferFeeConfig
| InterestBearingConfig
| NonTransferable
| MemoTransfer
| CpiGuard.

Definition eqb (a b : t) : bool :=
  match a, b with
  | TransferHook, TransferHook
  | PermanentDelegate, PermanentDelegate
  | TransferFeeConfig, TransferFeeConfig
  | InterestBearingConfig, InterestBearingConfig
  | NonTransferable, NonTransferable
  | MemoTransfer, MemoTransfer
  | CpiGuard, CpiGuard => true
  | _, _ => false
  end.
End ExtensionType.

(** Seeds given to [PublicKey.findProgramAddressSync]. *)
Inductive Seed :=
| SeedText (s : string)          (* Buffer.from('...') *)
| SeedKey (k : PublicKey).       (* key.toBuffer() *)

Inductive InstructionData :=
| DataTransferChecked (amount decimals : Z)
| DataBytes (bs : list Byte.byte).

(** A web3.js [TransactionInstruction]. *)
Record TransactionInstruction := mkIx {
  keys : list AccountMeta;
  programId : PublicKey;
  data : InstructionData
}.

(** An Anchor method call
    [program.methods.m(args).accounts({..}).remainingAccounts(..)]:
    the named accounts are kept in the order of the object literal. *)
Record AnchorCall := mkAnchorCall {
  ac_program : PublicKey;
  ac_method : string;
  ac_args : list (option Z);
  ac_keyArgs : list PublicKey;
  ac_accounts : list (string * PublicKey);
  ac_remaining : list AccountMeta
}.

(** The instructions the SDK puts into a transaction.  Each constructor
    stands for the instruction built by the library function
    [create<Name>Instruction] (or [SystemProgram.createAccount]) and
    records the arguments the source passes, in the source's order. *)
Inductive Instruction :=
| CreateAccount (fromPubkey newAccountPubkey : PublicKey)
                (space lamports : Z) (owner : PublicKey)
| InitializeNonTransferableMint (mint prog : PublicKey)
| InitializePermanentDelegate (mint delegate prog : PublicKey)
| InitializeTransferFeeConfig (mint configAuthority withdrawAuthority : PublicKey)
                              (feeBasisPoints maxFee : Z) (prog : PublicKey)
| InitializeInterestBearingMint (mint rateAuthority : PublicKey) (rate : Z)
                                (prog : PublicKey)
| InitializeTransferHook (mint authority hookProgramId prog : PublicKey)
| InitializeMint (mint : PublicKey) (decimals : Z)
                 (mintAuthority freezeAuthority prog : PublicKey)
| CreateAssociatedTokenAccount (payer ata owner mint prog : PublicKey)
| MintTo (mint destination authority : PublicKey) (amount : Z)
         (prog : PublicKey)
| Reallocate (account payer : PublicKey) (extensionTypes : list ExtensionType.t)
             (owner prog : PublicKey)
| EnableRequiredMemoTransfers (account authority prog : PublicKey)
| EnableCpiGuard (account authority prog : PublicKey)
| Anchor (call : AnchorCall)
| Raw (ix : TransactionInstruction).

Record Keypair := mkKeypair {
  publicKey : PublicKey;
  secretKey : list Byte.byte
}.

Record TransactionMessage := mkTransactionMessage {
  payerKey : PublicKey;
  recentBlockhash : string;
  instructions : list Instruction
}.

(** A [VersionedTransaction]: the compiled message and the keys that
    have signed it so far. *)
Record VersionedTransaction := mkVersionedTransaction {
  message : TransactionMessage;
  signers : list PublicKey
}.

(** [tx.sign(signers)] *)
Definition sign (tx : VersionedTransaction) (ks : list Keypair)
  : VersionedTransaction :=
  mkVersionedTransaction (message tx) (signers tx ++ map publicKey ks)%list.

(* ================================================================== *)
(** * types.ts                                                         *)
(* ================================================================== *)

Record TokenMetadata := mkTokenMetadata {
  name : string;
  symbol : string;
  description : string;
  decimals : Z;
  supply : Z;
  image : list Byte.byte;
  imageFileName : string;
  imageContentType : string
}.

Record TransferFeeParams := mkTransferFee {
  feeBasisPoints : Z;
  maxFee : Z
}.

Record InterestBearingParams := mkInterestBearing {
  rate : Z
}.

(** [TokenExtensions]: every field is optional; [None] is an absent
    ([undefined]) field. *)
Record TokenExtensions := mkTokenExtensions {
  permanentDelegation : option bool;
  transferFee : option TransferFeeParams;
  interestBearing : option InterestBearingParams;
  memoTransfer : option bool;
  nonTransferable : option bool;
  cpiGuard : option bool
}.

(** The default argument [extensions = {}]. *)
Definition noExtensions : TokenExtensions :=
  mkTokenExtensions None None None None None None.

Record TradingHours := mkTradingHours {
  openMinuteUTC : Z;
  closeMinuteUTC : Z
}.

Record TransferLimits := mkTransferLimits {
  min : Z;
  max : Z
}.

Record TransferHookConfig := mkTransferHookConfig {
  tradingHours : option TradingHours;
  transferLimits : option TransferLimits;
  nftMintAddress : option PublicKey
}.

(** The default argument [hookConfig = {}]. *)
Definition noHookConfig : TransferHookConfig :=
  mkTransferHookConfig None None None.

Record CreateTokenResult := mkCreateTokenResult {
  ctr_mint : PublicKey;
  ctr_ata : PublicKey;
  mintTxSignature : string;
  metadataTxSignature : string
}.

Record BuyTokenParams := mkBuyTokenParams {
  bt_mint : PublicKey;
  bt_amount : Z
}.

(** JavaScript truthiness of an optional boolean field ([!!x], [if (x)])
    and of an optional object field (an object is always truthy). *)
Definition truthy (x : option bool) : bool :=
  match x with
  | Some b => b
  | None => false
  end.

Definition present {A} (x : option A) : bool :=
  match x with
  | Some _ => true
  | None => false
  end.

(* ================================================================== *)
(** * Library functions of @solana/spl-token and @solana/web3.js        *)
(* ================================================================== *)

(** Pure library functions whose value is a hash or a layout size; they
    are parameters of the development. [getAssociatedTokenAddressSync]
    is called by the SDK with wallet owners or with [allowOwnerOffCurve]
    set, where it returns an address. *)
Record Lib := mkLib {
  getMintLen : list ExtensionType.t -> Z;
  findProgramAddressSync : list Seed -> PublicKey -> PublicKey * Z;
  getAssociatedTokenAddressSync :
    PublicKey -> PublicKey -> bool -> PublicKey -> PublicKey
}.

(** [createTransferCheckedInstruction(source, mint, destination, owner,
    amount, decimals, [], programId)] with no multi-signers: the four
    canonical keys, the owner signing.  This is the instruction the
    library returns when it can encode the data; the call, which throws
    otherwise, is [createTransferCheckedInstruction_checked] below. *)
Definition createTransferCheckedInstruction
  (source mint destination owner : PublicKey) (amount decimals : Z)
  (prog : PublicKey) : TransactionInstruction :=
  mkIx [ mkMeta source false true;
         mkMeta mint false false;
         mkMeta destination false true;
         mkMeta owner true false ]
       prog (DataTransferChecked amount decimals).

(* ================================================================== *)
(** * token.ts: extension conflict logic and the mint transaction       *)
(* ================================================================== *)

Section MintTransaction.

Variable lib : Lib.
Variables (payer mint : PublicKey).
Variable metadata : TokenMetadata.
Variable extensions : TokenExtensions.
Variable hookConfig : TransferHookConfig.

(** token.ts, lines 62-64. *)
Definition isTransferHookDisabled : bool :=
  truthy (nonTransferable extensions) || truthy (cpiGuard extensions).
Definition isTransferFeeDisabled : bool :=
  truthy (nonTransferable extensions).
Definition isPermanentDelegateDisabled : bool :=
  truthy (nonTransferable extensions).

(** [if (c) xs.push(..)] / [if (c) transaction.add(..)]: the elements
    appended when the condition holds. *)
Definition when {A} (c : bool) (xs : list A) : list A :=
  if c then xs else [].

(** token.ts, lines 87-94: the extension type list. *)
Definition extensionTypes : list ExtensionType.t :=
  (when (negb isTransferHookDisabled) [ExtensionType.TransferHook]
   ++ when (truthy (permanentDelegation extensions)
            && negb isPermanentDelegateDisabled)
        [ExtensionType.PermanentDelegate]
   ++ when (present (transferFee extensions) && negb isTransferFeeDisabled)
        [ExtensionType.TransferFeeConfig]
   ++ when (present (interestBearing extensions))
        [ExtensionType.InterestBearingConfig]
   ++ when (truthy (nonTransferable extensions))
        [ExtensionType.NonTransferable])%list.

(** token.ts, lines 185-187. *)
Definition accountExtensionTypes : list ExtensionType.t :=
  (when (truthy (memoTransfer extensions)) [ExtensionType.MemoTransfer]
   ++ when (truthy (cpiGuard extensions)) [ExtensionType.CpiGuard])%list.

(** token.ts, lines 216-245: the registry initialisation built through
    the Anchor program of the transfer hook.  The transfer bounds are
    whole numbers and are multiplied exactly: that is the value of lines
    227-232 as long as it is below 2^53, from where on [new BN] throws;
    the properties that mention the bounds assume so. *)
Definition initRegistryIx : Instruction :=
  let config :=
    fst (findProgramAddressSync lib [SeedText "config"; SeedKey mint]
           TRANSFER_HOOK_PROGRAM_ID) in
  let extraAccountMetaList :=
    fst (findProgramAddressSync lib
           [SeedText "extra-account-metas"; SeedKey mint]
           TRANSFER_HOOK_PROGRAM_ID) in
  let openMinute := option_map openMinuteUTC (tradingHours hookConfig) in
  let closeMinute := option_map closeMinuteUTC (tradingHours hookConfig) in
  let maxTransferAmt :=
    match transferLimits hookConfig with
    | Some l => max l * 10 ^ decimals metadata
    | None => 18446744073709551615
    end in
  let minTransferAmt :=
    match transferLimits hookConfig with
    | Some l => min l * 10 ^ decimals metadata
    | None => 0
    end in
  let nftMint :=
    match nftMintAddress hookConfig with
    | Some k => k
    | None => PublicKey_.default
    end in
  Anchor (mkAnchorCall TRANSFER_HOOK_PROGRAM_ID "initializeRegistry"
            [openMinute; closeMinute; Some maxTransferAmt; Some minTransferAmt]
            [nftMint]
            [ ("payer", payer); ("treasury", TREASURY_ADDRESS);
              ("mint", mint); ("config", config);
              ("extraAccountMetaList", extraAccountMetaList);
              ("systemProgram", SystemProgram_programId) ]
            []).

(** token.ts, lines 99-248: the instructions added to [transaction],
    in the order of the [transaction.add] calls.  [lamports] is the
    rent-exempt balance fetched at line 97.  The supply and the decimals
    are whole numbers and [supplyUnits] is their exact product with the
    power of ten: that is the value of line 179 as long as it is below
    2^53, and the properties that mention the amount assume so. *)
Definition mintTransaction (lamports : Z) : list Instruction :=
  let mintLen := getMintLen lib extensionTypes in
  let ata := getAssociatedTokenAddressSync lib mint payer false
               TOKEN_2022_PROGRAM_ID in
  let supplyUnits := supply metadata * 10 ^ decimals metadata in
  ([ CreateAccount payer mint mintLen lamports TOKEN_2022_PROGRAM_ID ]
   ++ when (truthy (nonTransferable extensions))
        [ InitializeNonTransferableMint mint TOKEN_2022_PROGRAM_ID ]
   ++ when (truthy (permanentDelegation extensions)
            && negb isPermanentDelegateDisabled)
        [ InitializePermanentDelegate mint payer TOKEN_2022_PROGRAM_ID ]
   ++ match transferFee extensions with
      | Some fee =>
          when (negb isTransferFeeDisabled)
            [ InitializeTransferFeeConfig mint payer payer
                (feeBasisPoints fee) (maxFee fee) TOKEN_2022_PROGRAM_ID ]
      | None => []
      end
   ++ match interestBearing extensions with
      | Some ib =>
          [ InitializeInterestBearingMint mint payer (rate ib)
              TOKEN_2022_PROGRAM_ID ]
      | None => []
      end
   ++ when (negb isTransferHookDisabled)
        [ InitializeTransferHook mint payer TRANSFER_HOOK_PROGRAM_ID
            TOKEN_2022_PROGRAM_ID ]
   ++ [ InitializeMint mint (decimals metadata) payer payer
          TOKEN_2022_PROGRAM_ID ]
   ++ [ CreateAssociatedTokenAccount payer ata payer mint
          TOKEN_2022_PROGRAM_ID ]
   ++ [ MintTo mint ata payer supplyUnits TOKEN_2022_PROGRAM_ID ]
   ++ when (0 <? Z.of_nat (List.length accountExtensionTypes))
        [ Reallocate ata payer accountExtensionTypes payer
            TOKEN_2022_PROGRAM_ID ]
   ++ when (truthy (memoTransfer extensions))
        [ EnableRequiredMemoTransfers ata payer TOKEN_2022_PROGRAM_ID ]
   ++ when (truthy (cpiGuard extensions))
        [ EnableCpiGuard ata payer TOKEN_2022_PROGRAM_ID ]
   ++ when (negb isTransferHookDisabled) [ initRegistryIx ])%list.

End MintTransaction.

(* ================================================================== *)
(** * Effects: awaited calls, exceptions and the call trace             *)
(* ================================================================== *)

(** A thrown JavaScript value (a rejected promise once awaited). *)
Inductive Exn :=
| Error (msg : string).

Inductive Outcome (A : Type) :=
| Ok (a : A)
| Throw (e : Exn).
Arguments Ok {A} a.
Arguments Throw {A} e.

(** Data exchanged with the collaborators. *)
Record GenericFile := mkGenericFile {
  gf_buffer : list Byte.byte;
  gf_fileName : string;
  gf_contentType : string
}.

Record MetadataJson := mkMetadataJson {
  mj_name : string;
  mj_symbol : string;
  mj_description : string;
  mj_image : option string;
  mj_files : list (string * option string)
}.

Record BlockhashInfo := mkBlockhashInfo {
  blockhash : string;
  lastValidBlockHeight : Z
}.

(** [simResult.value]: the error is kept in its JSON text, which is what
    the source prints with [JSON.stringify]. *)
Record SimulationValue := mkSimulationValue {
  err : option string;
  logs : option (list string)
}.

(** The [TransferHook] extension of a mint, as [getTransferHook]
    decodes it. *)
Record TransferHook := mkTransferHook {
  th_authority : PublicKey;
  th_programId : PublicKey
}.

(** The unpacked mint returned by [getMint]; [mintTransferHook] is
    [None] when the mint's extension data has no TransferHook entry. *)
Record Mint := mkMint {
  mintAddress : PublicKey;
  mintDecimals : Z;
  mintTransferHook : option TransferHook
}.

Definition getTransferHook (m : Mint) : option TransferHook :=
  mintTransferHook m.

Record AccountInfo := mkAccountInfo {
  ai_owner : PublicKey
}.

Record IcoConfigAccountData := mkIcoData {
  ico_creator : PublicKey;
  ico_mint : PublicKey;
  ico_tokenVault : PublicKey
}.

Record CreateV1Input := mkCreateV1Input {
  cv_mint : Keypair;
  cv_name : string;
  cv_symbol : string;
  cv_uri : string
}.

Definition RawTransaction := list Byte.byte.

(** One awaited (or otherwise external) call together with what it
    answered.  A trace lists them in the order they were made. *)
Inductive Event :=
| EvUpload (files : list GenericFile) (r : Outcome (list string))
| EvUploadJson (json : MetadataJson) (r : Outcome string)
| EvKeypairGenerate (k : Keypair)
| EvGetMinimumBalanceForRentExemption (len : Z) (r : Outcome Z)
| EvGetLatestBlockhash (r : Outcome BlockhashInfo)
| EvSimulateTransaction (tx : VersionedTransaction)
                        (r : Outcome SimulationValue)
| EvWalletSign (tx : VersionedTransaction) (r : Outcome VersionedTransaction)
| EvSendRawTransaction (raw : RawTransaction) (skipPreflight : bool)
                       (r : Outcome string)
| EvConfirmTransaction (signature blockhash : string)
                       (lastValidBlockHeight : Z) (r : Outcome unit)
| EvGetAccountInfo (address : PublicKey) (r : Outcome (option AccountInfo))
| EvGetMint (mint : PublicKey) (r : Outcome Mint)
| EvGetAccount (address prog : PublicKey) (r : Outcome unit)
| EvAddExtraAccountMetasForExecute
    (ix : TransactionInstruction) (hookProgramId : PublicKey)
    (r : TransactionInstruction * Outcome unit)
| EvAccountFetch (address : PublicKey) (r : Outcome IcoConfigAccountData)
| EvAnchorRpc (preInstructions : list Instruction) (call : AnchorCall)
              (r : Outcome string).

Definition Trace := list Event.

(** The collaborators (RPC connection, uploader, key generator, Anchor
    client, transaction codec).  Every answer may depend on the calls
    made so far, and every fallible call may throw. *)
Record World := mkWorld {
  upload : Trace -> list GenericFile -> Outcome (list string);
  uploadJson : Trace -> MetadataJson -> Outcome string;
  generateKeypair : Trace -> Keypair;
  getMinimumBalanceForRentExemption : Trace -> Z -> Outcome Z;
  getLatestBlockhash : Trace -> Outcome BlockhashInfo;
  simulateTransaction : Trace -> VersionedTransaction -> Outcome SimulationValue;
  sendRawTransaction : Trace -> RawTransaction -> bool -> Outcome string;
  confirmTransaction : Trace -> string -> string -> Z -> Outcome unit;
  getAccountInfo : Trace -> PublicKey -> Outcome (option AccountInfo);
  getMint : Trace -> PublicKey -> Outcome Mint;
  getAccount : Trace -> PublicKey -> PublicKey -> Outcome unit;
  (** mutates the instruction it is given: the first component is the
      instruction after the call, also when the call throws *)
  addExtraAccountMetasForExecute :
    Trace -> TransactionInstruction -> PublicKey ->
    PublicKey -> PublicKey -> PublicKey -> PublicKey -> Z ->
    TransactionInstruction * Outcome unit;
  icoConfigAccountFetch : Trace -> PublicKey -> Outcome IcoConfigAccountData;
  anchorRpc : Trace -> list Instruction -> AnchorCall -> Outcome string;
  (** the error [compileToV0Message()] throws on a message, if any *)
  compileFailure : TransactionMessage -> option Exn;
  serialize : VersionedTransaction -> Outcome RawTransaction;
  createV1 : CreateV1Input -> list TransactionInstruction
}.

(** [new TransactionMessage({..}).compileToV0Message()]: throws, or
    yields the compiled message, which is identified with the message
    it is compiled from. *)
Definition compileToV0Message (w : World) (msg : TransactionMessage)
  : Outcome TransactionMessage :=
  match compileFailure w msg with
  | Some e => Throw e
  | None => Ok msg
  end.

(** A computation reads the trace of the calls made before it started
    and yields its outcome with the events it has added. *)
Definition M (A : Type) : Type := Trace -> Outcome A * list Event.

Definition ret {A} (a : A) : M A := fun _ => (Ok a, []).

Definition throw {A} (e : Exn) : M A := fun _ => (Throw e, []).

Definition bind {A B} (m : M A) (k : A -> M B) : M B :=
  fun h =>
    match m h with
    | (Ok a, es) =>
        let (r, es') := k a (h ++ es)%list in (r, (es ++ es')%list)
    | (Throw e, es) => (Throw e, es)
    end.

(** [try { body } catch { handler }] *)
Definition try_catch {A} (body : M A) (handler : Exn -> M A) : M A :=
  fun h =>
    match body h with
    | (Ok a, es) => (Ok a, es)
    | (Throw e, es) =>
        let (r, es') := handler e (h ++ es)%list in (r, (es ++ es')%list)
    end.

(** An awaited call: ask the collaborator, log the call with its
    answer. *)
Definition call {A} (ask : Trace -> Outcome A) (ev : Outcome A -> Event)
  : M A :=
  fun h => (ask h, [ev (ask h)]).

(** A synchronous library call that may throw. *)
Definition lift {A} (r : Outcome A) : M A := fun _ => (r, []).

Declare Scope js_scope.
Delimit Scope js_scope with js.
Notation "x <- m ;; k" := (bind m (fun x => k))
  (at level 61, m at next level, right associativity) : js_scope.
Notation "m ;;; k" := (bind m (fun _ => k))
  (at level 61, right associativity) : js_scope.
Local Open Scope js_scope.

(** The wallet callback [walletSign]. *)
Definition WalletSign := Trace -> VersionedTransaction -> Outcome VersionedTransaction.

Definition newline : string := String (ascii_of_nat 10) EmptyString.

(** [xs.join(sep)] *)
Fixpoint join (sep : string) (xs : list string) : string :=
  match xs with
  | [] => EmptyString
  | [x] => x
  | x :: r => x ++ sep ++ join sep r
  end.

(** The ranges of the integer types the instruction encoders write. *)
Definition isU8 (n : Z) : bool := (0 <=? n) && (n <? 2 ^ 8).

Definition isU64 (n : Z) : bool := (0 <=? n) && (n <? 2 ^ 64).

(** The call [createTransferCheckedInstruction(..)] itself.  The library
    encodes the instruction data while it builds the instruction, the
    amount as a u64 and the decimals as a u8; a value outside its range
    cannot be encoded and the call throws.  Otherwise the call returns
    the instruction [createTransferCheckedInstruction] describes. *)
Definition createTransferCheckedInstruction_checked
  (source mint destination owner : PublicKey) (amount decimals : Z)
  (prog : PublicKey) : Outcome TransactionInstruction :=
  if isU64 amount && isU8 decimals
  then Ok (createTransferCheckedInstruction source mint destination owner
             amount decimals prog)
  else Throw (Error "The value is out of range").

(** [new BN(n)] for a whole number [n]: bn.js asserts that a number is
    below 2^53 in absolute value.  A product of whole numbers computed in
    double precision is exact below 2^53 and is at least 2^53 when the
    exact product is, so [newBN (a * b)] is [new BN(a * b)] for whole
    [a] and [b]. *)
Definition newBN (n : Z) : Outcome Z :=
  if Z.abs n <? 2 ^ 53 then Ok n else Throw (Error "Assertion failed").

(* ================================================================== *)
(** * utils.ts: PDA derivation and transaction helpers                  *)
(* ================================================================== *)

Section Utils.

Variable lib : Lib.
Variable w : World.

Definition deriveHookConfigPDA (mint : PublicKey) : PublicKey * Z :=
  findProgramAddressSync lib [SeedText "config"; SeedKey mint]
    TRANSFER_HOOK_PROGRAM_ID.

Definition deriveExtraAccountMetaListPDA (mint : PublicKey) : PublicKey * Z :=
  findProgramAddressSync lib [SeedText "extra-account-metas"; SeedKey mint]
    TRANSFER_HOOK_PROGRAM_ID.

Definition deriveICOConfigPDA : PublicKey * Z :=
  findProgramAddressSync lib [SeedText "config"] ICO_PROGRAM_ID.

Definition deriveICOConfigAccountPDA (mint : PublicKey) : PublicKey * Z :=
  findProgramAddressSync lib [SeedText "ico_config_account"; SeedKey mint]
    ICO_PROGRAM_ID.

Definition deriveICOVaultAccountPDA (mint : PublicKey) : PublicKey * Z :=
  findProgramAddressSync lib [SeedText "ico_vault_account"; SeedKey mint]
    ICO_PROGRAM_ID.

(** utils.ts, lines 119-136. *)
Definition buildVersionedTransaction
  (payer : PublicKey) (ixs : list Instruction) (sgs : list Keypair)
  : M VersionedTransaction :=
  bh <- call (getLatestBlockhash w) EvGetLatestBlockhash ;;
  messageV0 <- lift (compileToV0Message w
                       (mkTransactionMessage payer (blockhash bh) ixs)) ;;
  let tx := mkVersionedTransaction messageV0 [] in
  ret (if 0 <? Z.of_nat (List.length sgs) then sign tx sgs else tx).

(** utils.ts, lines 141-150. *)
Definition sendAndConfirmVersionedTransaction
  (tx : VersionedTransaction) (skipPreflight : bool) : M string :=
  bh <- call (getLatestBlockhash w) EvGetLatestBlockhash ;;
  raw <- lift (serialize w tx) ;;
  sig <- call (fun h => sendRawTransaction w h raw skipPreflight)
              (EvSendRawTransaction raw skipPreflight) ;;
  call (fun h => confirmTransaction w h sig (blockhash bh)
                   (lastValidBlockHeight bh))
       (EvConfirmTransaction sig (blockhash bh) (lastValidBlockHeight bh)) ;;;
  ret sig.

(** utils.ts, lines 156-167; [skipPreflight] defaults to [false]. *)
Definition sendInstructions
  (payer : PublicKey) (ixs : list Instruction) (walletSign : WalletSign)
  (sgs : list Keypair) (skipPreflight : bool) : M string :=
  tx <- buildVersionedTransaction payer ixs sgs ;;
  signed <- call (fun h => walletSign h tx) (EvWalletSign tx) ;;
  sendAndConfirmVersionedTransaction signed skipPreflight.

(** The awaited [addExtraAccountMetasForExecute(connection, mockIx, ..)]:
    the value is [mockIx] as the call leaves it. *)
Definition addExtraAccountMetas
  (mockIx : TransactionInstruction)
  (hookProgramId source mint destination authority : PublicKey) (amount : Z)
  : M TransactionInstruction :=
  fun h =>
    let r := addExtraAccountMetasForExecute w h mockIx hookProgramId
               source mint destination authority amount in
    (match snd r with
     | Ok _ => Ok (fst r)
     | Throw e => Throw e
     end,
     [EvAddExtraAccountMetasForExecute mockIx hookProgramId r]).

(** utils.ts, lines 187-216: the body of the [try] block.  Building the
    mock instruction (lines 191-200) is a step of the block: when it
    throws, no probe is made. *)
Definition resolveTransferHookAccounts_try
  (mint source destination authority : PublicKey) (amount decimals : Z)
  : M (list AccountMeta) :=
  mintState <- call (fun h => getMint w h mint) (EvGetMint mint) ;;
  match getTransferHook mintState with
  | None => ret []
  | Some hookInfo =>
      mockIx <- lift (createTransferCheckedInstruction_checked source mint
                        destination authority amount decimals
                        TOKEN_2022_PROGRAM_ID) ;;
      mockIx' <- addExtraAccountMetas mockIx (th_programId hookInfo)
                   source mint destination authority amount ;;
      ret (skipn 4 (keys mockIx'))
  end.

(** utils.ts, lines 177-220. *)
Definition resolveTransferHookAccounts
  (mint source destination authority : PublicKey) (amount decimals : Z)
  : M (list AccountMeta) :=
  try_catch
    (resolveTransferHookAccounts_try mint source destination authority
       amount decimals)
    (fun _ => ret []).

End Utils.

(* ================================================================== *)
(** * ico.ts: buyToken                                                  *)
(* ================================================================== *)

Section Ico.

Variable lib : Lib.
Variable w : World.

(** ico.ts, lines 36-42. *)
Definition getTokenProgram (mint : PublicKey) : M PublicKey :=
  mintInfo <- call (fun h => getAccountInfo w h mint) (EvGetAccountInfo mint) ;;
  ret (match mintInfo with
       | Some info =>
           if String.eqb (ai_owner info) TOKEN_2022_PROGRAM_ID
           then TOKEN_2022_PROGRAM_ID else TOKEN_PROGRAM_ID
       | None => TOKEN_PROGRAM_ID
       end).

(** ico.ts, lines 147-202: everything [buyToken] does before [.rpc()];
    the value is the purchase call and its pre-instructions.  The amount
    is a whole number of tokens; [new BN(params.amount * 1e9)] is built
    as an argument of the resolver call (line 169, for a Token-2022 mint
    only) and again for the purchase (line 187), and throws each time
    when the product reaches 2^53. *)
Definition buyToken_prepare (payer : PublicKey) (params : BuyTokenParams)
  : M (list Instruction * AnchorCall) :=
  let mint := bt_mint params in
  let config := fst (deriveICOConfigPDA lib) in
  let icoConfigAccount := fst (deriveICOConfigAccountPDA lib mint) in
  let icoVaultAccount := fst (deriveICOVaultAccountPDA lib mint) in
  tokenProgram <- getTokenProgram mint ;;
  let vaultAta := getAssociatedTokenAddressSync lib mint icoVaultAccount true
                    tokenProgram in
  let buyerAta := getAssociatedTokenAddressSync lib mint payer false
                    tokenProgram in
  icoData <- call (fun h => icoConfigAccountFetch w h icoConfigAccount)
                  (EvAccountFetch icoConfigAccount) ;;
  extraAccounts <-
    (if String.eqb tokenProgram TOKEN_2022_PROGRAM_ID
     then amount <- lift (newBN (bt_amount params * 10 ^ 9)) ;;
          resolveTransferHookAccounts w mint vaultAta buyerAta
            icoVaultAccount amount 9
     else ret []) ;;
  preIxs <-
    try_catch
      (call (fun h => getAccount w h buyerAta tokenProgram)
            (EvGetAccount buyerAta tokenProgram) ;;;
       ret [])
      (fun _ => ret [ CreateAssociatedTokenAccount payer buyerAta payer mint
                        tokenProgram ]) ;;
  amount <- lift (newBN (bt_amount params * 10 ^ 9)) ;;
  ret (preIxs,
       mkAnchorCall ICO_PROGRAM_ID "purchaseToken"
         [Some amount] []
         [ ("buyer", payer); ("mint", mint); ("config", config);
           ("creator", ico_creator icoData);
           ("icoConfigAccount", icoConfigAccount);
           ("icoVaultAccount", icoVaultAccount);
           ("vaultAta", vaultAta); ("buyerAta", buyerAta);
           ("tokenProgram", tokenProgram);
           ("associatedTokenProgram", ASSOCIATED_TOKEN_PROGRAM_ID);
           ("systemProgram", SystemProgram_programId) ]
         extraAccounts).

(** ico.ts, lines 141-204. *)
Definition buyToken (payer : PublicKey) (params : BuyTokenParams) : M string :=
  p <- buyToken_prepare payer params ;;
  call (fun h => anchorRpc w h (fst p) (snd p)) (EvAnchorRpc (fst p) (snd p)).

End Ico.

(** One account entry of an Anchor IDL instruction. *)
Record IdlAccount := mkIdlAccount {
  ia_name : string;
  ia_writable : bool;
  ia_signer : bool
}.

Fixpoint lookupAccount (n : string) (accs : list (string * PublicKey))
  : option PublicKey :=
  match accs with
  | [] => None
  | (k, v) :: r => if String.eqb k n then Some v else lookupAccount n r
  end.

Fixpoint fixedKeys (idl : list IdlAccount) (accs : list (string * PublicKey))
  : option (list AccountMeta) :=
  match idl with
  | [] => Some []
  | a :: r =>
      match lookupAccount (ia_name a) accs, fixedKeys r accs with
      | Some k, Some ks => Some (mkMeta k (ia_signer a) (ia_writable a) :: ks)
      | _, _ => None
      end
  end.

(** The account list of the instruction Anchor builds for a method call:
    the IDL's accounts in the IDL's order, each taken by name from
    [.accounts({..})], followed by the remaining accounts.  [None] when a
    named account is missing. *)
Definition instructionKeys (idl : list IdlAccount) (c : AnchorCall)
  : option (list AccountMeta) :=
  option_map (fun ks => (ks ++ ac_remaining c)%list)
             (fixedKeys idl (ac_accounts c)).

(** Modelled from the spec: idl/ico.json is not among the sources; the
    accounts of [purchaseToken] are the spec's sale purchase account
    schema (buyer, mint, global config, sale creator, sale config, vault,
    vault token account, buyer token account, token-program selector,
    associated-account-program, system program), under the names
    [buyToken] gives them. *)
Definition purchaseTokenAccountNames : list string :=
  [ "buyer"; "mint"; "config"; "creator"; "icoConfigAccount";
    "icoVaultAccount"; "vaultAta"; "buyerAta"; "tokenProgram";
    "associatedTokenProgram"; "systemProgram" ].

(* ================================================================== *)
(** * token.ts: createToken                                             *)
(* ================================================================== *)

Section CreateToken.

Variable lib : Lib.
Variable w : World.

(** The message of the error thrown at token.ts lines 282-284 and
    313-315: the simulation error in JSON, then the log lines. *)
Definition simulationFailure (what : string) (e : string)
  (lg : option (list string)) : Exn :=
  Error (what ++ " simulation failed: " ++ e ++ newline ++ "Logs:" ++ newline
         ++ match lg with
            | Some ls => join newline ls
            | None => "undefined"
            end).

(** token.ts, lines 268-292 and 301-325: compile against a fresh
    blockhash, sign with the mint keypair, simulate, then wallet-sign,
    send and confirm.  Both transactions of [createToken] go through
    these statements, with the labels "Mint" and "Metadata". *)
Definition simulateSignSend (what : string) (payer : PublicKey)
  (walletSign : WalletSign) (mintKeypair : Keypair)
  (ixs : list Instruction) : M string :=
  bh <- call (getLatestBlockhash w) EvGetLatestBlockhash ;;
  messageV0 <- lift (compileToV0Message w
                       (mkTransactionMessage payer (blockhash bh) ixs)) ;;
  let versionedTx :=
    sign (mkVersionedTransaction messageV0 []) [mintKeypair] in
  simResult <- call (fun h => simulateTransaction w h versionedTx)
                    (EvSimulateTransaction versionedTx) ;;
  match err simResult with
  | Some e => throw (simulationFailure what e (logs simResult))
  | None =>
      signedTx <- call (fun h => walletSign h versionedTx)
                       (EvWalletSign versionedTx) ;;
      raw <- lift (serialize w signedTx) ;;
      sig <- call (fun h => sendRawTransaction w h raw true)
                  (EvSendRawTransaction raw true) ;;
      call (fun h => confirmTransaction w h sig (blockhash bh)
                       (lastValidBlockHeight bh))
           (EvConfirmTransaction sig (blockhash bh)
              (lastValidBlockHeight bh)) ;;;
      ret sig
  end.

(** [Keypair.generate()] *)
Definition Keypair_generate : M Keypair :=
  fun h => (Ok (generateKeypair w h), [EvKeypairGenerate (generateKeypair w h)]).

(** token.ts, lines 52-333. *)
Definition createToken (payer : PublicKey) (walletSign : WalletSign)
  (metadata : TokenMetadata) (extensions : TokenExtensions)
  (hookConfig : TransferHookConfig) : M CreateTokenResult :=
  (* Step 1: upload image and metadata *)
  let genericFile := mkGenericFile (image metadata) (imageFileName metadata)
                       (imageContentType metadata) in
  uris <- call (fun h => upload w h [genericFile]) (EvUpload [genericFile]) ;;
  let imageUri := hd_error uris in
  let json := mkMetadataJson (name metadata) (symbol metadata)
                (description metadata) imageUri
                [(imageContentType metadata, imageUri)] in
  metadataUri <- call (fun h => uploadJson w h json) (EvUploadJson json) ;;
  (* Step 2: build the mint transaction *)
  mintKeypair <- Keypair_generate ;;
  let mint := publicKey mintKeypair in
  let mintLen := getMintLen lib (extensionTypes extensions) in
  lamports <- call (fun h => getMinimumBalanceForRentExemption w h mintLen)
                   (EvGetMinimumBalanceForRentExemption mintLen) ;;
  let transaction :=
    mintTransaction lib payer mint metadata extensions hookConfig lamports in
  let ata := getAssociatedTokenAddressSync lib mint payer false
               TOKEN_2022_PROGRAM_ID in
  (* Step 3: build the metadata instructions *)
  let metaIxs :=
    createV1 w (mkCreateV1Input mintKeypair (name metadata)
                  (symbol metadata) metadataUri) in
  (* Step 4: sign and send Tx1 *)
  mintTxSig <- simulateSignSend "Mint" payer walletSign mintKeypair
                 transaction ;;
  (* Step 5: send Tx2 *)
  metaTxSig <- simulateSignSend "Metadata" payer walletSign mintKeypair
                 (map Raw metaIxs) ;;
  ret (mkCreateTokenResult mint ata mintTxSig metaTxSig).

End CreateToken.

(* ================================================================== *)
(** * Vocabulary of the properties                                      *)
(* ================================================================== *)

(** ** Instruction kinds *)

Definition isCreateAccount (ix : Instruction) : bool :=
  match ix with CreateAccount _ _ _ _ _ => true | _ => false end.

Definition isInitNonTransferable (ix : Instruction) : bool :=
  match ix with InitializeNonTransferableMint _ _ => true | _ => false end.

Definition isInitPermanentDelegate (ix : Instruction) : bool :=
  match ix with InitializePermanentDelegate _ _ _ => true | _ => false end.

Definition isInitTransferFee (ix : Instruction) : bool :=
  match ix with InitializeTransferFeeConfig _ _ _ _ _ _ => true | _ => false end.

Definition isInitInterestBearing (ix : Instruction) : bool :=
  match ix with InitializeInterestBearingMint _ _ _ _ => true | _ => false end.

Definition isInitTransferHook (ix : Instruction) : bool :=
  match ix with InitializeTransferHook _ _ _ _ => true | _ => false end.

(** The five mint-extension initialisations. *)
Definition isMintExtensionInit (ix : Instruction) : bool :=
  isInitNonTransferable ix || isInitPermanentDelegate ix
  || isInitTransferFee ix || isInitInterestBearing ix || isInitTransferHook ix.

Definition isInitializeMint (ix : Instruction) : bool :=
  match ix with InitializeMint _ _ _ _ _ => true | _ => false end.

Definition isCreateAta (ix : Instruction) : bool :=
  match ix with CreateAssociatedTokenAccount _ _ _ _ _ => true | _ => false end.

Definition isMintTo (ix : Instruction) : bool :=
  match ix with MintTo _ _ _ _ _ => true | _ => false end.

Definition isReallocate (ix : Instruction) : bool :=
  match ix with Reallocate _ _ _ _ _ => true | _ => false end.

Definition isEnableMemo (ix : Instruction) : bool :=
  match ix with EnableRequiredMemoTransfers _ _ _ => true | _ => false end.

Definition isEnableCpiGuard (ix : Instruction) : bool :=
  match ix with EnableCpiGuard _ _ _ => true | _ => false end.

Definition isEnableAccountExtension (ix : Instruction) : bool :=
  isEnableMemo ix || isEnableCpiGuard ix.

Definition isInitRegistry (ix : Instruction) : bool :=
  match ix with
  | Anchor c => String.eqb (ac_method c) "initializeRegistry"
  | _ => false
  end.

(** ** Order inside a plan *)

(** Every [p]-instruction of [l] stands strictly before every
    [q]-instruction of [l]. *)
Definition precedes (p q : Instruction -> bool) (l : list Instruction) : Prop :=
  forall i j x y,
    nth_error l i = Some x -> nth_error l j = Some y ->
    p x = true -> q y = true -> (i < j)%nat.

(** A decision procedure for [precedes]: from the first [q] on, no [p]. *)
Fixpoint precedesb (p q : Instruction -> bool) (l : list Instruction) : bool :=
  match l with
  | [] => true
  | x :: r => if q x then negb (existsb p (x :: r)) else precedesb p q r
  end.

Definition occurrences (p : Instruction -> bool) (l : list Instruction) : nat :=
  List.length (filter p l).

(** ** Order inside a trace *)

Section TraceProperties.

Variable w : World.

(** Every transaction sent in [evs] is sent with [skipPreflight] set,
    right after the wallet signed a transaction that had just been
    simulated without error. *)
Definition sends_after_simulation (evs : list Event) : Prop :=
  forall pre raw skip r post,
    evs = (pre ++ EvSendRawTransaction raw skip r :: post)%list ->
    skip = true /\
    exists pre' tx sim signed,
      pre = (pre' ++ [ EvSimulateTransaction tx (Ok sim);
                       EvWalletSign tx (Ok signed) ])%list
      /\ err sim = None
      /\ serialize w signed = Ok raw.

(** A simulation that reports an error is the last call made, and the
    outcome is the failure carrying that error and the log. *)
Definition failed_simulation_aborts {A} (r : Outcome A) (evs : list Event)
  : Prop :=
  forall pre tx sim e post,
    evs = (pre ++ EvSimulateTransaction tx (Ok sim) :: post)%list ->
    err sim = Some e ->
    post = [] /\
    exists what, r = Throw (simulationFailure what e (logs sim)).

(** Both properties of one run (outcome and events). *)
Definition disciplined {A} (p : Outcome A * list Event) : Prop :=
  sends_after_simulation (snd p)
  /\ failed_simulation_aborts (fst p) (snd p).

Definition isSimulate (e : Event) : bool :=
  match e with EvSimulateTransaction _ _ => true | _ => false end.

Definition isSend (e : Event) : bool :=
  match e with EvSendRawTransaction _ _ _ => true | _ => false end.

Definition isProbe (e : Event) : bool :=
  match e with EvAddExtraAccountMetasForExecute _ _ _ => true | _ => false end.

End TraceProperties.

(** ** Checks used to settle the time round trips by enumeration *)

Definition digits : list ascii :=
  ["0"; "1"; "2"; "3"; "4"; "5"; "6"; "7"; "8"; "9"]%char.

Definition hhmm (a b d e : ascii) : string :=
  String a (String b (String ":" (String d (String e EmptyString)))).

(** Every string made of two digits, a colon and two digits. *)
Definition candidates : list string :=
  flat_map (fun a =>
    flat_map (fun b =>
      flat_map (fun d => map (hhmm a b d) digits) digits) digits) digits.

Definition string_roundtrip_ok (s : string) : bool :=
  match istTimeToUtcMinute s with
  | Some m => String.eqb (utcMinuteToIstTime m) s
  | None => false
  end.

Definition minute_roundtrip_ok (m : Z) : bool :=
  match istTimeToUtcMinute (utcMinuteToIstTime m) with
  | Some m' => m' =? m mod 1440
  | None => false
  end.

(** The integers from [lo] on, [n] of them. *)
Definition range (lo : Z) (n : nat) : list Z :=
  map (fun k => lo + Z.of_nat k) (seq 0 n).

(* ================================================================== *)
(** * Concrete collaborators used to run the code on examples           *)
(* ================================================================== *)

Definition demoLib : Lib :=
  mkLib (fun ts => 82 + 83 * Z.of_nat (List.length ts))
        (fun seeds prog =>
           (match seeds with
            | SeedText s :: SeedKey k :: _ => s ++ "/" ++ k
            | SeedText s :: _ => s
            | _ => "pda"
            end, 255))
        (fun mint owner _ _ => "ata/" ++ mint ++ "/" ++ owner).

(** A ledger on which every call succeeds: [getMint] answers [mintState],
    the extra-account probe appends [extras] to the instruction it is
    given, simulation reports [simErr]. *)
Definition demoWorld (mintState : Outcome Mint) (extras : list AccountMeta)
  (simErr : option string) : World :=
  mkWorld
    (fun _ _ => Ok ["https://arweave.net/image"])
    (fun _ _ => Ok "https://arweave.net/metadata")
    (fun _ => mkKeypair "MintKey" [])
    (fun _ _ => Ok 1000000)
    (fun _ => Ok (mkBlockhashInfo "blockhash" 100))
    (fun _ _ => Ok (mkSimulationValue simErr (Some ["log line"])))
    (fun _ _ _ => Ok "signature")
    (fun _ _ _ _ => Ok tt)
    (fun _ _ => Ok (Some (mkAccountInfo TOKEN_2022_PROGRAM_ID)))
    (fun _ _ => mintState)
    (fun _ _ _ => Ok tt)
    (fun _ ix _ _ _ _ _ _ =>
       (mkIx (keys ix ++ extras)%list (programId ix) (data ix), Ok tt))
    (fun _ _ => Ok (mkIcoData "Creator" "Mint" "Vault"))
    (fun _ _ _ => Ok "signature")
    (fun _ => None)
    (fun _ => Ok [])
    (fun _ => []).

Definition demoWallet : WalletSign :=
  fun _ tx => Ok (mkVersionedTransaction (message tx)
                    (signers tx ++ ["Wallet"])%list).

Definition demoMetadata : TokenMetadata :=
  mkTokenMetadata "Token" "TKN" "A token" 9 1000 [] "t.png" "image/png".

Definition demoExtras : list AccountMeta :=
  [ mkMeta "HookConfig" false false; mkMeta "Whitelist" false true ].

(** The request of the scenario: a transfer fee of 50 basis points capped
    at 5000, permanent delegation and non-transferability. *)
Definition scenarioRequest : TokenExtensions :=
  mkTokenExtensions (Some true) (Some (mkTransferFee 50 5000)) None None
    (Some true) None.

(** An Anchor account table with the names of the purchase schema. *)
Definition demoPurchaseIdl : list IdlAccount :=
  map (fun n => mkIdlAccount n true false) purchaseTokenAccountNames.


(** Ledgers for the resolver: the mint is unknown; the mint carries a
    transfer hook with program [prog]. *)
Definition notFoundWorld : World :=
  demoWorld (Throw (Error "TokenAccountNotFoundError")) demoExtras None.

Definition hookMint (prog : PublicKey) : Mint :=
  mkMint "Mint" 9 (Some (mkTransferHook "Authority" prog)).

Definition hookWorld : World :=
  demoWorld (Ok (hookMint TRANSFER_HOOK_PROGRAM_ID)) demoExtras None.

(** The hook extension is present but its program is the null address;
    the probe appends [extras]. *)
Definition nullHookWorld (extras : list AccountMeta) : World :=
  demoWorld (Ok (hookMint PublicKey_.default)) extras None.

(** A ledger whose simulation reports an error. *)
Definition simFailWorld : World :=
  demoWorld (Ok (hookMint TRANSFER_HOOK_PROGRAM_ID)) [] (Some "AccountInUse").

Definition demoPurchase : BuyTokenParams := mkBuyTokenParams "Mint" 3.

(* ================================================================== *)
(** * extensions.ts: harvestTransferFees                                *)
(* ================================================================== *)

(** [getTransferFeeAmount(account)]: the transfer-fee data of a token
    account. *)
Record TransferFeeAmount := mkTransferFeeAmount {
  withheldAmount : Z
}.

(** [xs.slice(i, j)] for [0 <= i <= j]. *)
Definition slice {A} (i j : nat) (xs : list A) : list A :=
  firstn (j - i) (skipn i xs).

(** extensions.ts, lines 56-61: the batches pushed by the loop
    [for (let i = 0; i < sources.length; i += 20)], from index [i] on. *)
Equations? harvestBatches (sources : list PublicKey) (i : nat)
  : list (list PublicKey) by wf (List.length sources - i)%nat lt :=
  harvestBatches sources i with lt_dec i (List.length sources) => {
    | left _ => slice i (i + 20) sources :: harvestBatches sources (i + 20);
    | right _ => []
  }.
Proof. lia. Qed.

Section Extensions.

Variable lib : Lib.

(** The account data returned by [getProgramAccounts] and the unpacked
    token account; the unpacking functions and the two fee instruction
    builders of @solana/spl-token are parameters. *)
Variables RawAccount TokenAccount : Type.
Variable unpackAccount :
  PublicKey -> RawAccount -> PublicKey -> Outcome TokenAccount.
Variable getTransferFeeAmount :
  TokenAccount -> Outcome (option TransferFeeAmount).
Variable createHarvestWithheldTokensToMintInstruction :
  PublicKey -> list PublicKey -> PublicKey -> TransactionInstruction.
Variable createWithdrawWithheldTokensFromMintInstruction :
  PublicKey -> PublicKey -> PublicKey -> list PublicKey -> PublicKey ->
  TransactionInstruction.

(** extensions.ts, lines 43-51: the body of the scan loop; an account
    that cannot be unpacked is skipped. *)
Definition hasWithheldFees (pubkey : PublicKey) (account : RawAccount) : bool :=
  match unpackAccount pubkey account TOKEN_2022_PROGRAM_ID with
  | Ok tokenAccount =>
      match getTransferFeeAmount tokenAccount with
      | Ok (Some feeAmount) => 0 <? withheldAmount feeAmount
      | Ok None => false
      | Throw _ => false
      end
  | Throw _ => false
  end.

(** extensions.ts, lines 41-52. *)
Fixpoint sourcesWithFees (accounts : list (PublicKey * RawAccount))
  : list PublicKey :=
  match accounts with
  | [] => []
  | (pubkey, account) :: rest =>
      (when (hasWithheldFees pubkey account) [pubkey]
       ++ sourcesWithFees rest)%list
  end.

(** extensions.ts, lines 41-79: the instruction list, given the accounts
    returned by the program-account scan and the owner account info
    fetched at line 66. *)
Definition harvestInstructions (payer mintAddress : PublicKey)
  (accounts : list (PublicKey * RawAccount))
  (ownerAtaInfo : option AccountInfo) : list Instruction :=
  let sources := sourcesWithFees accounts in
  let ownerAta := getAssociatedTokenAddressSync lib mintAddress payer false
                    TOKEN_2022_PROGRAM_ID in
  ((if 0 <? Z.of_nat (List.length sources)
    then map (fun batch =>
                Raw (createHarvestWithheldTokensToMintInstruction mintAddress
                       batch TOKEN_2022_PROGRAM_ID))
             (harvestBatches sources 0)
    else [])
   ++ when (negb (present ownerAtaInfo))
        [ CreateAssociatedTokenAccount payer ownerAta payer mintAddress
            TOKEN_2022_PROGRAM_ID ]
   ++ [ Raw (createWithdrawWithheldTokensFromMintInstruction mintAddress
               ownerAta payer [] TOKEN_2022_PROGRAM_ID) ])%list.

(** extensions.ts, lines 41-81: [harvestTransferFees] once the
    program-account scan of line 37 has returned [accounts]. *)
Definition harvestTransferFees (w : World) (payer : PublicKey)
  (walletSign : WalletSign) (mintAddress : PublicKey)
  (accounts : list (PublicKey * RawAccount)) : M string :=
  let ownerAta := getAssociatedTokenAddressSync lib mintAddress payer false
                    TOKEN_2022_PROGRAM_ID in
  ownerAtaInfo <- call (fun h => getAccountInfo w h ownerAta)
                       (EvGetAccountInfo ownerAta) ;;
  sendInstructions w payer
    (harvestInstructions payer mintAddress accounts ownerAtaInfo)
    walletSign [] false.

End Extensions.

Arguments hasWithheldFees {RawAccount TokenAccount}.
Arguments sourcesWithFees {RawAccount TokenAccount}.
Arguments harvestInstructions lib {RawAccount TokenAccount}.
Arguments harvestTransferFees lib {RawAccount TokenAccount}.

(** Sample collaborators for the harvest: account data is the withheld
    amount, a negative one standing for data that does not unpack. *)
Definition demoUnpack (pubkey : PublicKey) (account : Z) (programId : PublicKey)
  : Outcome Z :=
  if account <? 0 then Throw (Error "invalid account data") else Ok account.

Definition demoFeeAmount (tokenAccount : Z)
  : Outcome (option TransferFeeAmount) :=
  Ok (Some (mkTransferFeeAmount tokenAccount)).

Definition demoHarvestIx (mint : PublicKey) (sources : list PublicKey)
  (programId : PublicKey) : TransactionInstruction :=
  mkIx (mkMeta mint false true :: map (fun s => mkMeta s false true) sources)
    programId (DataBytes []).

Definition demoWithdrawIx (mint destination authority : PublicKey)
  (multiSigners : list PublicKey) (programId : PublicKey)
  : TransactionInstruction :=
  mkIx [ mkMeta mint false true; mkMeta destination false true;
         mkMeta authority true false ]
    programId (DataBytes []).

Definition demoAccounts : list (PublicKey * Z) :=
  [ ("A", 5); ("B", 0); ("C", -1); ("D", 7) ].

(* ================================================================== *)
(** * transferHook.ts: detectExtensions and the whitelist calls          *)
(* ================================================================== *)

(** types.ts, [MintExtensions]; an absent optional field is [None]. *)
Module MintExtensions.
Record t := mk {
  hasTransferHook : bool;
  transferHookProgramId : option string;
  hasTransferFee : bool;
  transferFeeBps : option Z;
  maxFee : option string;
  withheldOnMint : option string;
  withdrawAuthority : option string;
  hasPermanentDelegate : bool;
  permanentDelegate : option string;
  hasInterestBearing : bool;
  currentRate : option Z;
  rateAuthority : option string
}.
End MintExtensions.

(** What [getTransferFeeConfig] and
    [getInterestBearingMintConfigState] decode. *)
Record TransferFeeConfig := mkTransferFeeConfig {
  newerTransferFeeBasisPoints : Z;
  newerMaximumFee : Z;
  tfc_withheldAmount : Z;
  withdrawWithheldAuthority : PublicKey
}.

Record InterestBearingMintConfigState := mkInterestBearingState {
  ib_currentRate : Z;
  ib_rateAuthority : PublicKey
}.

(** Each flag of a result agrees with its detail field. *)
Definition coherent (ext : MintExtensions.t) : Prop :=
  MintExtensions.hasTransferHook ext
  = present (MintExtensions.transferHookProgramId ext)
  /\ MintExtensions.hasPermanentDelegate ext
     = present (MintExtensions.permanentDelegate ext)
  /\ MintExtensions.hasTransferFee ext
     = present (MintExtensions.transferFeeBps ext)
  /\ MintExtensions.hasInterestBearing ext
     = present (MintExtensions.currentRate ext).

(** The detail fields the four blocks write. *)
Definition details (ext : MintExtensions.t)
  : option string * option PublicKey * option Z * option Z :=
  (MintExtensions.transferHookProgramId ext,
   MintExtensions.permanentDelegate ext,
   MintExtensions.transferFeeBps ext,
   MintExtensions.currentRate ext).

Section TransferHookModule.

Variable lib : Lib.
Variable w : World.

(** The other extension getters of @solana/spl-token, each of which may
    throw, and the printing [(Number(raw) / 10 ** decimals).toString()]
    of a raw amount are parameters. *)
Variable getTransferFeeConfig : Mint -> Outcome (option TransferFeeConfig).
Variable getPermanentDelegate : Mint -> Outcome (option PublicKey).
Variable getInterestBearingMintConfigState :
  Mint -> Outcome (option InterestBearingMintConfigState).
Variable unitsToString : Z -> Z -> string.

(** utils.ts, lines 71-79. *)
Definition deriveWhitelistMarkerPDA (mint user : PublicKey) : PublicKey * Z :=
  findProgramAddressSync lib
    [SeedText "whitelist"; SeedKey mint; SeedKey user]
    TRANSFER_HOOK_PROGRAM_ID.

(** transferHook.ts, lines 64-70: the first [try] block.  The library's
    [getTransferHook] is total on a mint, so nothing is caught here. *)
Definition detectTransferHook (mintInfo : Mint) (ext : MintExtensions.t)
  : MintExtensions.t :=
  match getTransferHook mintInfo with
  | Some hookData =>
      if negb (String.eqb (th_programId hookData) PublicKey_.default)
      then MintExtensions.mk
             true (Some (th_programId hookData))
             (MintExtensions.hasTransferFee ext)
             (MintExtensions.transferFeeBps ext)
             (MintExtensions.maxFee ext)
             (MintExtensions.withheldOnMint ext)
             (MintExtensions.withdrawAuthority ext)
             (MintExtensions.hasPermanentDelegate ext)
             (MintExtensions.permanentDelegate ext)
             (MintExtensions.hasInterestBearing ext)
             (MintExtensions.currentRate ext)
             (MintExtensions.rateAuthority ext)
      else ext
  | None => ext
  end.

(** transferHook.ts, lines 72-82: the second [try] block; a getter that
    throws is caught and leaves [ext] as it was. *)
Definition detectTransferFee (mintInfo : Mint) (decimals : Z)
  (ext : MintExtensions.t) : MintExtensions.t :=
  match getTransferFeeConfig mintInfo with
  | Ok (Some tfConfig) =>
      MintExtensions.mk
        (MintExtensions.hasTransferHook ext)
        (MintExtensions.transferHookProgramId ext)
        true (Some (newerTransferFeeBasisPoints tfConfig))
        (Some (unitsToString (newerMaximumFee tfConfig) decimals))
        (Some (unitsToString (tfc_withheldAmount tfConfig) decimals))
        (Some (withdrawWithheldAuthority tfConfig))
        (MintExtensions.hasPermanentDelegate ext)
        (MintExtensions.permanentDelegate ext)
        (MintExtensions.hasInterestBearing ext)
        (MintExtensions.currentRate ext)
        (MintExtensions.rateAuthority ext)
  | Ok None => ext
  | Throw _ => ext
  end.

(** transferHook.ts, lines 84-90: the third [try] block. *)
Definition detectPermanentDelegate (mintInfo : Mint) (ext : MintExtensions.t)
  : MintExtensions.t :=
  match getPermanentDelegate mintInfo with
  | Ok (Some delegate) =>
      if negb (String.eqb delegate PublicKey_.default)
      then MintExtensions.mk
             (MintExtensions.hasTransferHook ext)
             (MintExtensions.transferHookProgramId ext)
             (MintExtensions.hasTransferFee ext)
             (MintExtensions.transferFeeBps ext)
             (MintExtensions.maxFee ext)
             (MintExtensions.withheldOnMint ext)
             (MintExtensions.withdrawAuthority ext)
             true (Some delegate)
             (MintExtensions.hasInterestBearing ext)
             (MintExtensions.currentRate ext)
             (MintExtensions.rateAuthority ext)
      else ext
  | Ok None => ext
  | Throw _ => ext
  end.

(** transferHook.ts, lines 92-99: the fourth [try] block. *)
Definition detectInterestBearing (mintInfo : Mint) (ext : MintExtensions.t)
  : MintExtensions.t :=
  match getInterestBearingMintConfigState mintInfo with
  | Ok (Some ibConfig) =>
      MintExtensions.mk
        (MintExtensions.hasTransferHook ext)
        (MintExtensions.transferHookProgramId ext)
        (MintExtensions.hasTransferFee ext)
        (MintExtensions.transferFeeBps ext)
        (MintExtensions.maxFee ext)
        (MintExtensions.withheldOnMint ext)
        (MintExtensions.withdrawAuthority ext)
        (MintExtensions.hasPermanentDelegate ext)
        (MintExtensions.permanentDelegate ext)
        true (Some (ib_currentRate ibConfig))
        (Some (ib_rateAuthority ibConfig))
  | Ok None => ext
  | Throw _ => ext
  end.

(** transferHook.ts, lines 49-103.  Only the [getMint] call is outside
    a [try] block. *)
Definition detectExtensions (mintAddress : PublicKey) : M MintExtensions.t :=
  mintInfo <- call (fun h => getMint w h mintAddress) (EvGetMint mintAddress) ;;
  let decimals := mintDecimals mintInfo in
  let ext := MintExtensions.mk false None false None None None None
               false None false None None in
  let ext := detectTransferHook mintInfo ext in
  let ext := detectTransferFee mintInfo decimals ext in
  let ext := detectPermanentDelegate mintInfo ext in
  let ext := detectInterestBearing mintInfo ext in
  ret ext.

(** transferHook.ts, lines 210-233: the call [addToWhitelist] hands to
    the Anchor client. *)
Definition addToWhitelist_call (payer mintAddress userAddress : PublicKey)
  : AnchorCall :=
  let configPda := fst (deriveHookConfigPDA lib mintAddress) in
  let whitelistMarker :=
    fst (deriveWhitelistMarkerPDA mintAddress userAddress) in
  mkAnchorCall TRANSFER_HOOK_PROGRAM_ID "addToWhitelist" [] []
    [ ("payer", payer); ("owner", payer); ("config", configPda);
      ("mint", mintAddress); ("userPubkey", userAddress);
      ("whitelistMarker", whitelistMarker);
      ("systemProgram", SystemProgram_programId) ]
    [].

Definition addToWhitelist (payer mintAddress userAddress : PublicKey)
  : M string :=
  let c := addToWhitelist_call payer mintAddress userAddress in
  call (fun h => anchorRpc w h [] c) (EvAnchorRpc [] c).

(** transferHook.ts, lines 238-260. *)
Definition removeFromWhitelist_call (payer mintAddress userAddress : PublicKey)
  : AnchorCall :=
  let configPda := fst (deriveHookConfigPDA lib mintAddress) in
  let whitelistMarker :=
    fst (deriveWhitelistMarkerPDA mintAddress userAddress) in
  mkAnchorCall TRANSFER_HOOK_PROGRAM_ID "removeFromWhitelist" [] []
    [ ("payer", payer); ("owner", payer); ("config", configPda);
      ("mint", mintAddress); ("userPubkey", userAddress);
      ("whitelistMarker", whitelistMarker) ]
    [].

Definition removeFromWhitelist (payer mintAddress userAddress : PublicKey)
  : M string :=
  let c := removeFromWhitelist_call payer mintAddress userAddress in
  call (fun h => anchorRpc w h [] c) (EvAnchorRpc [] c).

End TransferHookModule.

(* ================================================================== *)
(** * ico.ts: launchICO                                                 *)
(* ================================================================== *)

(** types.ts, [LaunchICOParams].  The caps, the amount, the price and the
    times range over the whole numbers; a parameter with a fractional
    part is outside this model. *)
Record LaunchICOParams := mkLaunchICOParams {
  li_mint : PublicKey;
  softCapSol : Z;
  hardCapSol : Z;
  startTime : option Z;
  endTime : option Z;
  li_amount : Z;
  pricePerTokenSol : Z
}.

Section LaunchIco.

Variable lib : Lib.
Variable w : World.

(** ico.ts, lines 63-124: everything [launchICO] does before [.rpc()].
    [now] is the value of [Date.now()] (milliseconds), read only when no
    start time is given.  Each [new BN(..)] throws when its argument
    reaches 2^53: the one of the resolver call (line 85, for a Token-2022
    mint only) and the six of the method call (lines 104-109), which are
    built in the order of the arguments. *)
Definition launchICO_prepare (payer : PublicKey) (params : LaunchICOParams)
  (now : Z) : M (list Instruction * AnchorCall) :=
  let mint := li_mint params in
  let config := fst (deriveICOConfigPDA lib) in
  let icoConfigAccount := fst (deriveICOConfigAccountPDA lib mint) in
  let icoVaultAccount := fst (deriveICOVaultAccountPDA lib mint) in
  tokenProgram <- getTokenProgram w mint ;;
  let vaultAta := getAssociatedTokenAddressSync lib mint icoVaultAccount true
                    tokenProgram in
  let creatorAta := getAssociatedTokenAddressSync lib mint payer false
                      tokenProgram in
  let startTime_ :=
    match startTime params with
    | Some t => t
    | None => JS.floor_div now 1000
    end in
  let endTime_ :=
    match endTime params with
    | Some t => t
    | None => startTime_ + 30 * 24 * 60 * 60
    end in
  extraAccounts <-
    (if String.eqb tokenProgram TOKEN_2022_PROGRAM_ID
     then amount <- lift (newBN (li_amount params * 10 ^ 9)) ;;
          resolveTransferHookAccounts w mint creatorAta vaultAta payer
            amount 9
     else ret []) ;;
  preIxs <-
    try_catch
      (call (fun h => getAccount w h creatorAta tokenProgram)
            (EvGetAccount creatorAta tokenProgram) ;;;
       ret [])
      (fun _ => ret [ CreateAssociatedTokenAccount payer creatorAta payer mint
                        tokenProgram ]) ;;
  softCap <- lift (newBN (softCapSol params * 10 ^ 9)) ;;
  hardCap <- lift (newBN (hardCapSol params * 10 ^ 9)) ;;
  start <- lift (newBN startTime_) ;;
  finish <- lift (newBN endTime_) ;;
  amount <- lift (newBN (li_amount params * 10 ^ 9)) ;;
  price <- lift (newBN (pricePerTokenSol params * 10 ^ 9)) ;;
  ret (preIxs,
       mkAnchorCall ICO_PROGRAM_ID "initializeIco"
         [ Some softCap; Some hardCap; Some start; Some finish;
           Some amount; Some price ]
         []
         [ ("creator", payer); ("mint", mint); ("config", config);
           ("icoConfigAccount", icoConfigAccount);
           ("icoVaultAccount", icoVaultAccount);
           ("vaultAta", vaultAta); ("creatorAta", creatorAta);
           ("tokenProgram", tokenProgram);
           ("associatedTokenProgram", ASSOCIATED_TOKEN_PROGRAM_ID);
           ("systemProgram", SystemProgram_programId) ]
         extraAccounts).

(** ico.ts, lines 57-126. *)
Definition launchICO (payer : PublicKey) (params : LaunchICOParams) (now : Z)
  : M string :=
  p <- launchICO_prepare payer params now ;;
  call (fun h => anchorRpc w h (fst p) (snd p)) (EvAnchorRpc (fst p) (snd p)).

End LaunchIco.

(* ================================================================== *)
(** * Further vocabulary                                                *)
(* ================================================================== *)

(** The string holds the character. *)
Fixpoint containsChar (c : ascii) (s : string) : bool :=
  match s with
  | EmptyString => false
  | String a r => Ascii.eqb a c || containsChar c r
  end.

Definition time_string_ok (m : Z) : bool :=
  validHHMM (utcMinuteToIstTime m) && validHHMM (utcMinuteToUtcTime m).

Definition minute_in_day_ok (s : string) : bool :=
  match istTimeToUtcMinute s with
  | Some u => (0 <=? u) && (u <? 1440)
  | None => false
  end.

(** The instruction initialises the mint extension [t]. *)
Definition initialises (t : ExtensionType.t) (ix : Instruction) : bool :=
  match t, ix with
  | ExtensionType.NonTransferable, InitializeNonTransferableMint _ _ => true
  | ExtensionType.PermanentDelegate, InitializePermanentDelegate _ _ _ => true
  | ExtensionType.TransferFeeConfig,
    InitializeTransferFeeConfig _ _ _ _ _ _ => true
  | ExtensionType.InterestBearingConfig,
    InitializeInterestBearingMint _ _ _ _ => true
  | ExtensionType.TransferHook, InitializeTransferHook _ _ _ _ => true
  | _, _ => false
  end.

Definition isAccountExtension (t : ExtensionType.t) : bool :=
  match t with
  | ExtensionType.MemoTransfer | ExtensionType.CpiGuard => true
  | _ => false
  end.

(** The instruction works on the mint [mint] and its associated account
    [ata], with [payer] paying and holding every authority, inside the
    Token-2022 program. *)
Definition wellAddressed (mint ata payer : PublicKey) (ix : Instruction) : Prop :=
  match ix with
  | CreateAccount f n _ _ o =>
      f = payer /\ n = mint /\ o = TOKEN_2022_PROGRAM_ID
  | InitializeNonTransferableMint m p =>
      m = mint /\ p = TOKEN_2022_PROGRAM_ID
  | InitializePermanentDelegate m d p =>
      m = mint /\ d = payer /\ p = TOKEN_2022_PROGRAM_ID
  | InitializeTransferFeeConfig m c wd _ _ p =>
      m = mint /\ c = payer /\ wd = payer /\ p = TOKEN_2022_PROGRAM_ID
  | InitializeInterestBearingMint m a _ p =>
      m = mint /\ a = payer /\ p = TOKEN_2022_PROGRAM_ID
  | InitializeTransferHook m a hp p =>
      m = mint /\ a = payer /\ hp = TRANSFER_HOOK_PROGRAM_ID
      /\ p = TOKEN_2022_PROGRAM_ID
  | InitializeMint m _ ma fa p =>
      m = mint /\ ma = payer /\ fa = payer /\ p = TOKEN_2022_PROGRAM_ID
  | CreateAssociatedTokenAccount py a o m p =>
      py = payer /\ a = ata /\ o = payer /\ m = mint
      /\ p = TOKEN_2022_PROGRAM_ID
  | MintTo m d a _ p =>
      m = mint /\ d = ata /\ a = payer /\ p = TOKEN_2022_PROGRAM_ID
  | Reallocate a py _ o p =>
      a = ata /\ py = payer /\ o = payer /\ p = TOKEN_2022_PROGRAM_ID
  | EnableRequiredMemoTransfers a au p =>
      a = ata /\ au = payer /\ p = TOKEN_2022_PROGRAM_ID
  | EnableCpiGuard a au p =>
      a = ata /\ au = payer /\ p = TOKEN_2022_PROGRAM_ID
  | Anchor c =>
      ac_program c = TRANSFER_HOOK_PROGRAM_ID
      /\ lookupAccount "mint" (ac_accounts c) = Some mint
      /\ lookupAccount "payer" (ac_accounts c) = Some payer
  | Raw _ => False
  end.

(** The error a logged call answered with, if it threw. *)
Definition outcomeError {A} (r : Outcome A) : option Exn :=
  match r with
  | Throw e => Some e
  | Ok _ => None
  end.

Definition eventError (ev : Event) : option Exn :=
  match ev with
  | EvUpload _ r => outcomeError r
  | EvUploadJson _ r => outcomeError r
  | EvKeypairGenerate _ => None
  | EvGetMinimumBalanceForRentExemption _ r => outcomeError r
  | EvGetLatestBlockhash r => outcomeError r
  | EvSimulateTransaction _ r => outcomeError r
  | EvWalletSign _ r => outcomeError r
  | EvSendRawTransaction _ _ r => outcomeError r
  | EvConfirmTransaction _ _ _ r => outcomeError r
  | EvGetAccountInfo _ r => outcomeError r
  | EvGetMint _ r => outcomeError r
  | EvGetAccount _ _ r => outcomeError r
  | EvAddExtraAccountMetasForExecute _ _ r => outcomeError (snd r)
  | EvAccountFetch _ r => outcomeError r
  | EvAnchorRpc _ _ r => outcomeError r
  end.

(** A run stops at the first call that throws and throws that same
    error: no call follows it. *)
Definition fails_fast {A} (p : Outcome A * list Event) : Prop :=
  forall pre ev post e,
    snd p = (pre ++ ev :: post)%list -> eventError ev = Some e ->
    post = [] /\ fst p = Throw e.

Definition isWalletSign (e : Event) : bool :=
  match e with EvWalletSign _ _ => true | _ => false end.

Definition isRpc (e : Event) : bool :=
  match e with EvAnchorRpc _ _ _ => true | _ => false end.

Definition isGetMint (e : Event) : bool :=
  match e with EvGetMint _ _ => true | _ => false end.

(** A ledger whose node refuses every transaction; it knows no mint and
    no sale. *)
Definition sendFailWorld : World :=
  mkWorld
    (fun _ _ => Ok []) (fun _ _ => Ok "uri") (fun _ => mkKeypair "MintKey" [])
    (fun _ _ => Ok 1) (fun _ => Ok (mkBlockhashInfo "blockhash" 100))
    (fun _ _ => Ok (mkSimulationValue None None))
    (fun _ _ _ => Throw (Error "node is behind"))
    (fun _ _ _ _ => Ok tt) (fun _ _ => Ok None)
    (fun _ _ => Throw (Error "no mint")) (fun _ _ _ => Ok tt)
    (fun _ ix _ _ _ _ _ _ => (ix, Ok tt))
    (fun _ _ => Throw (Error "no sale")) (fun _ _ _ => Ok "signature")
    (fun _ => None) (fun _ => Ok []) (fun _ => []).

(** A ledger whose simulation passes until a transaction has been sent
    and reports an error afterwards. *)
Definition metadataFailWorld : World :=
  mkWorld
    (fun _ _ => Ok ["https://arweave.net/image"])
    (fun _ _ => Ok "https://arweave.net/metadata")
    (fun _ => mkKeypair "MintKey" [])
    (fun _ _ => Ok 1000000)
    (fun _ => Ok (mkBlockhashInfo "blockhash" 100))
    (fun h _ => Ok (mkSimulationValue
                      (if existsb isSend h then Some "InvalidAccountData"
                       else None)
                      (Some ["log line"])))
    (fun _ _ _ => Ok "signature")
    (fun _ _ _ _ => Ok tt)
    (fun _ _ => Ok None)
    (fun _ _ => Throw (Error "no mint"))
    (fun _ _ _ => Ok tt)
    (fun _ ix _ _ _ _ _ _ => (ix, Ok tt))
    (fun _ _ => Throw (Error "no sale"))
    (fun _ _ _ => Ok "signature")
    (fun _ => None) (fun _ => Ok []) (fun _ => []).

(** Sample extension getters: a transfer fee of 50 basis points, a
    permanent delegate that is the null address, and an interest-bearing
    extension that cannot be read. *)
Definition demoTransferFeeConfig (m : Mint)
  : Outcome (option TransferFeeConfig) :=
  Ok (Some (mkTransferFeeConfig 50 5000 0 "Authority")).

Definition demoPermanentDelegate (m : Mint) : Outcome (option PublicKey) :=
  Ok (Some PublicKey_.default).

Definition demoInterestBearing (m : Mint)
  : Outcome (option InterestBearingMintConfigState) :=
  Throw (Error "extension not found").

Definition demoUnits (raw decimals : Z) : string := JS.toString raw.

(** A hook configuration with trading hours and transfer bounds. *)
Definition demoHookConfig : TransferHookConfig :=
  mkTransferHookConfig (Some (mkTradingHours 225 585))
    (Some (mkTransferLimits 1 1000)) None.

(* ================================================================== *)
(** * Properties of the time helpers                                    *)
(* ================================================================== *)

Module TimeFacts.

Lemma isDigit_digits (c : ascii) : isDigit c = true -> In c digits.
Proof.
  intro H.
  assert (E : existsb (Ascii.eqb c) digits = true).
  { revert H. destruct c as [[] [] [] [] [] [] [] []]; vm_compute; auto. }
  apply existsb_exists in E. destruct E as [x [Hin Hx]].
  apply Ascii.eqb_eq in Hx. now subst.
Qed.

Lemma valid_candidate (s : string) : validHHMM s = true -> In s candidates.
Proof.
  intro H.
  destruct s as [|a [|b [|c [|d [|e [|? ?]]]]]]; cbn [validHHMM] in H; try discriminate.
  do 6 (apply andb_prop in H; destruct H as [H ?]).
  match goal with E : Ascii.eqb c _ = true |- _ =>
    apply Ascii.eqb_eq in E; subst c end.
  unfold candidates.
  apply (proj2 (in_flat_map _ _ _)).
  exists a; split; [apply isDigit_digits; assumption|].
  apply (proj2 (in_flat_map _ _ _)).
  exists b; split; [apply isDigit_digits; assumption|].
  apply (proj2 (in_flat_map _ _ _)).
  exists d; split; [apply isDigit_digits; assumption|].
  apply (in_map (hhmm a b d)). apply isDigit_digits; assumption.
Qed.

Lemma candidates_checked :
  forallb (fun s => implb (validHHMM s) (string_roundtrip_ok s)) candidates
  = true.
Proof. vm_compute. reflexivity. Qed.

Lemma range_In (lo : Z) (n : nat) (m : Z) :
  lo <= m < lo + Z.of_nat n -> In m (range lo n).
Proof.
  intro H. unfold range.
  apply in_map_iff. exists (Z.to_nat (m - lo)).
  split; [lia | apply in_seq; lia].
Qed.

Lemma minutes_checked : forallb minute_roundtrip_ok (range (-330) 3210) = true.
Proof. vm_compute. reflexivity. Qed.

Lemma string_roundtrip (s : string) :
  validHHMM s = true ->
  option_map utcMinuteToIstTime (istTimeToUtcMinute s) = Some s.
Proof.
  intro Hv.
  pose proof (proj1 (forallb_forall _ _) candidates_checked s
                (valid_candidate s Hv)) as H.
  cbv beta in H. rewrite Hv in H. unfold implb, string_roundtrip_ok in H.
  destruct (istTimeToUtcMinute s) as [m|]; [|discriminate].
  apply String.eqb_eq in H. simpl. now rewrite H.
Qed.

Lemma minute_roundtrip (m : Z) :
  -330 <= m < 2880 ->
  istTimeToUtcMinute (utcMinuteToIstTime m) = Some (m mod 1440).
Proof.
  intro Hm.
  pose proof (proj1 (forallb_forall _ _) minutes_checked m
                (range_In (-330) 3210 m ltac:(lia))) as H.
  cbv beta in H. unfold minute_roundtrip_ok in H.
  destruct (istTimeToUtcMinute (utcMinuteToIstTime m)) as [m'|];
    [|discriminate].
  apply Z.eqb_eq in H. now rewrite H.
Qed.

End TimeFacts.

(** C6 (as the code has it): converting a valid "HH:MM" string to a UTC
    minute and back gives the string again, and converting a minute [m]
    to a string and back gives [m mod 1440] for every integer [m] from
    [-330] to [2879], in particular for every minute-of-day. *)
Theorem time_conversion_roundtrip (s : string) (m : Z) :
  validHHMM s = true ->
  -330 <= m < 2880 ->
  option_map utcMinuteToIstTime (istTimeToUtcMinute s) = Some s
  /\ istTimeToUtcMinute (utcMinuteToIstTime m) = Some (m mod 1440).
Proof.
  intros Hs Hm. split.
  - now apply TimeFacts.string_roundtrip.
  - now apply TimeFacts.minute_roundtrip.
Qed.

Lemma time_conversion_roundtrip_witness :
  validHHMM "23:59" = true
  /\ -330 <= 2000 < 2880
  /\ option_map utcMinuteToIstTime (istTimeToUtcMinute "23:59") = Some "23:59"
  /\ istTimeToUtcMinute (utcMinuteToIstTime 2000) = Some (2000 mod 1440).
Proof.
  split; [reflexivity|]. split; [lia|].
  apply (time_conversion_roundtrip "23:59" 2000); [reflexivity | lia].
Defined.

(** C6 as stated fails: minutes that are not within one day of the
    minute-of-day range are not reduced modulo 1440.  The minute 3000
    prints as "31:30" and reads back as 1560, while 3000 mod 1440 = 120. *)
Lemma time_conversion_not_modular :
  utcMinuteToIstTime 3000 = "31:30"
  /\ istTimeToUtcMinute (utcMinuteToIstTime 3000) = Some 1560
  /\ istTimeToUtcMinute (utcMinuteToIstTime 3000) <> Some (3000 mod 1440).
Proof.
  split; [reflexivity|]. split; [reflexivity|].
  vm_compute. discriminate.
Qed.

(** Below [-330] the printed fields are negative and the round trip is
    off by an hour unless the minute is a multiple of 60. *)
Example time_conversion_negative :
  utcMinuteToIstTime (-400) = "-2:-10"
  /\ istTimeToUtcMinute (utcMinuteToIstTime (-400)) = Some 980
  /\ (-400) mod 1440 = 1040.
Proof. repeat split. Qed.

(* ================================================================== *)
(** * Properties of the mint transaction                                *)
(* ================================================================== *)

Module PlanFacts.

Lemma existsb_nth_error (p : Instruction -> bool) (l : list Instruction)
  (i : nat) (x : Instruction) :
  nth_error l i = Some x -> p x = true -> existsb p l = true.
Proof.
  intros Hn Hp. apply existsb_exists. exists x. split; [|exact Hp].
  eapply nth_error_In; eassumption.
Qed.

(** [precedesb] is sound for [precedes]. *)
Lemma precedesb_sound (p q : Instruction -> bool) (l : list Instruction) :
  precedesb p q l = true -> precedes p q l.
Proof.
  induction l as [|a l IH]; intros Hb i j x y Hi Hj Hp Hq.
  - destruct i; discriminate.
  - cbn [precedesb] in Hb. destruct (q a) eqn:Hqa.
    + apply negb_true_iff in Hb.
      rewrite (existsb_nth_error p (a :: l) i x Hi Hp) in Hb. discriminate.
    + destruct j as [|j]; [cbn in Hj; congruence|].
      destruct i as [|i]; [lia|].
      cbn in Hi, Hj. specialize (IH Hb i j x y Hi Hj Hp Hq). lia.
Qed.

(** Case analysis over the six fields of a capability request. *)
Ltac request_cases e :=
  destruct e as [[[|]|] [?|] [?|] [[|]|] [[|]|] [[|]|]].

Ltac by_computation :=
  first [ reflexivity
        | apply precedesb_sound; vm_compute; reflexivity
        | vm_compute; reflexivity
        | discriminate
        | intro; discriminate ].

End PlanFacts.

(** C2: the plan starts with the account creation; every mint-extension
    initialisation stands before InitializeMint; the associated token
    account is created after InitializeMint and the supply minted after
    that; a reallocation stands after the minting and before the enable
    instructions, which never come without it; and when the transfer hook
    is not disabled the registry initialisation is the last instruction. *)
Theorem mintTransaction_order
  (lib : Lib) (payer mint : PublicKey) (metadata : TokenMetadata)
  (extensions : TokenExtensions) (hookConfig : TransferHookConfig)
  (lamports : Z) :
  let plan :=
    mintTransaction lib payer mint metadata extensions hookConfig lamports in
  (exists rest,
      plan = CreateAccount payer mint (getMintLen lib (extensionTypes extensions))
               lamports TOKEN_2022_PROGRAM_ID :: rest
      /\ existsb isCreateAccount rest = false)
  /\ occurrences isInitializeMint plan = 1%nat
  /\ occurrences isCreateAta plan = 1%nat
  /\ occurrences isMintTo plan = 1%nat
  /\ precedes isCreateAccount isMintExtensionInit plan
  /\ precedes isMintExtensionInit isInitializeMint plan
  /\ precedes isInitializeMint isCreateAta plan
  /\ precedes isCreateAta isMintTo plan
  /\ precedes isMintTo isReallocate plan
  /\ precedes isReallocate isEnableAccountExtension plan
  /\ (existsb isEnableAccountExtension plan = true ->
      occurrences isReallocate plan = 1%nat)
  /\ (isTransferHookDisabled extensions = false ->
      occurrences isInitRegistry plan = 1%nat
      /\ exists front,
           plan = (front ++ [initRegistryIx lib payer mint metadata hookConfig])%list)
  /\ (isTransferHookDisabled extensions = true ->
      occurrences isInitRegistry plan = 0%nat).
Proof.
  intro plan. subst plan.
  split.
  { eexists. split; [reflexivity|].
    PlanFacts.request_cases extensions; reflexivity. }
  repeat match goal with |- _ /\ _ => split end.
  all: try solve [PlanFacts.request_cases extensions; PlanFacts.by_computation].
  - intro Hd. PlanFacts.request_cases extensions; try discriminate Hd.
    all: split; [reflexivity|].
    all: cbv [mintTransaction when isTransferHookDisabled isTransferFeeDisabled
              isPermanentDelegateDisabled truthy present nonTransferable
              cpiGuard permanentDelegation transferFee interestBearing
              memoTransfer orb andb negb accountExtensionTypes List.app List.length
              Z.of_nat Z.ltb Z.compare].
    all: match goal with
         | |- exists front, ?l = _ => exists (removelast l); reflexivity
         end.
Qed.

Lemma mintTransaction_order_witness :
  isTransferHookDisabled noExtensions = false
  /\ exists front,
       mintTransaction demoLib "Payer" "Mint" demoMetadata noExtensions
         noHookConfig 1000000
       = (front ++ [initRegistryIx demoLib "Payer" "Mint" demoMetadata
                      noHookConfig])%list.
Proof.
  split; [reflexivity|].
  pose proof (mintTransaction_order demoLib "Payer" "Mint" demoMetadata
                noExtensions noHookConfig 1000000) as H.
  cbv zeta in H.
  destruct H as (_ & _ & _ & _ & _ & _ & _ & _ & _ & _ & _ & H & _).
  destruct (H eq_refl) as [_ Hlast]. exact Hlast.
Defined.

(** C1: when non-transferability is requested, the extension list has
    no PermanentDelegate, TransferFeeConfig or TransferHook entry, and
    the mint transaction initialises none of them (nor the registry of
    the transfer hook), whatever else the request holds. *)
Theorem nonTransferable_excludes
  (lib : Lib) (payer mint : PublicKey) (metadata : TokenMetadata)
  (extensions : TokenExtensions) (hookConfig : TransferHookConfig)
  (lamports : Z) :
  truthy (nonTransferable extensions) = true ->
  let plan :=
    mintTransaction lib payer mint metadata extensions hookConfig lamports in
  ~ In ExtensionType.PermanentDelegate (extensionTypes extensions)
  /\ ~ In ExtensionType.TransferFeeConfig (extensionTypes extensions)
  /\ ~ In ExtensionType.TransferHook (extensionTypes extensions)
  /\ In ExtensionType.NonTransferable (extensionTypes extensions)
  /\ existsb isInitPermanentDelegate plan = false
  /\ existsb isInitTransferFee plan = false
  /\ existsb isInitTransferHook plan = false
  /\ existsb isInitRegistry plan = false
  /\ existsb isInitNonTransferable plan = true.
Proof.
  intros Hnt plan. subst plan.
  PlanFacts.request_cases extensions; try discriminate Hnt.
  all: repeat match goal with |- _ /\ _ => split end.
  all: try solve [vm_compute; reflexivity].
  all: try solve [cbv; intuition discriminate].
Qed.

Lemma nonTransferable_excludes_witness :
  truthy (nonTransferable scenarioRequest) = true
  /\ existsb isInitTransferFee
       (mintTransaction demoLib "Payer" "Mint" demoMetadata scenarioRequest
          noHookConfig 1000000) = false.
Proof.
  split; [reflexivity|].
  apply (nonTransferable_excludes demoLib "Payer" "Mint" demoMetadata
           scenarioRequest noHookConfig 1000000).
  reflexivity.
Defined.

(** C7 (as the code has it): the scenario request resolves to the
    extension list holding NonTransferable alone; the transfer fee and
    the permanent delegate are dropped, the transfer hook is disabled,
    and the only extension the mint transaction initialises is the
    non-transferable mint. *)
Theorem scenario_resolves_to_nonTransferable
  (lib : Lib) (payer mint : PublicKey) (metadata : TokenMetadata)
  (hookConfig : TransferHookConfig) (lamports : Z) :
  extensionTypes scenarioRequest = [ExtensionType.NonTransferable]
  /\ filter isMintExtensionInit
       (mintTransaction lib payer mint metadata scenarioRequest hookConfig
          lamports)
     = [InitializeNonTransferableMint mint TOKEN_2022_PROGRAM_ID]
  /\ existsb isInitRegistry
       (mintTransaction lib payer mint metadata scenarioRequest hookConfig
          lamports) = false.
Proof. repeat split. Qed.

(** C7 as stated fails: the scenario request does not resolve to the
    empty set, and an extension is initialised for it. *)
Lemma scenario_not_empty :
  extensionTypes scenarioRequest <> []
  /\ existsb isMintExtensionInit
       (mintTransaction demoLib "Payer" "Mint" demoMetadata scenarioRequest
          noHookConfig 1000000) = true.
Proof. split; [discriminate | reflexivity]. Qed.

(** C10: when neither non-transferability nor the CPI guard is
    requested (the empty request included), the extension list holds
    TransferHook, the mint transaction initialises the transfer hook
    with the fixed hook program before InitializeMint, and its last
    instruction is the registry initialisation. *)
Theorem transferHook_on_by_default
  (lib : Lib) (payer mint : PublicKey) (metadata : TokenMetadata)
  (extensions : TokenExtensions) (hookConfig : TransferHookConfig)
  (lamports : Z) :
  truthy (nonTransferable extensions) = false ->
  truthy (cpiGuard extensions) = false ->
  let plan :=
    mintTransaction lib payer mint metadata extensions hookConfig lamports in
  In ExtensionType.TransferHook (extensionTypes extensions)
  /\ filter isInitTransferHook plan
     = [InitializeTransferHook mint payer TRANSFER_HOOK_PROGRAM_ID
          TOKEN_2022_PROGRAM_ID]
  /\ precedes isInitTransferHook isInitializeMint plan
  /\ filter isInitRegistry plan
     = [initRegistryIx lib payer mint metadata hookConfig]
  /\ last plan (initRegistryIx lib payer mint metadata hookConfig)
     = initRegistryIx lib payer mint metadata hookConfig
  /\ isInitRegistry (initRegistryIx lib payer mint metadata hookConfig) = true.
Proof.
  intros Hnt Hcpi plan. subst plan.
  PlanFacts.request_cases extensions; try discriminate Hnt;
    try discriminate Hcpi.
  all: repeat match goal with |- _ /\ _ => split end.
  all: try reflexivity.
  all: try solve [apply PlanFacts.precedesb_sound; vm_compute; reflexivity].
  all: try solve [cbv; tauto].
Qed.

Lemma transferHook_on_by_default_witness :
  truthy (nonTransferable noExtensions) = false
  /\ truthy (cpiGuard noExtensions) = false
  /\ In ExtensionType.TransferHook (extensionTypes noExtensions).
Proof.
  split; [reflexivity|]. split; [reflexivity|].
  apply (transferHook_on_by_default demoLib "Payer" "Mint" demoMetadata
           noExtensions noHookConfig 1000000); reflexivity.
Defined.

(* ================================================================== *)
(** * Properties of the extra-account resolver and of buyToken    *)
(* ================================================================== *)

Module MonadFacts.

Lemma bind_Ok_inv {A B} (m : M A) (k : A -> M B) (h : Trace) (b : B) :
  fst (bind m k h) = Ok b ->
  exists a es, m h = (Ok a, es) /\ fst (k a (h ++ es)%list) = Ok b.
Proof.
  unfold bind. destruct (m h) as [[a|e] es]; cbn.
  - intro H. exists a, es. split; [reflexivity|].
    destruct (k a (h ++ es)%list). exact H.
  - discriminate.
Qed.

Lemma call_Ok_inv {A} (ask : Trace -> Outcome A) (ev : Outcome A -> Event)
  (h : Trace) (a : A) (es : list Event) :
  call ask ev h = (Ok a, es) -> ask h = Ok a /\ es = [ev (Ok a)].
Proof.
  unfold call. intro H. inversion H as [[H1 H2]]. rewrite H1. auto.
Qed.

Lemma lift_Ok_inv {A} (r : Outcome A) (h : Trace) (a : A) (es : list Event) :
  lift r h = (Ok a, es) -> r = Ok a /\ es = [].
Proof. unfold lift. intro H. inversion H. auto. Qed.

(** A [new BN] that returns was given a number below 2^53. *)
Lemma newBN_Ok_inv (n a : Z) :
  newBN n = Ok a -> a = n /\ Z.abs n < 2 ^ 53.
Proof.
  unfold newBN. destruct (Z.ltb_spec (Z.abs n) (2 ^ 53)) as [Hlt|Hge];
    [|discriminate].
  intro Hn. inversion Hn; subst. split; [reflexivity | exact Hlt].
Qed.

(** A [getTokenProgram] that returns has made its one query, and
    answers by the owner of the account. *)
Lemma getTokenProgram_Ok_inv (w : World) (mint : PublicKey) (h : Trace)
  (p : PublicKey) (es : list Event) :
  getTokenProgram w mint h = (Ok p, es) ->
  exists mintInfo,
    getAccountInfo w h mint = Ok mintInfo
    /\ p = match mintInfo with
           | Some info =>
               if String.eqb (ai_owner info) TOKEN_2022_PROGRAM_ID
               then TOKEN_2022_PROGRAM_ID else TOKEN_PROGRAM_ID
           | None => TOKEN_PROGRAM_ID
           end
    /\ es = [EvGetAccountInfo mint (Ok mintInfo)].
Proof.
  unfold getTokenProgram, bind, call, ret.
  destruct (getAccountInfo w h mint) as [mintInfo|e]; [|discriminate].
  cbn. intro H. inversion H. exists mintInfo. auto.
Qed.

(** The events of [m] followed by [k]: those of [m], then those of [k]
    when [m] returned. *)
Lemma bind_events {A B} (m : M A) (k : A -> M B) (h : Trace) :
  snd (bind m k h)
  = (snd (m h)
     ++ match fst (m h) with
        | Ok a => snd (k a (h ++ snd (m h))%list)
        | Throw _ => []
        end)%list.
Proof.
  unfold bind. destruct (m h) as [[a|e] es]; cbn.
  - destruct (k a (h ++ es)%list). reflexivity.
  - now rewrite app_nil_r.
Qed.

(** A [try] whose handler returns a value never throws, whatever its
    body does: it makes the calls of the body and returns the body's
    value, or the handler's when the body throws. *)
Lemma try_catch_ret {A} (body : M A) (a : A) (h : Trace) :
  exists x,
    try_catch body (fun _ => ret a) h = (Ok x, snd (body h))
    /\ (forall e, fst (body h) = Throw e -> x = a).
Proof.
  unfold try_catch, ret. destruct (body h) as [[x|e] es]; cbn.
  - exists x. split; [reflexivity | discriminate].
  - exists a. split; [now rewrite app_nil_r | reflexivity].
Qed.

End MonadFacts.

Module ResolverFacts.
Section Resolver.
Variable w : World.
Variables (mint source destination authority : PublicKey).
Variables (amount decimals : Z).
Variable h : Trace.

Let mockIx : TransactionInstruction :=
createTransferCheckedInstruction source mint destination authority amount
  decimals TOKEN_2022_PROGRAM_ID.

Lemma try_getMint_throws (e : Exn) :
getMint w h mint = Throw e ->
resolveTransferHookAccounts_try w mint source destination authority amount
  decimals h = (Throw e, [EvGetMint mint (Throw e)]).
Proof.
intro E. unfold resolveTransferHookAccounts_try, bind, call.
rewrite E. reflexivity.
Qed.

Lemma try_no_hook (m : Mint) :
getMint w h mint = Ok m -> getTransferHook m = None ->
resolveTransferHookAccounts_try w mint source destination authority amount
  decimals h = (Ok [], [EvGetMint mint (Ok m)]).
Proof.
intros E N. unfold resolveTransferHookAccounts_try, bind, call.
rewrite E, N. reflexivity.
Qed.

Lemma try_unencodable (m : Mint) (hook : TransferHook) :
getMint w h mint = Ok m -> getTransferHook m = Some hook ->
isU64 amount && isU8 decimals = false ->
resolveTransferHookAccounts_try w mint source destination authority amount
  decimals h
= (Throw (Error "The value is out of range"), [EvGetMint mint (Ok m)]).
Proof.
intros E N U.
unfold resolveTransferHookAccounts_try, bind, call, lift,
  createTransferCheckedInstruction_checked.
rewrite E, N, U. reflexivity.
Qed.

Lemma try_hook (m : Mint) (hook : TransferHook) :
getMint w h mint = Ok m -> getTransferHook m = Some hook ->
isU64 amount && isU8 decimals = true ->
let r := addExtraAccountMetasForExecute w (h ++ [EvGetMint mint (Ok m)])%list
           mockIx (th_programId hook) source mint destination authority
           amount in
resolveTransferHookAccounts_try w mint source destination authority amount
  decimals h
= (match snd r with
   | Ok _ => Ok (skipn 4 (keys (fst r)))
   | Throw e => Throw e
   end,
   [EvGetMint mint (Ok m);
    EvAddExtraAccountMetasForExecute mockIx (th_programId hook) r]).
Proof.
intros E N U r.
unfold resolveTransferHookAccounts_try, bind, call, lift,
  addExtraAccountMetas, createTransferCheckedInstruction_checked.
rewrite E, N, U. cbn [fst snd List.app]. rewrite app_nil_r.
fold mockIx. fold r.
destruct (snd r); reflexivity.
Qed.

Lemma encodable_range :
0 <= amount < 2 ^ 64 -> 0 <= decimals < 2 ^ 8 ->
isU64 amount && isU8 decimals = true.
Proof. unfold isU64, isU8. lia. Qed.

End Resolver.
End ResolverFacts.

(** C3: [resolveTransferHookAccounts] always returns a value and makes
    exactly the calls of its [try] block; whenever that block throws the
    value is the empty list, in particular when the mint cannot be
    fetched and when the probe throws, whatever keys the probe had
    already put into the instruction; a mint without transfer hook gives
    the empty list as well. *)
Theorem resolveTransferHookAccounts_never_raises
  (w : World) (mint source destination authority : PublicKey)
  (amount decimals : Z) (h : Trace) :
  let attempt :=
    resolveTransferHookAccounts_try w mint source destination authority amount
      decimals h in
  exists accounts,
    resolveTransferHookAccounts w mint source destination authority amount
      decimals h = (Ok accounts, snd attempt)
    /\ (forall e, fst attempt = Throw e -> accounts = [])
    /\ (forall e, getMint w h mint = Throw e -> accounts = [])
    /\ (forall m, getMint w h mint = Ok m -> getTransferHook m = None ->
        accounts = [])
    /\ (forall m hook partial e,
          getMint w h mint = Ok m -> getTransferHook m = Some hook ->
          addExtraAccountMetasForExecute w (h ++ [EvGetMint mint (Ok m)])%list
            (createTransferCheckedInstruction source mint destination
               authority amount decimals TOKEN_2022_PROGRAM_ID)
            (th_programId hook) source mint destination authority amount
          = (partial, Throw e) ->
          accounts = []).
Proof.
  intro attempt.
  destruct (MonadFacts.try_catch_ret
              (resolveTransferHookAccounts_try w mint source destination
                 authority amount decimals) [] h) as [accounts [Hrun Hfail]].
  fold (resolveTransferHookAccounts w mint source destination authority
          amount decimals) in Hrun.
  fold attempt in Hrun, Hfail.
  exists accounts. split; [exact Hrun|]. split; [exact Hfail|].
  repeat match goal with |- _ /\ _ => split end.
  - intros e E. apply (Hfail e). unfold attempt.
    now rewrite (ResolverFacts.try_getMint_throws w _ _ _ _ _ _ h e E).
  - intros m E N.
    unfold resolveTransferHookAccounts, try_catch in Hrun.
    rewrite (ResolverFacts.try_no_hook w _ _ _ _ _ _ h m E N) in Hrun.
    now inversion Hrun.
  - intros m hook partial e E N P.
    destruct (isU64 amount && isU8 decimals) eqn:U.
    + apply (Hfail e). unfold attempt.
      rewrite (ResolverFacts.try_hook w _ _ _ _ _ _ h m hook E N U).
      cbv zeta. now rewrite P.
    + apply (Hfail (Error "The value is out of range")). unfold attempt.
      now rewrite (ResolverFacts.try_unencodable w _ _ _ _ _ _ h m hook E N U).
Qed.

Lemma resolveTransferHookAccounts_never_raises_witness :
  getMint notFoundWorld [] "Mint" = Throw (Error "TokenAccountNotFoundError")
  /\ fst (resolveTransferHookAccounts notFoundWorld "Mint" "Source"
            "Destination" "Authority" 5 9 []) = Ok [].
Proof.
  split; [reflexivity|].
  destruct (resolveTransferHookAccounts_never_raises notFoundWorld "Mint"
              "Source" "Destination" "Authority" 5 9 [])
    as [accounts [Hrun [_ [Hnf _]]]].
  rewrite Hrun. cbn [fst]. f_equal.
  exact (Hnf (Error "TokenAccountNotFoundError") eq_refl).
Defined.

(** C4: for a transfer context whose amount is a u64 and whose decimals
    are a u8, over a mint that carries a transfer hook, when the probe
    succeeds the result is the key list of the expanded instruction from
    index 4 on, each [AccountMeta] unchanged; the instruction handed to
    the probe has the four canonical keys, so when the probe appends to
    them the result is exactly what it appended, in its order. *)
Theorem resolveTransferHookAccounts_suffix
  (w : World) (mint source destination authority : PublicKey)
  (amount decimals : Z) (h : Trace)
  (m : Mint) (hook : TransferHook) (expanded : TransactionInstruction) :
  let mockIx :=
    createTransferCheckedInstruction source mint destination authority amount
      decimals TOKEN_2022_PROGRAM_ID in
  0 <= amount < 2 ^ 64 ->
  0 <= decimals < 2 ^ 8 ->
  getMint w h mint = Ok m ->
  getTransferHook m = Some hook ->
  addExtraAccountMetasForExecute w (h ++ [EvGetMint mint (Ok m)])%list mockIx
    (th_programId hook) source mint destination authority amount
  = (expanded, Ok tt) ->
  fst (resolveTransferHookAccounts w mint source destination authority amount
         decimals h) = Ok (skipn 4 (keys expanded))
  /\ List.length (keys mockIx) = 4%nat
  /\ map pubkey (keys mockIx) = [source; mint; destination; authority]
  /\ (forall extra,
        keys expanded = (keys mockIx ++ extra)%list ->
        fst (resolveTransferHookAccounts w mint source destination authority
               amount decimals h) = Ok extra).
Proof.
  intros mockIx Ha Hd E N P.
  pose proof (ResolverFacts.encodable_range amount decimals Ha Hd) as U.
  assert (R : fst (resolveTransferHookAccounts w mint source destination
                     authority amount decimals h)
              = Ok (skipn 4 (keys expanded))).
  { unfold resolveTransferHookAccounts, try_catch.
    rewrite (ResolverFacts.try_hook w _ _ _ _ _ _ h m hook E N U).
    cbv zeta. fold mockIx. rewrite P. reflexivity. }
  split; [exact R|]. split; [reflexivity|]. split; [reflexivity|].
  intros extra K. rewrite R, K. reflexivity.
Qed.

Lemma resolveTransferHookAccounts_suffix_witness :
  fst (resolveTransferHookAccounts hookWorld "Mint" "Source" "Destination"
         "Authority" 5 9 []) = Ok demoExtras.
Proof.
  refine (proj2 (proj2 (proj2
    (resolveTransferHookAccounts_suffix hookWorld "Mint" "Source"
       "Destination" "Authority" 5 9 [] (hookMint TRANSFER_HOOK_PROGRAM_ID)
       (mkTransferHook "Authority" TRANSFER_HOOK_PROGRAM_ID)
       _ _ _ eq_refl eq_refl eq_refl))) demoExtras eq_refl); lia.
Defined.

(** Without a TransferHook entry the resolver returns the empty list
    after the single [getMint] call: no probe is made. *)
Lemma resolve_no_hook_no_probe
  (w : World) (mint source destination authority : PublicKey)
  (amount decimals : Z) (h : Trace) (m : Mint) :
  getMint w h mint = Ok m -> getTransferHook m = None ->
  resolveTransferHookAccounts w mint source destination authority amount
    decimals h = (Ok [], [EvGetMint mint (Ok m)]).
Proof.
  intros E N. unfold resolveTransferHookAccounts, try_catch.
  now rewrite (ResolverFacts.try_no_hook w _ _ _ _ _ _ h m E N).
Qed.

(** With a TransferHook entry and an encodable amount and decimals the
    probe is made, whatever the program address of the entry, the null
    address included. *)
Lemma resolve_hook_probes
  (w : World) (mint source destination authority : PublicKey)
  (amount decimals : Z) (h : Trace) (m : Mint) (hook : TransferHook) :
  0 <= amount < 2 ^ 64 -> 0 <= decimals < 2 ^ 8 ->
  getMint w h mint = Ok m -> getTransferHook m = Some hook ->
  existsb isProbe
    (snd (resolveTransferHookAccounts w mint source destination authority
            amount decimals h)) = true.
Proof.
  intros Ha Hd E N. unfold resolveTransferHookAccounts, try_catch.
  pose proof (ResolverFacts.encodable_range amount decimals Ha Hd) as U.
  rewrite (ResolverFacts.try_hook w _ _ _ _ _ _ h m hook E N U). cbv zeta.
  destruct (snd (addExtraAccountMetasForExecute _ _ _ _ _ _ _ _ _));
    reflexivity.
Qed.

(** C8 at the null program address: the mint has a TransferHook entry
    whose program is [PublicKey.default]; the resolver still runs the
    probe with that address, and returns what the probe appends. *)
Theorem resolveTransferHookAccounts_null_program :
  let mockIx := createTransferCheckedInstruction "Source" "Mint" "Destination"
                  "Authority" 5 9 TOKEN_2022_PROGRAM_ID in
  option_map th_programId (getTransferHook (hookMint PublicKey_.default))
  = Some PublicKey_.default
  /\ resolveTransferHookAccounts (nullHookWorld []) "Mint" "Source"
       "Destination" "Authority" 5 9 []
     = (Ok [],
        [ EvGetMint "Mint" (Ok (hookMint PublicKey_.default));
          EvAddExtraAccountMetasForExecute mockIx PublicKey_.default
            (mockIx, Ok tt) ])
  /\ fst (resolveTransferHookAccounts (nullHookWorld demoExtras) "Mint"
            "Source" "Destination" "Authority" 5 9 []) = Ok demoExtras.
Proof. repeat split. Qed.

(** C9: the purchase call built by [buyToken] names the eleven fixed
    accounts of the schema, in the schema's order: the buyer, the mint,
    the global configuration, the creator read from the sale record
    that [buyToken] fetched, the sale record, the vault, the token
    accounts of the vault and of the buyer, the token program that
    owns the mint account (the legacy one when the account is missing
    or owned by another program), the associated-account program and
    the system program.  It carries as remaining accounts what
    [resolveTransferHookAccounts] returned for the vault-to-buyer
    transfer of the amount, called after the two queries, when the mint
    is a Token-2022 mint, and none otherwise.  The account list of the
    instruction is the fixed eleven followed by those, so its length is
    11 plus their number. *)
Theorem buyToken_account_schema
  (lib : Lib) (w : World) (payer : PublicKey) (params : BuyTokenParams)
  (h : Trace) (idl : list IdlAccount)
  (preIxs : list Instruction) (c : AnchorCall) :
  fst (buyToken_prepare lib w payer params h) = Ok (preIxs, c) ->
  map ia_name idl = purchaseTokenAccountNames ->
  let mint := bt_mint params in
  let icoConfigAccount := fst (deriveICOConfigAccountPDA lib mint) in
  let icoVaultAccount := fst (deriveICOVaultAccountPDA lib mint) in
  exists mintInfo icoData fixed,
    let tokenProgram :=
      match mintInfo with
      | Some info =>
          if String.eqb (ai_owner info) TOKEN_2022_PROGRAM_ID
          then TOKEN_2022_PROGRAM_ID else TOKEN_PROGRAM_ID
      | None => TOKEN_PROGRAM_ID
      end in
    let vaultAta := getAssociatedTokenAddressSync lib mint icoVaultAccount
                      true tokenProgram in
    let buyerAta := getAssociatedTokenAddressSync lib mint payer false
                      tokenProgram in
    let h1 := (h ++ [EvGetAccountInfo mint (Ok mintInfo)])%list in
    let h2 := (h1 ++ [EvAccountFetch icoConfigAccount (Ok icoData)])%list in
    getAccountInfo w h mint = Ok mintInfo
    /\ icoConfigAccountFetch w h1 icoConfigAccount = Ok icoData
    /\ map snd (ac_accounts c)
       = [ payer; mint; fst (deriveICOConfigPDA lib); ico_creator icoData;
           icoConfigAccount; icoVaultAccount; vaultAta; buyerAta;
           tokenProgram; ASSOCIATED_TOKEN_PROGRAM_ID;
           SystemProgram_programId ]
    /\ map fst (ac_accounts c) = purchaseTokenAccountNames
    /\ instructionKeys idl c = Some (fixed ++ ac_remaining c)%list
    /\ map pubkey fixed = map snd (ac_accounts c)
    /\ List.length fixed = 11%nat
    /\ (forall ks, instructionKeys idl c = Some ks ->
        List.length ks = (11 + List.length (ac_remaining c))%nat)
    /\ (tokenProgram = TOKEN_2022_PROGRAM_ID ->
        fst (resolveTransferHookAccounts w mint vaultAta buyerAta
               icoVaultAccount (bt_amount params * 10 ^ 9) 9 h2)
        = Ok (ac_remaining c))
    /\ (tokenProgram <> TOKEN_2022_PROGRAM_ID -> ac_remaining c = []).
Proof.
  intros Hrun Hidl mint icoConfigAccount icoVaultAccount.
  unfold buyToken_prepare in Hrun. cbv zeta in Hrun.
  apply MonadFacts.bind_Ok_inv in Hrun.
  destruct Hrun as (tokenProgram & es1 & Htp & Hrun).
  apply MonadFacts.getTokenProgram_Ok_inv in Htp.
  destruct Htp as (mintInfo & Einfo & Etp & Ees1). subst es1.
  apply MonadFacts.bind_Ok_inv in Hrun.
  destruct Hrun as (icoData & es2 & Hfetch & Hrun).
  apply MonadFacts.call_Ok_inv in Hfetch. destruct Hfetch as [Efetch Ees2].
  subst es2.
  apply MonadFacts.bind_Ok_inv in Hrun.
  destruct Hrun as (extra & es3 & Hextra & Hrun).
  apply MonadFacts.bind_Ok_inv in Hrun.
  destruct Hrun as (pre & es4 & _ & Hrun).
  apply MonadFacts.bind_Ok_inv in Hrun.
  destruct Hrun as (amount & es5 & Hamount & Hrun).
  cbn in Hrun. inversion Hrun; subst preIxs c; clear Hrun.
  exists mintInfo, icoData.
  destruct idl as [|a0 [|a1 [|a2 [|a3 [|a4 [|a5 [|a6 [|a7 [|a8 [|a9 [|a10 [|? ?]]]]]]]]]]]];
    try discriminate Hidl.
  injection Hidl as N0 N1 N2 N3 N4 N5 N6 N7 N8 N9 N10.
  exists (map (fun p => mkMeta (snd p) (ia_signer (fst p)) (ia_writable (fst p)))
            (combine [a0; a1; a2; a3; a4; a5; a6; a7; a8; a9; a10]
               [ payer; mint; fst (deriveICOConfigPDA lib); ico_creator icoData;
                 fst (deriveICOConfigAccountPDA lib mint); icoVaultAccount;
                 getAssociatedTokenAddressSync lib mint icoVaultAccount true
                   tokenProgram;
                 getAssociatedTokenAddressSync lib mint payer false tokenProgram;
                 tokenProgram; ASSOCIATED_TOKEN_PROGRAM_ID;
                 SystemProgram_programId ])).
  cbv zeta. rewrite <- Etp.
  split; [exact Einfo|]. split; [exact Efetch|].
  split; [reflexivity|]. split; [reflexivity|].
  split.
  { unfold instructionKeys. cbn [fixedKeys ac_accounts ac_remaining].
    rewrite N0, N1, N2, N3, N4, N5, N6, N7, N8, N9, N10.
    cbn. reflexivity. }
  split; [reflexivity|]. split; [reflexivity|].
  split.
  { intros ks Hks. unfold instructionKeys in Hks.
    cbn [fixedKeys ac_accounts ac_remaining] in Hks.
    rewrite N0, N1, N2, N3, N4, N5, N6, N7, N8, N9, N10 in Hks.
    cbn in Hks. inversion Hks. cbn. reflexivity. }
  cbn [ac_remaining].
  split.
  - intro T. rewrite T in Hextra. rewrite String.eqb_refl in Hextra.
    apply (f_equal fst) in Hextra. cbn [fst] in Hextra.
    apply MonadFacts.bind_Ok_inv in Hextra.
    destruct Hextra as (amount' & es0 & Hbn & Hres).
    apply MonadFacts.lift_Ok_inv in Hbn. destruct Hbn as [Hbn Hes0].
    subst es0. apply MonadFacts.newBN_Ok_inv in Hbn. destruct Hbn as [Hbn _].
    subst amount'. rewrite app_nil_r in Hres.
    subst mint icoVaultAccount icoConfigAccount.
    rewrite T. exact Hres.
  - intro T. apply String.eqb_neq in T. rewrite T in Hextra.
    cbn in Hextra. inversion Hextra. reflexivity.
Qed.

(* ================================================================== *)
(** * Properties of transaction submission                        *)
(* ================================================================== *)

Module TraceFacts.

Lemma split_app_mid {X} (a b pre post : list X) (x : X) :
  (a ++ b = pre ++ x :: post)%list ->
  (exists l, a = pre ++ x :: l /\ post = l ++ b)%list
  \/ (exists l, pre = a ++ l /\ b = l ++ x :: post)%list.
Proof.
  intro H. apply app_eq_app in H. destruct H as [l [[H1 H2]|[H1 H2]]].
  - destruct l as [|y l].
    + right. exists []. cbn in H2. rewrite app_nil_r in *. now subst.
    + left. cbn in H2. inversion H2; subst. now exists l.
  - right. now exists l.
Qed.

Ltac trace_cases :=
  repeat match goal with
         | H : (_ :: _ = ?pre ++ _ :: _)%list |- _ =>
             destruct pre; cbn [List.app] in H; inversion H; clear H; subst
         | H : ([] = ?pre ++ _ :: _)%list |- _ =>
             destruct pre; discriminate H
         end.

Section Discipline.

Variable w : World.

Lemma quiet_disciplined {A} (r : Outcome A) (evs : list Event) :
  existsb isSend evs = false -> existsb isSimulate evs = false ->
  disciplined w (r, evs).
Proof.
  intros Hs Hm. split; cbn [fst snd].
  - intros pre raw skip o post E. subst evs.
    rewrite existsb_app in Hs. cbn in Hs.
    rewrite orb_true_r in Hs. discriminate.
  - intros pre tx sim e post E _. subst evs.
    rewrite existsb_app in Hm. cbn in Hm.
    rewrite orb_true_r in Hm. discriminate.
Qed.

Lemma bind_disciplined {A B} (m : M A) (k : A -> M B) (h : Trace) :
  disciplined w (m h) ->
  (forall a es, m h = (Ok a, es) -> disciplined w (k a (h ++ es)%list)) ->
  disciplined w (bind m k h).
Proof.
  unfold bind. destruct (m h) as [[a|e] es] eqn:E; intros [Hs Hf] Hk.
  - specialize (Hk a es eq_refl).
    destruct (k a (h ++ es)%list) as [r es']. destruct Hk as [Ks Kf].
    cbn [fst snd] in *. split; cbn [fst snd].
    + intros pre raw skip o post Q.
      apply split_app_mid in Q. destruct Q as [[l [Q1 Q2]]|[l [Q1 Q2]]].
      * exact (Hs pre raw skip o l Q1).
      * destruct (Ks l raw skip o post Q2)
          as [S1 (pre' & tx & sim & signed & P1 & P2 & P3)].
        split; [exact S1|].
        exists (es ++ pre')%list, tx, sim, signed.
        rewrite Q1, P1, app_assoc. auto.
    + intros pre tx sim e post Q Herr.
      apply split_app_mid in Q. destruct Q as [[l [Q1 Q2]]|[l [Q1 Q2]]].
      * destruct (Hf pre tx sim e l Q1 Herr) as [_ [what W]].
        discriminate W.
      * exact (Kf l tx sim e post Q2 Herr).
  - cbn [fst snd] in *. split; cbn [fst snd]; [exact Hs|].
    intros pre tx sim e' post Q Herr.
    destruct (Hf pre tx sim e' post Q Herr) as [P [what W]].
    split; [exact P|]. exists what. inversion W. reflexivity.
Qed.

Ltac leaf :=
  split; intros pre; intros; trace_cases; try congruence;
  try (split; [reflexivity|]);
  try (eexists [_]; do 3 eexists;
       split; [reflexivity | split; eassumption]).

Lemma simulateSignSend_disciplined (what : string) (payer : PublicKey)
  (walletSign : WalletSign) (kp : Keypair) (ixs : list Instruction)
  (h : Trace) :
  disciplined w (simulateSignSend w what payer walletSign kp ixs h).
Proof.
  unfold simulateSignSend, disciplined, bind, call, lift.
  destruct (getLatestBlockhash w h) as [bh|e0]; cbn; [|leaf].
  destruct (compileToV0Message w _) as [msg|e1]; cbn; [|leaf].
  destruct (simulateTransaction w _ _) as [sim|e2] eqn:Esim; cbn; [|leaf].
  destruct (err sim) as [e|] eqn:Eerr; cbn.
  { split; intros pre; intros; trace_cases.
    split; [reflexivity|]. exists what. congruence. }
  destruct (walletSign _ _) as [signed|e3] eqn:Esign; cbn; [|leaf].
  destruct (serialize w signed) as [raw|e4] eqn:Eraw; cbn; [|leaf].
  destruct (sendRawTransaction w _ _ _) as [sig|e5]; cbn; [|leaf].
  destruct (confirmTransaction w _ _ _ _) as [u|e6]; cbn; leaf.
Qed.

Lemma call_disciplined {A} (ask : Trace -> Outcome A)
  (ev : Outcome A -> Event) (h : Trace) :
  (forall r, isSend (ev r) = false) ->
  (forall r, isSimulate (ev r) = false) ->
  disciplined w (call ask ev h).
Proof.
  intros Hs Hm. apply quiet_disciplined; cbn; now rewrite ?Hs, ?Hm.
Qed.

Lemma createToken_disciplined (lib : Lib) (payer : PublicKey)
  (walletSign : WalletSign) (metadata : TokenMetadata)
  (extensions : TokenExtensions) (hookConfig : TransferHookConfig)
  (h : Trace) :
  disciplined w
    (createToken lib w payer walletSign metadata extensions hookConfig h).
Proof.
  unfold createToken.
  apply bind_disciplined; [now apply call_disciplined|]. intros uris es1 _.
  apply bind_disciplined; [now apply call_disciplined|]. intros uri es2 _.
  apply bind_disciplined; [now apply quiet_disciplined|]. intros kp es3 _.
  apply bind_disciplined; [now apply call_disciplined|]. intros lam es4 _.
  apply bind_disciplined; [apply simulateSignSend_disciplined|].
  intros sig1 es5 _.
  apply bind_disciplined; [apply simulateSignSend_disciplined|].
  intros sig2 es6 _.
  now apply quiet_disciplined.
Qed.

End Discipline.
End TraceFacts.

(** The only simulation of the simulate-sign-send statements comes right
    after the blockhash fetch and is given the transaction compiled from
    the instructions and signed by the mint keypair; a run that returns
    has made it. *)
Lemma simulateSignSend_simulation (w : World) (what : string)
  (payer : PublicKey) (walletSign : WalletSign) (kp : Keypair)
  (ixs : list Instruction) (h : Trace) :
  let run := simulateSignSend w what payer walletSign kp ixs h in
  (forall pre tx r post,
     snd run = (pre ++ EvSimulateTransaction tx r :: post)%list ->
     exists bh,
       pre = [EvGetLatestBlockhash (Ok bh)]
       /\ tx = sign (mkVersionedTransaction
                       (mkTransactionMessage payer (blockhash bh) ixs) [])
                 [kp])
  /\ (forall sig, fst run = Ok sig -> existsb isSimulate (snd run) = true).
Proof.
  unfold simulateSignSend, compileToV0Message, bind, call, lift.
  destruct (getLatestBlockhash w h) as [bh|e0]; cbn.
  2: { split; [intros pre; intros; TraceFacts.trace_cases | discriminate]. }
  destruct (compileFailure w _) as [e1|]; cbn.
  { split; [intros pre; intros; TraceFacts.trace_cases | discriminate]. }
  assert (D : forall o rest (pre post : list Event) tx r,
             (EvGetLatestBlockhash (Ok bh)
              :: EvSimulateTransaction
                   (sign (mkVersionedTransaction
                            (mkTransactionMessage payer (blockhash bh) ixs) [])
                         [kp]) o
              :: rest = pre ++ EvSimulateTransaction tx r :: post)%list ->
             existsb isSimulate rest = false ->
             exists bh0,
               pre = [EvGetLatestBlockhash (Ok bh0)]
               /\ tx = sign (mkVersionedTransaction
                               (mkTransactionMessage payer (blockhash bh0) ixs)
                               []) [kp]).
  { intros o rest pre post tx r H Hrest.
    destruct pre as [|? pre]; [discriminate H|].
    cbn [List.app] in H. injection H as <- H.
    destruct pre as [|? pre].
    - cbn [List.app] in H. inversion H; subst. exists bh. split; reflexivity.
    - cbn [List.app] in H. injection H as _ H. subst rest.
      rewrite existsb_app in Hrest. cbn in Hrest.
      rewrite orb_true_r in Hrest. discriminate. }
  destruct (simulateTransaction w _ _) as [sim|e2]; cbn.
  2: { split; [|discriminate]. intros pre tx r post H.
       now apply (D _ _ pre post tx r H). }
  destruct (err sim) as [e|]; cbn.
  { split; [|discriminate]. intros pre tx r post H.
    now apply (D _ _ pre post tx r H). }
  destruct (walletSign _ _) as [signed|e3]; cbn.
  2: { split; [|discriminate]. intros pre tx r post H.
       now apply (D _ _ pre post tx r H). }
  destruct (serialize w signed) as [raw|e4]; cbn.
  2: { split; [|discriminate]. intros pre tx r post H.
       now apply (D _ _ pre post tx r H). }
  destruct (sendRawTransaction w _ _ _) as [sig|e5]; cbn.
  2: { split; [|discriminate]. intros pre tx r post H.
       now apply (D _ _ pre post tx r H). }
  destruct (confirmTransaction w _ _ _ _) as [u|e6]; cbn.
  all: split; [|try discriminate; reflexivity].
  all: intros pre tx r post H.
  all: now apply (D _ _ pre post tx r H).
Qed.

(** The first transaction [createToken] simulates carries the
    instructions of [mintTransaction], for the generated mint keypair and
    the fetched rent-exempt balance: the properties of [mintTransaction]
    are properties of the plan [createToken] submits. *)
Lemma createToken_simulates_mintTransaction
  (lib : Lib) (w : World) (payer : PublicKey) (walletSign : WalletSign)
  (metadata : TokenMetadata) (extensions : TokenExtensions)
  (hookConfig : TransferHookConfig) (h : Trace)
  (pre post : list Event) (tx : VersionedTransaction)
  (r : Outcome SimulationValue) :
  snd (createToken lib w payer walletSign metadata extensions hookConfig h)
  = (pre ++ EvSimulateTransaction tx r :: post)%list ->
  existsb isSimulate pre = false ->
  exists mintKeypair lamports bh,
    tx = sign (mkVersionedTransaction
                 (mkTransactionMessage payer bh
                    (mintTransaction lib payer (publicKey mintKeypair)
                       metadata extensions hookConfig lamports)) [])
           [mintKeypair].
Proof.
  intros H Hpre. unfold createToken in H.
  rewrite MonadFacts.bind_events in H. cbn [call fst snd List.app] in H.
  destruct (upload w h _) as [uris|e];
    [|cbn [fst snd List.app] in H; now TraceFacts.trace_cases].
  rewrite MonadFacts.bind_events in H. cbn [call fst snd List.app] in H.
  destruct (uploadJson w _ _) as [uri|e];
    [|cbn [fst snd List.app] in H; now TraceFacts.trace_cases].
  rewrite MonadFacts.bind_events in H.
  cbn [Keypair_generate fst snd List.app] in H.
  set (kp := generateKeypair w _) in H.
  rewrite MonadFacts.bind_events in H. cbn [call fst snd List.app] in H.
  destruct (getMinimumBalanceForRentExemption w _ _) as [lamports|e];
    [|cbn [fst snd List.app] in H; now TraceFacts.trace_cases].
  rewrite MonadFacts.bind_events in H.
  match type of H with
  | context [simulateSignSend w "Mint" payer walletSign kp ?ixs ?h'] =>
      destruct (simulateSignSend_simulation w "Mint" payer walletSign kp ixs h')
        as [Hfirst Hsome];
      set (run := simulateSignSend w "Mint" payer walletSign kp ixs h') in *
  end.
  cbv zeta in Hfirst, Hsome.
  do 4 (destruct pre as [|? pre]; [discriminate H|];
        cbn [List.app] in H; injection H as <- H).
  apply TraceFacts.split_app_mid in H.
  destruct H as [[l [H1 H2]]|[l [H1 H2]]].
  - destruct (Hfirst pre tx r l H1) as [bh [_ Htx]].
    exists kp, lamports, (blockhash bh). exact Htx.
  - exfalso. destruct (fst run) as [sig|e] eqn:Erun.
    + specialize (Hsome sig eq_refl). subst pre.
      cbn [existsb isSimulate orb] in Hpre.
      rewrite existsb_app, Hsome in Hpre. discriminate Hpre.
    + destruct l; discriminate H2.
Qed.

(** [sendInstructions] never simulates, and sends with the flag its
    caller gave. *)
Lemma sendInstructions_trace (w : World) (payer : PublicKey)
  (ixs : list Instruction) (walletSign : WalletSign) (sgs : list Keypair)
  (skipPreflight : bool) (h : Trace) :
  let evs := snd (sendInstructions w payer ixs walletSign sgs skipPreflight h) in
  existsb isSimulate evs = false
  /\ forall raw skip r,
       In (EvSendRawTransaction raw skip r) evs -> skip = skipPreflight.
Proof.
  unfold sendInstructions, buildVersionedTransaction,
    sendAndConfirmVersionedTransaction, bind, call, lift, ret.
  destruct (getLatestBlockhash w h) as [bh|e0]; cbn.
  2: { split; [reflexivity|]. intros raw skip r [H|[]]. discriminate H. }
  destruct (compileToV0Message w _) as [msg|e1]; cbn.
  2: { split; [reflexivity|]. intros raw skip r [H|[]]. discriminate H. }
  destruct (walletSign _ _) as [signed|e2]; cbn.
  2: { split; [reflexivity|]. intros raw skip r [H|[H|[]]]; discriminate H. }
  destruct (getLatestBlockhash w _) as [bh2|e3]; cbn.
  2: { split; [reflexivity|].
       intros raw skip r [H|[H|[H|[]]]]; discriminate H. }
  destruct (serialize w signed) as [raw0|e4]; cbn.
  2: { split; [reflexivity|].
       intros raw skip r [H|[H|[H|[]]]]; discriminate H. }
  destruct (sendRawTransaction w _ _ _) as [sig|e5]; cbn.
  2: { split; [reflexivity|].
       intros raw skip r [H|[H|[H|[H|[]]]]]; try discriminate H.
       now inversion H. }
  destruct (confirmTransaction w _ _ _ _) as [u|e6]; cbn.
  all: split; [reflexivity|].
  all: intros raw skip r [H|[H|[H|[H|[H|[]]]]]]; try discriminate H.
  all: now inversion H.
Qed.

(** C5 (as the code has it): in every run of [createToken] each
    transaction is sent with [skipPreflight] set, right after the wallet
    signed a transaction that had just been simulated without error; a
    simulation that reports an error is the last call of the run, which
    then throws the failure carrying the error and the simulation log.
    The general helper [sendInstructions] makes no simulation call and
    sends with the [skipPreflight] flag of its caller. *)
Theorem createToken_simulates_before_sending
  (lib : Lib) (w : World) (payer : PublicKey) (walletSign : WalletSign)
  (metadata : TokenMetadata) (extensions : TokenExtensions)
  (hookConfig : TransferHookConfig) (h : Trace)
  (ixs : list Instruction) (sgs : list Keypair) (skipPreflight : bool) :
  let run := createToken lib w payer walletSign metadata extensions
               hookConfig h in
  let sent := snd (sendInstructions w payer ixs walletSign sgs skipPreflight h) in
  sends_after_simulation w (snd run)
  /\ failed_simulation_aborts (fst run) (snd run)
  /\ existsb isSimulate sent = false
  /\ forall raw skip r,
       In (EvSendRawTransaction raw skip r) sent -> skip = skipPreflight.
Proof.
  intros run sent.
  destruct (TraceFacts.createToken_disciplined w lib payer walletSign metadata
              extensions hookConfig h) as [Hs Hf].
  destruct (sendInstructions_trace w payer ixs walletSign sgs skipPreflight h)
    as [Hn Hk].
  split; [exact Hs|]. split; [exact Hf|]. split; [exact Hn | exact Hk].
Qed.

Lemma createToken_simulates_before_sending_witness :
  exists what,
    fst (createToken demoLib simFailWorld "Payer" demoWallet demoMetadata
           noExtensions noHookConfig [])
    = Throw (simulationFailure what "AccountInUse" (Some ["log line"])).
Proof.
  pose proof (createToken_simulates_before_sending demoLib simFailWorld
                "Payer" demoWallet demoMetadata noExtensions noHookConfig []
                [] [] false) as H.
  cbv zeta in H. destruct H as (_ & Hf & _).
  set (run := createToken demoLib simFailWorld "Payer" demoWallet demoMetadata
                noExtensions noHookConfig []) in *.
  exact (proj2 (Hf (firstn 5 (snd run)) _
                  (mkSimulationValue (Some "AccountInUse") (Some ["log line"]))
                  "AccountInUse" [] eq_refl eq_refl)).
Defined.

(** C5 as stated fails on the general submission helper: on a ledger
    where every call succeeds, [sendInstructions] with its default flag
    sends the wallet-signed transaction with [skipPreflight] unset and
    without any simulation call before it. *)
Lemma sendInstructions_sends_unsimulated :
  let evs := snd (sendInstructions hookWorld "Payer" [] demoWallet [] false []) in
  let tx := mkVersionedTransaction
              (mkTransactionMessage "Payer" "blockhash" []) [] in
  evs = [ EvGetLatestBlockhash (Ok (mkBlockhashInfo "blockhash" 100));
          EvWalletSign tx (Ok (mkVersionedTransaction (message tx) ["Wallet"]));
          EvGetLatestBlockhash (Ok (mkBlockhashInfo "blockhash" 100));
          EvSendRawTransaction [] false (Ok "signature");
          EvConfirmTransaction "signature" "blockhash" 100 (Ok tt) ]
  /\ existsb isSimulate evs = false
  /\ ~ sends_after_simulation hookWorld evs.
Proof.
  intros evs tx. split; [reflexivity|]. split; [reflexivity|].
  intro H.
  destruct (H (firstn 3 evs) [] false (Ok "signature")
              [EvConfirmTransaction "signature" "blockhash" 100 (Ok tt)]
              eq_refl) as [Hskip _].
  discriminate Hskip.
Qed.

(** [buyToken] hands the prepared call, with its pre-instructions, to
    the Anchor client as its last call. *)
Lemma buyToken_rpc_event (lib : Lib) (w : World) (payer : PublicKey)
  (params : BuyTokenParams) (h : Trace)
  (preIxs : list Instruction) (c : AnchorCall) (es : list Event) :
  buyToken_prepare lib w payer params h = (Ok (preIxs, c), es) ->
  snd (buyToken lib w payer params h)
  = (es ++ [EvAnchorRpc preIxs c (anchorRpc w (h ++ es) preIxs c)])%list.
Proof.
  intro H. unfold buyToken, bind, call. rewrite H. reflexivity.
Qed.

Lemma buyToken_account_schema_witness :
  exists preIxs c,
    fst (buyToken_prepare demoLib hookWorld "Buyer" demoPurchase [])
    = Ok (preIxs, c)
    /\ map ia_name demoPurchaseIdl = purchaseTokenAccountNames
    /\ List.length (ac_remaining c) = 2%nat
    /\ forall ks, instructionKeys demoPurchaseIdl c = Some ks ->
                  List.length ks = (11 + List.length (ac_remaining c))%nat.
Proof.
  eexists. eexists. split; [reflexivity|]. split; [reflexivity|].
  split; [reflexivity|].
  destruct (buyToken_account_schema demoLib hookWorld "Buyer" demoPurchase []
              demoPurchaseIdl _ _ eq_refl eq_refl)
    as (mintInfo & icoData & fixed & _ & _ & _ & _ & _ & _ & _ & Hlen & _).
  exact Hlen.
Defined.

(* ================================================================== *)
(** * Further properties of the time helpers                            *)
(* ================================================================== *)

Module TimeFacts2.

Lemma time_strings_checked : forallb time_string_ok (range 0 1440) = true.
Proof. vm_compute. reflexivity. Qed.

Lemma minutes_in_day_checked :
  forallb (fun s => implb (validHHMM s) (minute_in_day_ok s)) candidates = true.
Proof. vm_compute. reflexivity. Qed.

(** A string without the separator is one piece. *)
Lemma split_no_separator (c : ascii) (s : string) :
  containsChar c s = false -> JS.split c s = [s].
Proof.
  induction s as [|a r IH]; cbn; [reflexivity|].
  intro H. apply orb_false_iff in H. destruct H as [Ha Hr].
  rewrite Ha, (IH Hr). reflexivity.
Qed.

Lemma digit_not_colon (a : ascii) :
  isDigit a = true -> Ascii.eqb a ":" = false.
Proof.
  destruct a as [[] [] [] [] [] [] [] []]; vm_compute; congruence.
Qed.

Lemma valid_shape (s : string) :
  validHHMM s = true ->
  exists a b d e,
    s = hhmm a b d e
    /\ Ascii.eqb a ":" = false /\ Ascii.eqb b ":" = false
    /\ Ascii.eqb d ":" = false /\ Ascii.eqb e ":" = false.
Proof.
  intro H.
  destruct s as [|a [|b [|c [|d [|e [|? ?]]]]]]; cbn [validHHMM] in H;
    try discriminate.
  do 6 (apply andb_prop in H; destruct H as [H ?]).
  match goal with E : Ascii.eqb c _ = true |- _ =>
    apply Ascii.eqb_eq in E; subst c end.
  exists a, b, d, e. split; [reflexivity|].
  repeat split; apply digit_not_colon; assumption.
Qed.

End TimeFacts2.

(** X1: both printers give a valid wall-clock string on every
    minute-of-day. *)
Theorem time_strings_valid (m : Z) :
  0 <= m < 1440 ->
  validHHMM (utcMinuteToIstTime m) = true
  /\ validHHMM (utcMinuteToUtcTime m) = true.
Proof.
  intro Hm.
  pose proof (proj1 (forallb_forall _ _) TimeFacts2.time_strings_checked m
                (TimeFacts.range_In 0 1440 m ltac:(lia))) as H.
  unfold time_string_ok in H. now apply andb_prop in H.
Qed.

Lemma time_strings_valid_witness :
  0 <= 1439 < 1440 /\ validHHMM (utcMinuteToIstTime 1439) = true.
Proof.
  split; [lia|]. apply (time_strings_valid 1439). lia.
Defined.

(** X2: a valid wall-clock string reads as a minute-of-day, and different
    strings read as different minutes. *)
Theorem istTimeToUtcMinute_in_day (s t : string) :
  validHHMM s = true -> validHHMM t = true ->
  (exists u, istTimeToUtcMinute s = Some u /\ 0 <= u < 1440)
  /\ (istTimeToUtcMinute s = istTimeToUtcMinute t -> s = t).
Proof.
  intros Hs Ht. split.
  - pose proof (proj1 (forallb_forall _ _) TimeFacts2.minutes_in_day_checked s
                  (TimeFacts.valid_candidate s Hs)) as H.
    cbv beta in H. rewrite Hs in H. unfold implb, minute_in_day_ok in H.
    destruct (istTimeToUtcMinute s) as [u|]; [|discriminate].
    exists u. split; [reflexivity|].
    apply andb_prop in H. destruct H as [H1 H2]. lia.
  - intro E.
    pose proof (TimeFacts.string_roundtrip s Hs) as Rs.
    pose proof (TimeFacts.string_roundtrip t Ht) as Rt.
    rewrite E, Rt in Rs. now inversion Rs.
Qed.

Lemma istTimeToUtcMinute_in_day_witness :
  validHHMM "00:00" = true /\ validHHMM "05:30" = true
  /\ exists u, istTimeToUtcMinute "00:00" = Some u /\ 0 <= u < 1440.
Proof.
  split; [reflexivity|]. split; [reflexivity|].
  apply (istTimeToUtcMinute_in_day "00:00" "05:30"); reflexivity.
Defined.

(** X3: the IST string of a minute-of-day is the UTC string of the
    minute 330 later, wrapped around midnight. *)
Theorem ist_is_utc_plus_offset (m : Z) :
  0 <= m < 1440 ->
  utcMinuteToIstTime m = utcMinuteToUtcTime ((m + IST_OFFSET) mod 1440).
Proof.
  intro Hm. unfold utcMinuteToIstTime, utcMinuteToUtcTime, IST_OFFSET.
  cbv zeta.
  assert (E : (if 1440 <=? m + 330 then m + 330 - 1440 else m + 330)
              = (m + 330) mod 1440).
  { destruct (Z.leb_spec 1440 (m + 330)).
    - apply (Z.mod_unique (m + 330) 1440 1); lia.
    - symmetry. apply Z.mod_small. lia. }
  rewrite E. reflexivity.
Qed.

Lemma ist_is_utc_plus_offset_witness :
  0 <= 1200 < 1440
  /\ utcMinuteToIstTime 1200 = utcMinuteToUtcTime ((1200 + IST_OFFSET) mod 1440).
Proof.
  split; [lia|]. apply (ist_is_utc_plus_offset 1200). lia.
Defined.

(** X4: a string without a colon reads as NaN, whatever it holds. *)
Theorem istTimeToUtcMinute_no_colon (s : string) :
  containsChar ":" s = false -> istTimeToUtcMinute s = None.
Proof.
  intro H. unfold istTimeToUtcMinute.
  rewrite (TimeFacts2.split_no_separator ":" s H). cbn.
  destruct (JS.Number s); reflexivity.
Qed.

Lemma istTimeToUtcMinute_no_colon_witness :
  containsChar ":" "0930" = false /\ istTimeToUtcMinute "0930" = None.
Proof.
  split; [reflexivity|]. apply (istTimeToUtcMinute_no_colon "0930").
  reflexivity.
Defined.

(** X5: what follows a second colon is ignored: a valid string extended
    by a colon and anything reads as the valid string does. *)
Theorem istTimeToUtcMinute_ignores_seconds (s t : string) :
  validHHMM s = true ->
  istTimeToUtcMinute (s ++ ":" ++ t) = istTimeToUtcMinute s.
Proof.
  intro Hs.
  destruct (TimeFacts2.valid_shape s Hs) as (a & b & d & e & -> & Ha & Hb & Hd & He).
  unfold istTimeToUtcMinute, hhmm.
  cbn [append JS.split]. rewrite Ha, Hb, Hd, He, !Ascii.eqb_refl.
  cbn [JS.split]. reflexivity.
Qed.

Lemma istTimeToUtcMinute_ignores_seconds_witness :
  validHHMM "09:30" = true
  /\ istTimeToUtcMinute ("09:30" ++ ":" ++ "45") = istTimeToUtcMinute "09:30".
Proof.
  split; [reflexivity|].
  apply (istTimeToUtcMinute_ignores_seconds "09:30" "45"). reflexivity.
Defined.

(* ================================================================== *)
(** * Further properties of the mint transaction                        *)
(* ================================================================== *)

(** X6: the CPI guard disables the transfer hook. *)
Theorem cpiGuard_excludes_transferHook
  (lib : Lib) (payer mint : PublicKey) (metadata : TokenMetadata)
  (extensions : TokenExtensions) (hookConfig : TransferHookConfig)
  (lamports : Z) :
  truthy (cpiGuard extensions) = true ->
  let plan :=
    mintTransaction lib payer mint metadata extensions hookConfig lamports in
  ~ In ExtensionType.TransferHook (extensionTypes extensions)
  /\ existsb isInitTransferHook plan = false
  /\ existsb isInitRegistry plan = false
  /\ In ExtensionType.CpiGuard (accountExtensionTypes extensions)
  /\ occurrences isReallocate plan = 1%nat
  /\ occurrences isEnableCpiGuard plan = 1%nat.
Proof.
  intros Hc plan. subst plan.
  PlanFacts.request_cases extensions; try discriminate Hc.
  all: repeat match goal with |- _ /\ _ => split end.
  all: try solve [vm_compute; reflexivity].
  all: try solve [cbv; intuition discriminate].
  all: try solve [cbv; tauto].
Qed.

Lemma cpiGuard_excludes_transferHook_witness :
  truthy (cpiGuard (mkTokenExtensions None None None None None (Some true)))
  = true
  /\ existsb isInitRegistry
       (mintTransaction demoLib "Payer" "Mint" demoMetadata
          (mkTokenExtensions None None None None None (Some true))
          noHookConfig 1000000) = false.
Proof.
  split; [reflexivity|].
  apply (cpiGuard_excludes_transferHook demoLib "Payer" "Mint" demoMetadata
           (mkTokenExtensions None None None None None (Some true))
           noHookConfig 1000000).
  reflexivity.
Defined.

(** X7: the extensions the account is sized for are the extensions the
    plan initialises, each once. *)
Theorem sized_extensions_are_initialised
  (lib : Lib) (payer mint : PublicKey) (metadata : TokenMetadata)
  (extensions : TokenExtensions) (hookConfig : TransferHookConfig)
  (lamports : Z) (t : ExtensionType.t) :
  let plan :=
    mintTransaction lib payer mint metadata extensions hookConfig lamports in
  occurrences (initialises t) plan
  = List.length (filter (ExtensionType.eqb t) (extensionTypes extensions))
  /\ (occurrences (initialises t) plan <= 1)%nat
  /\ (isAccountExtension t = true -> occurrences (initialises t) plan = 0%nat)
  /\ occurrences isMintExtensionInit plan
     = List.length (extensionTypes extensions).
Proof.
  intro plan. subst plan.
  PlanFacts.request_cases extensions; destruct t.
  all: repeat match goal with |- _ /\ _ => split end.
  all: try solve [vm_compute; reflexivity].
  all: try solve [vm_compute; lia].
  all: try solve [intro H; discriminate H].
Qed.

Lemma sized_extensions_are_initialised_witness :
  occurrences (initialises ExtensionType.MemoTransfer)
    (mintTransaction demoLib "Payer" "Mint" demoMetadata
       (mkTokenExtensions None None None (Some true) None None)
       noHookConfig 1000000) = 0%nat.
Proof.
  destruct (sized_extensions_are_initialised demoLib "Payer" "Mint"
              demoMetadata
              (mkTokenExtensions None None None (Some true) None None)
              noHookConfig 1000000 ExtensionType.MemoTransfer)
    as (_ & _ & Hacc & _).
  apply Hacc. reflexivity.
Defined.

(** X8: the plan has between five and eleven instructions. *)
Theorem mintTransaction_length
  (lib : Lib) (payer mint : PublicKey) (metadata : TokenMetadata)
  (extensions : TokenExtensions) (hookConfig : TransferHookConfig)
  (lamports : Z) :
  let plan :=
    mintTransaction lib payer mint metadata extensions hookConfig lamports in
  (5 <= List.length plan <= 11)%nat
  /\ List.length plan
     = (4 + List.length (extensionTypes extensions)
        + (if isTransferHookDisabled extensions then 0 else 1)
        + match accountExtensionTypes extensions with
          | [] => 0
          | ts => 1 + List.length ts
          end)%nat.
Proof.
  intro plan. subst plan.
  PlanFacts.request_cases extensions.
  all: split; [vm_compute; lia | vm_compute; reflexivity].
Qed.

(** X9: the account-level extensions: the extension list of the mint
    holds none of them; the plan reallocates exactly when one is
    requested, for exactly the requested ones, and enables each
    requested one once. *)
Theorem account_extensions_consistent
  (lib : Lib) (payer mint : PublicKey) (metadata : TokenMetadata)
  (extensions : TokenExtensions) (hookConfig : TransferHookConfig)
  (lamports : Z) :
  let plan :=
    mintTransaction lib payer mint metadata extensions hookConfig lamports in
  let ata := getAssociatedTokenAddressSync lib mint payer false
               TOKEN_2022_PROGRAM_ID in
  existsb isAccountExtension (extensionTypes extensions) = false
  /\ forallb isAccountExtension (accountExtensionTypes extensions) = true
  /\ filter isReallocate plan
     = match accountExtensionTypes extensions with
       | [] => []
       | ts => [Reallocate ata payer ts payer TOKEN_2022_PROGRAM_ID]
       end
  /\ occurrences isEnableMemo plan
     = List.length (filter (ExtensionType.eqb ExtensionType.MemoTransfer)
                      (accountExtensionTypes extensions))
  /\ occurrences isEnableCpiGuard plan
     = List.length (filter (ExtensionType.eqb ExtensionType.CpiGuard)
                      (accountExtensionTypes extensions))
  /\ (In ExtensionType.MemoTransfer (accountExtensionTypes extensions)
      <-> truthy (memoTransfer extensions) = true)
  /\ (In ExtensionType.CpiGuard (accountExtensionTypes extensions)
      <-> truthy (cpiGuard extensions) = true).
Proof.
  intros plan ata. subst plan ata.
  PlanFacts.request_cases extensions.
  all: repeat match goal with |- _ /\ _ => split end.
  all: try reflexivity.
  all: try solve [cbv; intuition discriminate].
Qed.

Lemma account_extensions_consistent_witness :
  In ExtensionType.MemoTransfer
    (accountExtensionTypes
       (mkTokenExtensions None None None (Some true) None None)).
Proof.
  destruct (account_extensions_consistent demoLib "Payer" "Mint" demoMetadata
              (mkTokenExtensions None None None (Some true) None None)
              noHookConfig 1000000)
    as (_ & _ & _ & _ & _ & Hmemo & _).
  apply Hmemo. reflexivity.
Defined.

(** X10: for decimals that are a u8 and a whole supply whose product
    with 10^decimals is below 2^53, where the double-precision product
    of token.ts line 179 is the exact one: every instruction of the plan
    works on the one new mint and on the payer's associated account for
    it; the payer is funder, owner and every authority; the supply
    minted is the supply multiplied by 10^decimals. *)
Theorem mintTransaction_addresses
  (lib : Lib) (payer mint : PublicKey) (metadata : TokenMetadata)
  (extensions : TokenExtensions) (hookConfig : TransferHookConfig)
  (lamports : Z) :
  0 <= decimals metadata < 2 ^ 8 ->
  0 <= supply metadata ->
  supply metadata * 10 ^ decimals metadata < 2 ^ 53 ->
  let plan :=
    mintTransaction lib payer mint metadata extensions hookConfig lamports in
  let ata := getAssociatedTokenAddressSync lib mint payer false
               TOKEN_2022_PROGRAM_ID in
  Forall (wellAddressed mint ata payer) plan
  /\ filter isMintTo plan
     = [MintTo mint ata payer (supply metadata * 10 ^ decimals metadata)
          TOKEN_2022_PROGRAM_ID]
  /\ filter isInitializeMint plan
     = [InitializeMint mint (decimals metadata) payer payer
          TOKEN_2022_PROGRAM_ID].
Proof.
  intros _ _ _ plan ata. subst plan ata.
  PlanFacts.request_cases extensions.
  all: split; [|split; reflexivity].
  all: cbv [mintTransaction when isTransferHookDisabled isTransferFeeDisabled
            isPermanentDelegateDisabled truthy present nonTransferable
            cpiGuard permanentDelegation transferFee interestBearing
            memoTransfer orb andb negb accountExtensionTypes List.app
            List.length Z.of_nat Z.ltb Z.compare initRegistryIx].
  all: repeat (apply Forall_cons; [cbn; repeat split; reflexivity|]).
  all: apply Forall_nil.
Qed.

Lemma mintTransaction_addresses_witness :
  filter isMintTo
    (mintTransaction demoLib "Payer" "Mint" demoMetadata scenarioRequest
       noHookConfig 1000000)
  = [MintTo "Mint"
       (getAssociatedTokenAddressSync demoLib "Mint" "Payer" false
          TOKEN_2022_PROGRAM_ID)
       "Payer" 1000000000000 TOKEN_2022_PROGRAM_ID].
Proof.
  destruct (mintTransaction_addresses demoLib "Payer" "Mint" demoMetadata
              scenarioRequest noHookConfig 1000000)
    as (_ & Hmint & _).
  - cbn. lia.
  - cbn. lia.
  - cbn. lia.
  - exact Hmint.
Defined.

(** X11: for decimals that are a u8, trading hours that are minutes of
    the day and transfer bounds [0 <= min <= max] with [max * 10^decimals]
    below 2^53 (where [new BN] does not throw and the double-precision
    product is the exact one), the registry initialisation is the
    [initializeRegistry] call of the hook program with these arguments,
    in this order: the opening and the closing minute as given, or both
    null without trading hours; the maximum and then the minimum
    multiplied by 10^decimals, or 2^64 - 1 and 0 without bounds; the NFT
    mint, or the null address without one.  The bounds stay ordered and
    within u64.  The accounts are the payer, the treasury, the mint and
    the two addresses derived for the mint. *)
Theorem initRegistryIx_arguments
  (lib : Lib) (payer mint : PublicKey) (metadata : TokenMetadata)
  (hookConfig : TransferHookConfig) :
  0 <= decimals metadata < 2 ^ 8 ->
  (forall t, tradingHours hookConfig = Some t ->
     0 <= openMinuteUTC t < 1440 /\ 0 <= closeMinuteUTC t < 1440) ->
  (forall l, transferLimits hookConfig = Some l ->
     0 <= min l <= max l /\ max l * 10 ^ decimals metadata < 2 ^ 53) ->
  exists c maxAmt minAmt,
    initRegistryIx lib payer mint metadata hookConfig = Anchor c
    /\ ac_program c = TRANSFER_HOOK_PROGRAM_ID
    /\ ac_method c = "initializeRegistry"
    /\ ac_args c
       = [ option_map openMinuteUTC (tradingHours hookConfig);
           option_map closeMinuteUTC (tradingHours hookConfig);
           Some maxAmt; Some minAmt ]
    /\ maxAmt = match transferLimits hookConfig with
                | Some l => max l * 10 ^ decimals metadata
                | None => 2 ^ 64 - 1
                end
    /\ minAmt = match transferLimits hookConfig with
                | Some l => min l * 10 ^ decimals metadata
                | None => 0
                end
    /\ 0 <= minAmt <= maxAmt /\ maxAmt < 2 ^ 64
    /\ ac_keyArgs c
       = [ match nftMintAddress hookConfig with
           | Some k => k
           | None => PublicKey_.default
           end ]
    /\ ac_accounts c
       = [ ("payer", payer); ("treasury", TREASURY_ADDRESS); ("mint", mint);
           ("config", fst (deriveHookConfigPDA lib mint));
           ("extraAccountMetaList",
            fst (deriveExtraAccountMetaListPDA lib mint));
           ("systemProgram", SystemProgram_programId) ]
    /\ ac_remaining c = [].
Proof.
  intros Hd _ Hl. unfold initRegistryIx.
  eexists. eexists. eexists.
  split; [reflexivity|]. split; [reflexivity|]. split; [reflexivity|].
  split; [reflexivity|]. split; [reflexivity|]. split; [reflexivity|].
  assert (Hpow : 0 <= 10 ^ decimals metadata) by (apply Z.pow_nonneg; lia).
  split; [|split; [|split; [reflexivity | split; reflexivity]]].
  - destruct (transferLimits hookConfig) as [l|]; [|lia].
    destruct (Hl l eq_refl) as [[Hmin Hmax] Hsafe].
    split; [apply Z.mul_nonneg_nonneg; lia|].
    apply Z.mul_le_mono_nonneg_r; lia.
  - destruct (transferLimits hookConfig) as [l|]; [|lia].
    destruct (Hl l eq_refl) as [_ Hsafe]. lia.
Qed.

Lemma initRegistryIx_arguments_witness :
  exists c,
    initRegistryIx demoLib "Payer" "Mint" demoMetadata demoHookConfig
    = Anchor c
    /\ ac_args c = [Some 225; Some 585; Some 1000000000000; Some 1000000000].
Proof.
  destruct (initRegistryIx_arguments demoLib "Payer" "Mint" demoMetadata
              demoHookConfig)
    as (c & maxAmt & minAmt & Hc & _ & _ & Hargs & Hmax & Hmin & _).
  - cbn. lia.
  - intros t Ht. inversion Ht; subst t. cbn. lia.
  - intros l Hl. inversion Hl; subst l. cbn. lia.
  - exists c. split; [exact Hc|].
    rewrite Hargs, Hmax, Hmin. reflexivity.
Defined.

(* ================================================================== *)
(** * Further properties of transaction submission                      *)
(* ================================================================== *)

Module RunFacts.

Lemma bind_run_inv {A B} (m : M A) (k : A -> M B) (h : Trace) (b : B)
  (es : list Event) :
  bind m k h = (Ok b, es) ->
  exists a es1 es2,
    m h = (Ok a, es1) /\ k a (h ++ es1)%list = (Ok b, es2)
    /\ es = (es1 ++ es2)%list.
Proof.
  unfold bind. destruct (m h) as [[a|e] es1]; [|discriminate].
  destruct (k a (h ++ es1)%list) as [r es2] eqn:E. intro H.
  inversion H; subst. exists a, es1, es2. auto.
Qed.

Lemma call_run_inv {A} (ask : Trace -> Outcome A) (ev : Outcome A -> Event)
  (h : Trace) (a : A) (es : list Event) :
  call ask ev h = (Ok a, es) -> ask h = Ok a /\ es = [ev (Ok a)].
Proof.
  unfold call. intro H. inversion H as [[H1 H2]]. rewrite H1. auto.
Qed.

Lemma ret_fails_fast {A} (a : A) (h : Trace) : fails_fast (ret a h).
Proof. intros pre ev post e H. destruct pre; discriminate H. Qed.

Lemma lift_fails_fast {A} (r : Outcome A) (h : Trace) : fails_fast (lift r h).
Proof. intros pre ev post e H. destruct pre; discriminate H. Qed.

Lemma call_fails_fast {A} (ask : Trace -> Outcome A)
  (ev : Outcome A -> Event) (h : Trace) :
  (forall r, eventError (ev r) = outcomeError r) ->
  fails_fast (call ask ev h).
Proof.
  intros Hev pre e0 post e H He. unfold call in *. cbn [fst snd] in *.
  destruct pre as [|? pre]; [|destruct pre; discriminate H].
  inversion H; subst. split; [reflexivity|].
  rewrite Hev in He. destruct (ask h); cbn in He; congruence.
Qed.

Lemma bind_fails_fast {A B} (m : M A) (k : A -> M B) (h : Trace) :
  fails_fast (m h) ->
  (forall a es, m h = (Ok a, es) -> fails_fast (k a (h ++ es)%list)) ->
  fails_fast (bind m k h).
Proof.
  unfold bind. destruct (m h) as [[a|e] es] eqn:E; intros Hm Hk.
  - specialize (Hk a es eq_refl).
    destruct (k a (h ++ es)%list) as [r es'].
    intros pre ev post e Q He. cbn [fst snd] in *.
    apply TraceFacts.split_app_mid in Q.
    destruct Q as [[l [Q1 Q2]]|[l [Q1 Q2]]].
    + destruct (Hm pre ev l e Q1 He) as [_ W]. discriminate W.
    + exact (Hk l ev post e Q2 He).
  - intros pre ev post e' Q He. cbn [fst snd] in *.
    destruct (Hm pre ev post e' Q He) as [P W].
    split; [exact P|]. inversion W. reflexivity.
Qed.

Lemma throw_fails_fast {A} (e : Exn) (h : Trace) : fails_fast (@throw A e h).
Proof. intros pre ev post e0 H. destruct pre; discriminate H. Qed.

Section Runs.

Variable w : World.

Lemma buildVersionedTransaction_fails_fast (payer : PublicKey)
  (ixs : list Instruction) (sgs : list Keypair) (h : Trace) :
  fails_fast (buildVersionedTransaction w payer ixs sgs h).
Proof.
  unfold buildVersionedTransaction.
  apply bind_fails_fast; [now apply call_fails_fast|]. intros bh es1 _.
  apply bind_fails_fast; [apply lift_fails_fast|]. intros msg es2 _.
  apply ret_fails_fast.
Qed.

Lemma sendAndConfirm_fails_fast (tx : VersionedTransaction) (skip : bool)
  (h : Trace) :
  fails_fast (sendAndConfirmVersionedTransaction w tx skip h).
Proof.
  unfold sendAndConfirmVersionedTransaction.
  apply bind_fails_fast; [now apply call_fails_fast|]. intros bh es1 _.
  apply bind_fails_fast; [apply lift_fails_fast|]. intros raw es2 _.
  apply bind_fails_fast; [now apply call_fails_fast|]. intros sig es3 _.
  apply bind_fails_fast; [now apply call_fails_fast|]. intros u es4 _.
  apply ret_fails_fast.
Qed.

Lemma sendInstructions_fails_fast (payer : PublicKey)
  (ixs : list Instruction) (walletSign : WalletSign) (sgs : list Keypair)
  (skip : bool) (h : Trace) :
  fails_fast (sendInstructions w payer ixs walletSign sgs skip h).
Proof.
  unfold sendInstructions.
  apply bind_fails_fast; [apply buildVersionedTransaction_fails_fast|].
  intros tx es1 _.
  apply bind_fails_fast; [now apply call_fails_fast|]. intros signed es2 _.
  apply sendAndConfirm_fails_fast.
Qed.

Lemma simulateSignSend_fails_fast (what : string) (payer : PublicKey)
  (walletSign : WalletSign) (kp : Keypair) (ixs : list Instruction)
  (h : Trace) :
  fails_fast (simulateSignSend w what payer walletSign kp ixs h).
Proof.
  unfold simulateSignSend.
  apply bind_fails_fast; [now apply call_fails_fast|]. intros bh es1 _.
  apply bind_fails_fast; [apply lift_fails_fast|]. intros msg es2 _.
  apply bind_fails_fast; [now apply call_fails_fast|]. intros sim es3 _.
  destruct (err sim); [apply throw_fails_fast|].
  apply bind_fails_fast; [now apply call_fails_fast|]. intros signed es4 _.
  apply bind_fails_fast; [apply lift_fails_fast|]. intros raw es5 _.
  apply bind_fails_fast; [now apply call_fails_fast|]. intros sig es6 _.
  apply bind_fails_fast; [now apply call_fails_fast|]. intros u es7 _.
  apply ret_fails_fast.
Qed.

Lemma createToken_fails_fast (lib : Lib) (payer : PublicKey)
  (walletSign : WalletSign) (metadata : TokenMetadata)
  (extensions : TokenExtensions) (hookConfig : TransferHookConfig)
  (h : Trace) :
  fails_fast
    (createToken lib w payer walletSign metadata extensions hookConfig h).
Proof.
  unfold createToken.
  apply bind_fails_fast; [now apply call_fails_fast|]. intros uris es1 _.
  apply bind_fails_fast; [now apply call_fails_fast|]. intros uri es2 _.
  apply bind_fails_fast.
  { intros pre ev post e H He. unfold Keypair_generate in H. cbn in H.
    destruct pre as [|? pre]; [|destruct pre; discriminate H].
    inversion H; subst. discriminate He. }
  intros kp es3 _.
  apply bind_fails_fast; [now apply call_fails_fast|]. intros lam es4 _.
  apply bind_fails_fast; [apply simulateSignSend_fails_fast|].
  intros sig1 es5 _.
  apply bind_fails_fast; [apply simulateSignSend_fails_fast|].
  intros sig2 es6 _.
  apply ret_fails_fast.
Qed.

End Runs.
End RunFacts.

Module SubmitFacts.

Lemma bind_outcome {A B} (m : M A) (k : A -> M B) (h : Trace) :
  fst (bind m k h)
  = match fst (m h) with
    | Ok a => fst (k a (h ++ snd (m h))%list)
    | Throw e => Throw e
    end.
Proof.
  unfold bind. destruct (m h) as [[a|e] es]; cbn; [|reflexivity].
  destruct (k a (h ++ es)%list). reflexivity.
Qed.

Section Submit.

Variable w : World.

(** The calls of a simulate-sign-send block that returns. *)
Lemma simulateSignSend_Ok (what : string) (payer : PublicKey)
  (walletSign : WalletSign) (kp : Keypair) (ixs : list Instruction)
  (h : Trace) (sig : string) (es : list Event) :
  simulateSignSend w what payer walletSign kp ixs h = (Ok sig, es) ->
  exists bh sim signed raw,
    let tx := sign (mkVersionedTransaction
                      (mkTransactionMessage payer (blockhash bh) ixs) [])
                [kp] in
    es = [ EvGetLatestBlockhash (Ok bh);
           EvSimulateTransaction tx (Ok sim);
           EvWalletSign tx (Ok signed);
           EvSendRawTransaction raw true (Ok sig);
           EvConfirmTransaction sig (blockhash bh) (lastValidBlockHeight bh)
             (Ok tt) ]
    /\ err sim = None
    /\ serialize w signed = Ok raw.
Proof.
  unfold simulateSignSend, compileToV0Message, bind, call, lift, ret, throw.
  destruct (getLatestBlockhash w h) as [bh|e0]; cbn; [|discriminate].
  destruct (compileFailure w _) as [e1|]; cbn; [discriminate|].
  destruct (simulateTransaction w _ _) as [sim|e2]; cbn; [|discriminate].
  destruct (err sim) as [e|] eqn:Eerr; cbn; [discriminate|].
  destruct (walletSign _ _) as [signed|e3]; cbn; [|discriminate].
  destruct (serialize w signed) as [raw|e4] eqn:Eraw; cbn; [|discriminate].
  destruct (sendRawTransaction w _ _ _) as [sg|e5]; cbn; [|discriminate].
  destruct (confirmTransaction w _ _ _ _) as [[]|e6]; cbn; [|discriminate].
  intro H. inversion H; subst.
  exists bh, sim, signed, raw. cbv zeta. auto.
Qed.

(** A block whose simulation reports an error: that call is the last,
    nothing was signed by the wallet or sent, and the block throws the
    failure labelled [what]. *)
Lemma simulateSignSend_failed (what : string) (payer : PublicKey)
  (walletSign : WalletSign) (kp : Keypair) (ixs : list Instruction)
  (h : Trace) (pre post : list Event) (tx : VersionedTransaction)
  (sim : SimulationValue) (e : string) :
  snd (simulateSignSend w what payer walletSign kp ixs h)
  = (pre ++ EvSimulateTransaction tx (Ok sim) :: post)%list ->
  err sim = Some e ->
  post = []
  /\ fst (simulateSignSend w what payer walletSign kp ixs h)
     = Throw (simulationFailure what e (logs sim))
  /\ existsb isSend pre = false
  /\ existsb isWalletSign pre = false.
Proof.
  unfold simulateSignSend, compileToV0Message, bind, call, lift, ret, throw.
  destruct (getLatestBlockhash w h) as [bh|e0]; cbn.
  2: { intros H; TraceFacts.trace_cases. }
  destruct (compileFailure w _) as [e1|]; cbn.
  { intros H; TraceFacts.trace_cases. }
  destruct (simulateTransaction w _ _) as [sim0|e2]; cbn.
  2: { intros H; TraceFacts.trace_cases. }
  destruct (err sim0) as [e'|] eqn:Eerr; cbn.
  { intros H He; TraceFacts.trace_cases.
    rewrite Eerr in He. inversion He; subst. auto. }
  destruct (walletSign _ _) as [signed|e3]; cbn.
  2: { intros H He; TraceFacts.trace_cases; congruence. }
  destruct (serialize w signed) as [raw|e4]; cbn.
  2: { intros H He; TraceFacts.trace_cases; congruence. }
  destruct (sendRawTransaction w _ _ _) as [sg|e5]; cbn.
  2: { intros H He; TraceFacts.trace_cases; congruence. }
  destruct (confirmTransaction w _ _ _ _) as [u|e6]; cbn.
  all: intros H He; TraceFacts.trace_cases; congruence.
Qed.

Lemma simulateSignSend_sends (what : string) (payer : PublicKey)
  (walletSign : WalletSign) (kp : Keypair) (ixs : list Instruction)
  (h : Trace) :
  (List.length (filter isSend
     (snd (simulateSignSend w what payer walletSign kp ixs h))) <= 1)%nat.
Proof.
  unfold simulateSignSend, compileToV0Message, bind, call, lift, ret, throw.
  destruct (getLatestBlockhash w h) as [bh|e0]; cbn; [|lia].
  destruct (compileFailure w _) as [e1|]; cbn; [lia|].
  destruct (simulateTransaction w _ _) as [sim0|e2]; cbn; [|lia].
  destruct (err sim0) as [e'|]; cbn; [lia|].
  destruct (walletSign _ _) as [signed|e3]; cbn; [|lia].
  destruct (serialize w signed) as [raw|e4]; cbn; [|lia].
  destruct (sendRawTransaction w _ _ _) as [sg|e5]; cbn; [|lia].
  destruct (confirmTransaction w _ _ _ _) as [u|e6]; cbn; lia.
Qed.

End Submit.

(** What a [sendInstructions] that returns has done. *)
Lemma sendInstructions_Ok
  (w : World) (payer : PublicKey) (ixs : list Instruction)
  (walletSign : WalletSign) (sgs : list Keypair) (skipPreflight : bool)
  (h : Trace) (sig : string) (es : list Event) :
  sendInstructions w payer ixs walletSign sgs skipPreflight h = (Ok sig, es) ->
  exists b1 signed b2 raw,
    let tx := mkVersionedTransaction
                (mkTransactionMessage payer (blockhash b1) ixs)
                (map publicKey sgs) in
    es = [ EvGetLatestBlockhash (Ok b1);
           EvWalletSign tx (Ok signed);
           EvGetLatestBlockhash (Ok b2);
           EvSendRawTransaction raw skipPreflight (Ok sig);
           EvConfirmTransaction sig (blockhash b2) (lastValidBlockHeight b2)
             (Ok tt) ]
    /\ compileFailure w (message tx) = None
    /\ serialize w signed = Ok raw.
Proof.
  unfold sendInstructions, buildVersionedTransaction,
    sendAndConfirmVersionedTransaction, compileToV0Message, bind, call, lift,
    ret.
  destruct (getLatestBlockhash w h) as [b1|e0]; cbn; [|discriminate].
  destruct (compileFailure w _) as [e1|] eqn:Ecomp; cbn; [discriminate|].
  assert (Esg : (if 0 <? Z.of_nat (List.length sgs)
                 then sign (mkVersionedTransaction
                              (mkTransactionMessage payer (blockhash b1) ixs) [])
                        sgs
                 else mkVersionedTransaction
                        (mkTransactionMessage payer (blockhash b1) ixs) [])
                = mkVersionedTransaction
                    (mkTransactionMessage payer (blockhash b1) ixs)
                    (map publicKey sgs)).
  { destruct sgs; reflexivity. }
  rewrite Esg.
  destruct (walletSign _ _) as [signed|e2]; cbn; [|discriminate].
  destruct (getLatestBlockhash w _) as [b2|e3]; cbn; [|discriminate].
  destruct (serialize w signed) as [raw|e4] eqn:Eraw; cbn; [|discriminate].
  destruct (sendRawTransaction w _ _ _) as [sg|e5]; cbn; [|discriminate].
  destruct (confirmTransaction w _ _ _ _) as [[]|e6]; cbn; [|discriminate].
  intro H. inversion H; subst.
  exists b1, signed, b2, raw. cbv zeta. auto.
Qed.

End SubmitFacts.

(** X12: a [sendInstructions] that returns has made five calls: it
    fetched a blockhash and compiled the instructions against it for
    the payer, with the given signers' signatures; had the wallet sign;
    fetched a second blockhash; sent the signed transaction with the
    caller's flag; and confirmed the returned signature against the
    second blockhash. *)
Theorem sendInstructions_success
  (w : World) (payer : PublicKey) (ixs : list Instruction)
  (walletSign : WalletSign) (sgs : list Keypair) (skipPreflight : bool)
  (h : Trace) (sig : string) (es : list Event) :
  sendInstructions w payer ixs walletSign sgs skipPreflight h = (Ok sig, es) ->
  exists b1 signed b2 raw,
    let tx := mkVersionedTransaction
                (mkTransactionMessage payer (blockhash b1) ixs)
                (map publicKey sgs) in
    es = [ EvGetLatestBlockhash (Ok b1);
           EvWalletSign tx (Ok signed);
           EvGetLatestBlockhash (Ok b2);
           EvSendRawTransaction raw skipPreflight (Ok sig);
           EvConfirmTransaction sig (blockhash b2) (lastValidBlockHeight b2)
             (Ok tt) ]
    /\ compileFailure w (message tx) = None
    /\ serialize w signed = Ok raw.
Proof.
  exact (SubmitFacts.sendInstructions_Ok w payer ixs walletSign sgs
           skipPreflight h sig es).
Qed.

Lemma sendInstructions_success_witness :
  exists sig es,
    sendInstructions hookWorld "Payer" [] demoWallet [] false [] = (Ok sig, es)
    /\ List.length es = 5%nat.
Proof.
  eexists. eexists. split; [reflexivity|].
  destruct (sendInstructions_success hookWorld "Payer" [] demoWallet [] false
              [] _ _ eq_refl) as (b1 & signed & b2 & raw & Hes & _).
  cbv zeta in Hes. rewrite Hes. reflexivity.
Defined.

(** X13: [sendInstructions] makes no call after one that throws and
    throws that call's error unchanged; it sends at most once. *)
Theorem sendInstructions_no_retry
  (w : World) (payer : PublicKey) (ixs : list Instruction)
  (walletSign : WalletSign) (sgs : list Keypair) (skipPreflight : bool)
  (h : Trace) :
  let run := sendInstructions w payer ixs walletSign sgs skipPreflight h in
  fails_fast run
  /\ (List.length (filter isSend (snd run)) <= 1)%nat
  /\ (forall sig, fst run = Ok sig ->
        forall ev, In ev (snd run) -> eventError ev = None).
Proof.
  intro run. subst run.
  pose proof (RunFacts.sendInstructions_fails_fast w payer ixs walletSign sgs
                skipPreflight h) as Hff.
  split; [exact Hff|]. split.
  - unfold sendInstructions, buildVersionedTransaction,
      sendAndConfirmVersionedTransaction, compileToV0Message, bind, call, lift,
      ret.
    destruct (getLatestBlockhash w h) as [b1|e0]; cbn; [|lia].
    destruct (compileFailure w _) as [e1|]; cbn; [lia|].
    destruct (walletSign _ _) as [signed|e2]; cbn; [|lia].
    destruct (getLatestBlockhash w _) as [b2|e3]; cbn; [|lia].
    destruct (serialize w signed) as [raw|e4]; cbn; [|lia].
    destruct (sendRawTransaction w _ _ _) as [sg|e5]; cbn; [|lia].
    destruct (confirmTransaction w _ _ _ _) as [u|e6]; cbn; lia.
  - intros sig Hok ev Hin.
    destruct (eventError ev) as [e|] eqn:He; [|reflexivity].
    apply in_split in Hin. destruct Hin as (pre & post & Hes).
    destruct (Hff pre ev post e Hes He) as [_ Hthrow].
    rewrite Hok in Hthrow. discriminate Hthrow.
Qed.

Lemma sendInstructions_no_retry_witness :
  fst (sendInstructions sendFailWorld "Payer" [] demoWallet [] false [])
  = Throw (Error "node is behind").
Proof.
  destruct (sendInstructions_no_retry sendFailWorld "Payer" [] demoWallet []
              false []) as [Hff _].
  set (run := sendInstructions sendFailWorld "Payer" [] demoWallet [] false [])
    in *.
  exact (proj2 (Hff (firstn 3 (snd run))
                  (EvSendRawTransaction [] false (Throw (Error "node is behind")))
                  [] (Error "node is behind") eq_refl eq_refl)).
Defined.

(** X14: a [createToken] that returns has made fourteen calls in this
    order: the two uploads, the key generation, the rent query, and for
    the mint transaction and then the metadata transaction a blockhash
    fetch, a simulation without error, the wallet signature, the send
    with [skipPreflight] and the confirmation against the blockhash the
    transaction was compiled with.  The result names the generated mint,
    the payer's associated account and the two signatures the sends
    returned. *)
Theorem createToken_success
  (lib : Lib) (w : World) (payer : PublicKey) (walletSign : WalletSign)
  (metadata : TokenMetadata) (extensions : TokenExtensions)
  (hookConfig : TransferHookConfig) (h : Trace)
  (res : CreateTokenResult) (es : list Event) :
  createToken lib w payer walletSign metadata extensions hookConfig h
  = (Ok res, es) ->
  exists uris uri kp lamports bh1 sim1 signed1 raw1 bh2 sim2 signed2 raw2,
    let file := mkGenericFile (image metadata) (imageFileName metadata)
                  (imageContentType metadata) in
    let json := mkMetadataJson (name metadata) (symbol metadata)
                  (description metadata) (hd_error uris)
                  [(imageContentType metadata, hd_error uris)] in
    let mint := publicKey kp in
    let tx1 := sign (mkVersionedTransaction
                       (mkTransactionMessage payer (blockhash bh1)
                          (mintTransaction lib payer mint metadata extensions
                             hookConfig lamports)) []) [kp] in
    let tx2 := sign (mkVersionedTransaction
                       (mkTransactionMessage payer (blockhash bh2)
                          (map Raw
                             (createV1 w (mkCreateV1Input kp (name metadata)
                                            (symbol metadata) uri)))) [])
                 [kp] in
    es = [ EvUpload [file] (Ok uris);
           EvUploadJson json (Ok uri);
           EvKeypairGenerate kp;
           EvGetMinimumBalanceForRentExemption
             (getMintLen lib (extensionTypes extensions)) (Ok lamports);
           EvGetLatestBlockhash (Ok bh1);
           EvSimulateTransaction tx1 (Ok sim1);
           EvWalletSign tx1 (Ok signed1);
           EvSendRawTransaction raw1 true (Ok (mintTxSignature res));
           EvConfirmTransaction (mintTxSignature res) (blockhash bh1)
             (lastValidBlockHeight bh1) (Ok tt);
           EvGetLatestBlockhash (Ok bh2);
           EvSimulateTransaction tx2 (Ok sim2);
           EvWalletSign tx2 (Ok signed2);
           EvSendRawTransaction raw2 true (Ok (metadataTxSignature res));
           EvConfirmTransaction (metadataTxSignature res) (blockhash bh2)
             (lastValidBlockHeight bh2) (Ok tt) ]
    /\ ctr_mint res = mint
    /\ ctr_ata res = getAssociatedTokenAddressSync lib mint payer false
                       TOKEN_2022_PROGRAM_ID
    /\ err sim1 = None /\ err sim2 = None
    /\ serialize w signed1 = Ok raw1 /\ serialize w signed2 = Ok raw2.
Proof.
  intro H. unfold createToken in H.
  apply RunFacts.bind_run_inv in H.
  destruct H as (uris & es1 & r1 & H1 & H & ->).
  apply RunFacts.call_run_inv in H1. destruct H1 as [_ ->].
  apply RunFacts.bind_run_inv in H.
  destruct H as (uri & es2 & r2 & H2 & H & ->).
  apply RunFacts.call_run_inv in H2. destruct H2 as [_ ->].
  apply RunFacts.bind_run_inv in H.
  destruct H as (kp & es3 & r3 & H3 & H & ->).
  unfold Keypair_generate in H3. inversion H3 as [[Hkp Hes3]].
  rewrite Hkp in *. clear H3 Hes3.
  apply RunFacts.bind_run_inv in H.
  destruct H as (lamports & es4 & r4 & H4 & H & ->).
  apply RunFacts.call_run_inv in H4. destruct H4 as [_ ->].
  apply RunFacts.bind_run_inv in H.
  destruct H as (sig1 & es5 & r5 & H5 & H & ->).
  apply SubmitFacts.simulateSignSend_Ok in H5.
  destruct H5 as (bh1 & sim1 & signed1 & raw1 & -> & Herr1 & Hraw1).
  apply RunFacts.bind_run_inv in H.
  destruct H as (sig2 & es6 & r6 & H6 & H & ->).
  apply SubmitFacts.simulateSignSend_Ok in H6.
  destruct H6 as (bh2 & sim2 & signed2 & raw2 & -> & Herr2 & Hraw2).
  unfold ret in H. inversion H; subst res r6. clear H.
  exists uris, uri, kp, lamports, bh1, sim1, signed1, raw1, bh2, sim2,
    signed2, raw2.
  cbv zeta. cbn [ctr_mint ctr_ata mintTxSignature metadataTxSignature].
  repeat split; try assumption; reflexivity.
Qed.

Lemma createToken_success_witness :
  exists res es,
    createToken demoLib hookWorld "Payer" demoWallet demoMetadata noExtensions
      noHookConfig [] = (Ok res, es)
    /\ List.length es = 14%nat.
Proof.
  assert (exists res es,
             createToken demoLib hookWorld "Payer" demoWallet demoMetadata
               noExtensions noHookConfig [] = (Ok res, es))
    as (res & es & Hrun).
  { eexists. eexists. vm_compute. reflexivity. }
  exists res, es. split; [exact Hrun|].
  destruct (createToken_success demoLib hookWorld "Payer" demoWallet
              demoMetadata noExtensions noHookConfig [] res es Hrun)
    as (uris & uri & kp & lamports & bh1 & sim1 & signed1 & raw1 & bh2 & sim2
        & signed2 & raw2 & Hes & _).
  cbv zeta in Hes. rewrite Hes. reflexivity.
Defined.

Module CountFacts.

(** Sends of [m] followed by [k]. *)
Lemma bind_sends {A B} (m : M A) (k : A -> M B) (h : Trace) (cm ck : nat) :
  (List.length (filter isSend (snd (m h))) <= cm)%nat ->
  (forall a es, (List.length (filter isSend (snd (k a (h ++ es)%list))) <= ck)%nat) ->
  (List.length (filter isSend (snd (bind m k h))) <= cm + ck)%nat.
Proof.
  intros Hm Hk. rewrite MonadFacts.bind_events, filter_app, length_app.
  destruct (fst (m h)) as [a|e].
  - specialize (Hk a (snd (m h))). lia.
  - cbn. lia.
Qed.

Lemma call_sends {A} (ask : Trace -> Outcome A) (ev : Outcome A -> Event)
  (h : Trace) :
  (forall r, isSend (ev r) = false) ->
  (List.length (filter isSend (snd (call ask ev h))) <= 0)%nat.
Proof. intro H. cbn. now rewrite H. Qed.

End CountFacts.

(** X15: [createToken] makes no call after one that throws and throws
    that call's error unchanged; it sends at most two transactions. *)
Theorem createToken_no_retry
  (lib : Lib) (w : World) (payer : PublicKey) (walletSign : WalletSign)
  (metadata : TokenMetadata) (extensions : TokenExtensions)
  (hookConfig : TransferHookConfig) (h : Trace) :
  let run := createToken lib w payer walletSign metadata extensions
               hookConfig h in
  fails_fast run
  /\ (List.length (filter isSend (snd run)) <= 2)%nat
  /\ (forall res, fst run = Ok res ->
        forall ev, In ev (snd run) -> eventError ev = None).
Proof.
  intro run. subst run.
  pose proof (RunFacts.createToken_fails_fast w lib payer walletSign metadata
                extensions hookConfig h) as Hff.
  split; [exact Hff|]. split.
  - unfold createToken.
    apply (CountFacts.bind_sends _ _ _ 0 2);
      [now apply CountFacts.call_sends|]. intros uris es1.
    apply (CountFacts.bind_sends _ _ _ 0 2);
      [now apply CountFacts.call_sends|]. intros uri es2.
    apply (CountFacts.bind_sends _ _ _ 0 2); [cbn; lia|]. intros kp es3.
    apply (CountFacts.bind_sends _ _ _ 0 2);
      [now apply CountFacts.call_sends|]. intros lam es4.
    apply (CountFacts.bind_sends _ _ _ 1 1);
      [apply SubmitFacts.simulateSignSend_sends|]. intros sig1 es5.
    apply (CountFacts.bind_sends _ _ _ 1 0);
      [apply SubmitFacts.simulateSignSend_sends|]. intros sig2 es6.
    cbn. lia.
  - intros res Hok ev Hin.
    destruct (eventError ev) as [e|] eqn:He; [|reflexivity].
    apply in_split in Hin. destruct Hin as (pre & post & Hes).
    destruct (Hff pre ev post e Hes He) as [_ Hthrow].
    rewrite Hok in Hthrow. discriminate Hthrow.
Qed.

Lemma createToken_no_retry_witness :
  fst (createToken demoLib sendFailWorld "Payer" demoWallet demoMetadata
         noExtensions noHookConfig [])
  = Throw (Error "node is behind").
Proof.
  destruct (createToken_no_retry demoLib sendFailWorld "Payer" demoWallet
              demoMetadata noExtensions noHookConfig []) as [Hff _].
  set (run := createToken demoLib sendFailWorld "Payer" demoWallet
                demoMetadata noExtensions noHookConfig []) in *.
  assert (Hes : exists pre raw,
             snd run = (pre ++ [EvSendRawTransaction raw true
                                  (Throw (Error "node is behind"))])%list)
    by (exists (firstn 7 (snd run)), []; vm_compute; reflexivity).
  destruct Hes as (pre & raw & Hes).
  exact (proj2 (Hff pre _ [] (Error "node is behind") Hes eq_refl)).
Defined.

Module BlockFacts.
Section Blocks.

Variables (lib : Lib) (w : World) (payer : PublicKey) (walletSign : WalletSign).
Variables (metadata : TokenMetadata) (extensions : TokenExtensions).
Variable hookConfig : TransferHookConfig.

(** [createToken] as four preparing calls followed by the Mint block
    and, when that returns, the Metadata block. *)
Lemma createToken_blocks (h : Trace) :
  let run := createToken lib w payer walletSign metadata extensions
               hookConfig h in
  (existsb isSimulate (snd run) = false)
  \/ exists p4 kp lamports uri,
       existsb isSimulate p4 = false /\ existsb isSend p4 = false
       /\ existsb isWalletSign p4 = false
       /\ let b1 := simulateSignSend w "Mint" payer walletSign kp
                      (mintTransaction lib payer (publicKey kp) metadata
                         extensions hookConfig lamports) (h ++ p4)%list in
          match fst b1 with
          | Throw e => run = (Throw e, (p4 ++ snd b1)%list)
          | Ok sig1 =>
              let b2 := simulateSignSend w "Metadata" payer walletSign kp
                          (map Raw (createV1 w
                                      (mkCreateV1Input kp (name metadata)
                                         (symbol metadata) uri)))
                          ((h ++ p4) ++ snd b1)%list in
              snd run = (p4 ++ snd b1 ++ snd b2)%list
              /\ (forall e, fst b2 = Throw e -> fst run = Throw e)
          end.
Proof.
  intro run. subst run. unfold createToken, bind, call, Keypair_generate.
  destruct (upload w h _) as [uris|e1]; [|left; reflexivity].
  destruct (uploadJson w _ _) as [uri|e2]; [|left; reflexivity].
  destruct (getMinimumBalanceForRentExemption w _ _) as [lamports|e3];
    [|left; reflexivity].
  right.
  match goal with
  | |- context [simulateSignSend w "Mint" payer walletSign ?kp ?ixs ?h4] =>
      match h4 with
      | ((((h ++ [?a]) ++ [?b]) ++ [?c]) ++ [?d])%list =>
          exists [a; b; c; d], kp, lamports, uri
      end
  end.
  split; [reflexivity|]. split; [reflexivity|]. split; [reflexivity|].
  cbv zeta.
  replace (h ++ [_; _; _; _])%list
    with ((((h ++ [EvUpload
                     [mkGenericFile (image metadata) (imageFileName metadata)
                        (imageContentType metadata)] (Ok uris)])
            ++ [EvUploadJson
                  (mkMetadataJson (name metadata) (symbol metadata)
                     (description metadata) (hd_error uris)
                     [(imageContentType metadata, hd_error uris)]) (Ok uri)])
           ++ [EvKeypairGenerate
                 (generateKeypair w
                    ((h ++ [EvUpload
                              [mkGenericFile (image metadata)
                                 (imageFileName metadata)
                                 (imageContentType metadata)] (Ok uris)])
                     ++ [EvUploadJson
                           (mkMetadataJson (name metadata) (symbol metadata)
                              (description metadata) (hd_error uris)
                              [(imageContentType metadata, hd_error uris)])
                           (Ok uri)]))])
          ++ [EvGetMinimumBalanceForRentExemption
                (getMintLen lib (extensionTypes extensions)) (Ok lamports)])%list
    by (rewrite <- !app_assoc; reflexivity).
  match goal with
  | |- context [simulateSignSend w "Mint" payer walletSign ?kp ?ixs ?h4] =>
      destruct (simulateSignSend w "Mint" payer walletSign kp ixs h4)
        as [[sig1|e] es1]
  end; cbn [fst snd].
  - match goal with
    | |- context [simulateSignSend w "Metadata" payer walletSign ?kp ?ixs ?h5] =>
        destruct (simulateSignSend w "Metadata" payer walletSign kp ixs h5)
          as [[sig2|e] es2]
    end; cbn [fst snd ret].
    + split; [now rewrite app_nil_r|]. discriminate.
    + split; [reflexivity|]. intros e' E. now inversion E.
  - reflexivity.
Qed.

End Blocks.
End BlockFacts.

(** X16: a simulation error ends [createToken].  When it is the first
    simulation, nothing has been signed by the wallet or sent and the
    Mint failure is thrown; when another simulation came before, the
    mint transaction has already been sent and confirmed, and the
    Metadata failure is thrown: the two transactions are not undone
    together. *)
Theorem createToken_simulation_failure
  (lib : Lib) (w : World) (payer : PublicKey) (walletSign : WalletSign)
  (metadata : TokenMetadata) (extensions : TokenExtensions)
  (hookConfig : TransferHookConfig) (h : Trace)
  (pre post : list Event) (tx : VersionedTransaction)
  (sim : SimulationValue) (e : string) :
  let run := createToken lib w payer walletSign metadata extensions
               hookConfig h in
  snd run = (pre ++ EvSimulateTransaction tx (Ok sim) :: post)%list ->
  err sim = Some e ->
  post = []
  /\ (existsb isSimulate pre = false ->
      fst run = Throw (simulationFailure "Mint" e (logs sim))
      /\ existsb isSend pre = false
      /\ existsb isWalletSign pre = false)
  /\ (existsb isSimulate pre = true ->
      fst run = Throw (simulationFailure "Metadata" e (logs sim))
      /\ exists raw sig bh lv,
           In (EvSendRawTransaction raw true (Ok sig)) pre
           /\ In (EvConfirmTransaction sig bh lv (Ok tt)) pre).
Proof.
  intros run H He.
  destruct (BlockFacts.createToken_blocks lib w payer walletSign metadata
              extensions hookConfig h)
    as [Hnone | (p4 & kp & lamports & uri & Hs & Hsd & Hws & Hb)].
  { fold run in Hnone. rewrite H, existsb_app in Hnone. cbn in Hnone.
    rewrite orb_true_r in Hnone. discriminate. }
  cbv zeta in Hb. fold run in Hb.
  match type of Hb with
  | match fst ?b with _ => _ end => set (b1 := b) in *
  end.
  destruct (fst b1) as [sig1|e1] eqn:E1.
  - destruct Hb as [Hev Hthrow].
    match type of Hev with
    | _ = (_ ++ _ ++ snd ?b)%list => set (b2 := b) in *
    end.
    rewrite Hev in H. apply TraceFacts.split_app_mid in H.
    destruct H as [[l [Q1 Q2]]|[l [Q1 Q2]]].
    { rewrite Q1, existsb_app in Hs. cbn in Hs.
      rewrite orb_true_r in Hs. discriminate. }
    apply TraceFacts.split_app_mid in Q2.
    destruct Q2 as [[l2 [R1 R2]]|[l2 [R1 R2]]].
    { destruct (SubmitFacts.simulateSignSend_failed w _ _ _ _ _ _ _ _ _ _ _
                  R1 He) as (_ & Hthrow1 & _).
      fold b1 in Hthrow1. rewrite E1 in Hthrow1. discriminate. }
    destruct (SubmitFacts.simulateSignSend_failed w _ _ _ _ _ _ _ _ _ _ _
                R2 He) as (Hpost & Hthrow2 & _).
    fold b2 in Hthrow2.
    assert (Hshape : exists bh sim1 signed raw,
               snd b1 = [ EvGetLatestBlockhash (Ok bh);
                          EvSimulateTransaction
                            (sign (mkVersionedTransaction
                                     (mkTransactionMessage payer (blockhash bh)
                                        (mintTransaction lib payer
                                           (publicKey kp) metadata extensions
                                           hookConfig lamports)) []) [kp])
                            (Ok sim1);
                          EvWalletSign
                            (sign (mkVersionedTransaction
                                     (mkTransactionMessage payer (blockhash bh)
                                        (mintTransaction lib payer
                                           (publicKey kp) metadata extensions
                                           hookConfig lamports)) []) [kp])
                            (Ok signed);
                          EvSendRawTransaction raw true (Ok sig1);
                          EvConfirmTransaction sig1 (blockhash bh)
                            (lastValidBlockHeight bh) (Ok tt) ]).
    { destruct b1 as [r1 es1] eqn:Eb1. cbn [fst snd] in *. subst r1.
      destruct (SubmitFacts.simulateSignSend_Ok w _ _ _ _ _ _ _ _ Eb1)
        as (bh & sim1 & signed & raw & Hes & _).
      exists bh, sim1, signed, raw. exact Hes. }
    destruct Hshape as (bh & sim1 & signed & raw & Hshape).
    split; [exact Hpost|]. split.
    + intro Hno. rewrite Q1, R1, Hshape, !existsb_app in Hno. cbn in Hno.
      rewrite orb_true_r in Hno. discriminate.
    + intros _. split; [now apply Hthrow|].
      exists raw, sig1, (blockhash bh), (lastValidBlockHeight bh).
      rewrite Q1, R1, Hshape.
      split; apply in_or_app; right; apply in_or_app; left; cbn; auto 6.
  - assert (Hrun : run = (Throw e1, (p4 ++ snd b1)%list)) by exact Hb.
    rewrite Hrun in H. cbn [snd] in H.
    apply TraceFacts.split_app_mid in H.
    destruct H as [[l [Q1 Q2]]|[l [Q1 Q2]]].
    { rewrite Q1, existsb_app in Hs. cbn in Hs.
      rewrite orb_true_r in Hs. discriminate. }
    destruct (SubmitFacts.simulateSignSend_failed w _ _ _ _ _ _ _ _ _ _ _
                Q2 He) as (Hpost & Hthrow1 & Hnosend & Hnosign).
    fold b1 in Hthrow1.
    destruct (simulateSignSend_simulation w "Mint" payer walletSign kp
                (mintTransaction lib payer (publicKey kp) metadata extensions
                   hookConfig lamports) (h ++ p4)%list) as [Hfirst _].
    cbv zeta in Hfirst. fold b1 in Hfirst.
    destruct (Hfirst l tx (Ok sim) post Q2) as [bh [Hl _]].
    split; [exact Hpost|]. split.
    + intros _. rewrite Hrun. cbn [fst].
      split; [rewrite E1 in Hthrow1; inversion Hthrow1; reflexivity|].
      rewrite Q1, !existsb_app, Hsd, Hws, Hnosend, Hnosign. auto.
    + intro Hyes. rewrite Q1, Hl, existsb_app, Hs in Hyes. discriminate.
Qed.

Lemma createToken_simulation_failure_witness :
  fst (createToken demoLib metadataFailWorld "Payer" demoWallet demoMetadata
         noExtensions noHookConfig [])
  = Throw (simulationFailure "Metadata" "InvalidAccountData"
             (Some ["log line"])).
Proof.
  set (run := createToken demoLib metadataFailWorld "Payer" demoWallet
                demoMetadata noExtensions noHookConfig []).
  set (sim := mkSimulationValue (Some "InvalidAccountData") (Some ["log line"])).
  assert (Hes : exists tx,
             snd run = (firstn 10 (snd run)
                        ++ EvSimulateTransaction tx (Ok sim) :: [])%list).
  { eexists. vm_compute. reflexivity. }
  destruct Hes as (tx & Hes).
  assert (Hpre : existsb isSimulate (firstn 10 (snd run)) = true)
    by (vm_compute; reflexivity).
  destruct (createToken_simulation_failure demoLib metadataFailWorld "Payer"
              demoWallet demoMetadata noExtensions noHookConfig []
              (firstn 10 (snd run)) [] tx sim "InvalidAccountData" Hes eq_refl)
    as (_ & _ & Hmeta).
  exact (proj1 (Hmeta Hpre)).
Defined.

(* ================================================================== *)
(** * Further properties of the resolver and of the sale calls          *)
(* ================================================================== *)

(** X17: for a transfer whose amount is a u64 and whose decimals are a
    u8, the resolver asks for the mint first and makes at most one more
    call, the probe; it probes exactly when the mint was fetched and
    has a TransferHook entry, always with the canonical four-key
    transfer of the context and the program of that entry; without a
    probe the result is empty. *)
Theorem resolveTransferHookAccounts_calls
  (w : World) (mint source destination authority : PublicKey)
  (amount decimals : Z) (h : Trace) :
  0 <= amount < 2 ^ 64 ->
  0 <= decimals < 2 ^ 8 ->
  let run := resolveTransferHookAccounts w mint source destination authority
               amount decimals h in
  let mockIx := createTransferCheckedInstruction source mint destination
                  authority amount decimals TOKEN_2022_PROGRAM_ID in
  (exists rest, snd run = EvGetMint mint (getMint w h mint) :: rest
                /\ (List.length rest <= 1)%nat)
  /\ (existsb isProbe (snd run) = true
      <-> exists m hook,
            getMint w h mint = Ok m /\ getTransferHook m = Some hook)
  /\ (forall ix prog r,
        In (EvAddExtraAccountMetasForExecute ix prog r) (snd run) ->
        ix = mockIx
        /\ exists m hook,
             getMint w h mint = Ok m /\ getTransferHook m = Some hook
             /\ prog = th_programId hook)
  /\ (existsb isProbe (snd run) = false -> fst run = Ok []).
Proof.
  intros Ha Hd run mockIx. subst run.
  pose proof (ResolverFacts.encodable_range amount decimals Ha Hd) as U.
  unfold resolveTransferHookAccounts, try_catch.
  destruct (getMint w h mint) as [m|e] eqn:E.
  - destruct (getTransferHook m) as [hook|] eqn:N.
    + rewrite (ResolverFacts.try_hook w _ _ _ _ _ _ h m hook E N U).
      cbv zeta. fold mockIx.
      set (r := addExtraAccountMetasForExecute w _ _ _ _ _ _ _ _).
      assert (Hev : snd (match
                           (match snd r with
                            | Ok _ => Ok (skipn 4 (keys (fst r)))
                            | Throw e => Throw e
                            end,
                            [EvGetMint mint (Ok m);
                             EvAddExtraAccountMetasForExecute mockIx
                               (th_programId hook) r])
                         with
                         | (Ok a, es) => (Ok a, es)
                         | (Throw e, es) =>
                             let (r0, es') := ret [] (h ++ es)%list in
                             (r0, (es ++ es')%list)
                         end)
                    = [EvGetMint mint (Ok m);
                       EvAddExtraAccountMetasForExecute mockIx
                         (th_programId hook) r]).
      { destruct (snd r); reflexivity. }
      rewrite Hev. split; [eexists; split; [reflexivity | cbn; lia]|].
      split; [split; [intros _; eauto | reflexivity]|].
      split; [|discriminate].
      intros ix prog r0 [H|[H|[]]]; [discriminate H|].
      inversion H; subst. split; [reflexivity|]. eauto.
    + rewrite (ResolverFacts.try_no_hook w _ _ _ _ _ _ h m E N). cbn.
      split; [exists []; split; [reflexivity | cbn; lia]|].
      split; [split; [discriminate | intros (m' & hook & Hm & Hh); congruence]|].
      split; [|reflexivity].
      intros ix prog r0 [H|[]]. discriminate H.
  - rewrite (ResolverFacts.try_getMint_throws w _ _ _ _ _ _ h e E). cbn.
    split; [exists []; split; [reflexivity | cbn; lia]|].
    split; [split; [discriminate | intros (m' & hook & Hm & Hh); congruence]|].
    split; [|reflexivity].
    intros ix prog r0 [H|[]]. discriminate H.
Qed.

Lemma resolveTransferHookAccounts_calls_witness :
  existsb isProbe
    (snd (resolveTransferHookAccounts notFoundWorld "Mint" "Source"
            "Destination" "Authority" 5 9 [])) = false
  /\ fst (resolveTransferHookAccounts notFoundWorld "Mint" "Source"
            "Destination" "Authority" 5 9 []) = Ok [].
Proof.
  split; [reflexivity|].
  apply (resolveTransferHookAccounts_calls notFoundWorld "Mint" "Source"
           "Destination" "Authority" 5 9 []); [lia | lia |].
  reflexivity.
Defined.

(** X18: [getTokenProgram] makes one account query; it answers the
    Token-2022 program exactly when the account exists and is owned by
    it, the legacy token program otherwise (also for a missing account),
    and a failing query is thrown on. *)
Theorem getTokenProgram_cases (w : World) (mint : PublicKey) (h : Trace) :
  let run := getTokenProgram w mint h in
  snd run = [EvGetAccountInfo mint (getAccountInfo w h mint)]
  /\ (forall p, fst run = Ok p ->
        (p = TOKEN_2022_PROGRAM_ID \/ p = TOKEN_PROGRAM_ID)
        /\ (p = TOKEN_2022_PROGRAM_ID
            <-> exists info,
                  getAccountInfo w h mint = Ok (Some info)
                  /\ ai_owner info = TOKEN_2022_PROGRAM_ID))
  /\ (getAccountInfo w h mint = Ok None -> fst run = Ok TOKEN_PROGRAM_ID)
  /\ (forall e, getAccountInfo w h mint = Throw e -> fst run = Throw e).
Proof.
  intro run. subst run. unfold getTokenProgram, bind, call, ret.
  destruct (getAccountInfo w h mint) as [[info|]|e]; cbn.
  - split; [reflexivity|]. split; [|split; [discriminate|discriminate]].
    intros p Hp. inversion Hp as [Hp']. clear Hp.
    destruct (String.eqb_spec (ai_owner info) TOKEN_2022_PROGRAM_ID) as [Ho|Ho].
    + split; [now left|]. split; [intros _; eauto | reflexivity].
    + split; [now right|]. split; [discriminate|].
      intros (info' & Hi & Hown). inversion Hi; subst. contradiction.
  - split; [reflexivity|]. split; [|split; [reflexivity|discriminate]].
    intros p Hp. inversion Hp. split; [now right|].
    split; [discriminate | intros (info' & Hi & _); discriminate Hi].
  - split; [reflexivity|]. split; [discriminate|].
    split; [discriminate|]. intros e' He. now inversion He.
Qed.

Lemma getTokenProgram_cases_witness :
  getAccountInfo sendFailWorld [] "Mint" = Ok None
  /\ fst (getTokenProgram sendFailWorld "Mint" []) = Ok TOKEN_PROGRAM_ID.
Proof.
  split; [reflexivity|].
  apply (getTokenProgram_cases sendFailWorld "Mint" []). reflexivity.
Defined.

Module QuietFacts.

(** No event of kind [p] in [m] followed by [k]. *)
Lemma bind_quiet {A B} (p : Event -> bool) (m : M A) (k : A -> M B)
  (h : Trace) :
  existsb p (snd (m h)) = false ->
  (forall a es, existsb p (snd (k a (h ++ es)%list)) = false) ->
  existsb p (snd (bind m k h)) = false.
Proof.
  intros Hm Hk. rewrite MonadFacts.bind_events, existsb_app, Hm.
  destruct (fst (m h)); [apply Hk | reflexivity].
Qed.

Lemma bind_quiet_run {A B} (p : Event -> bool) (m : M A) (k : A -> M B)
  (h : Trace) :
  existsb p (snd (m h)) = false ->
  (forall a es, m h = (Ok a, es) ->
                existsb p (snd (k a (h ++ es)%list)) = false) ->
  existsb p (snd (bind m k h)) = false.
Proof.
  intros Hm Hk. rewrite MonadFacts.bind_events, existsb_app, Hm.
  destruct (m h) as [[a|e] es] eqn:E; cbn [fst snd]; [|reflexivity].
  now apply Hk.
Qed.

Lemma try_catch_quiet {A} (p : Event -> bool) (body : M A)
  (handler : Exn -> M A) (h : Trace) :
  existsb p (snd (body h)) = false ->
  (forall e es, existsb p (snd (handler e (h ++ es)%list)) = false) ->
  existsb p (snd (try_catch body handler h)) = false.
Proof.
  intros Hb Hh. unfold try_catch.
  destruct (body h) as [[a|e] es] eqn:E; cbn [snd] in *; [exact Hb|].
  specialize (Hh e es). destruct (handler e (h ++ es)%list) as [r es'].
  cbn [snd] in *. now rewrite existsb_app, Hb, Hh.
Qed.

Lemma call_quiet {A} (p : Event -> bool) (ask : Trace -> Outcome A)
  (ev : Outcome A -> Event) (h : Trace) :
  (forall r, p (ev r) = false) -> existsb p (snd (call ask ev h)) = false.
Proof. intro H. cbn. now rewrite H. Qed.

Lemma resolver_quiet (p : Event -> bool) (w : World)
  (mint source destination authority : PublicKey) (amount decimals : Z)
  (h : Trace) :
  (forall a r, p (EvGetMint a r) = false) ->
  (forall ix prog r, p (EvAddExtraAccountMetasForExecute ix prog r) = false) ->
  existsb p (snd (resolveTransferHookAccounts w mint source destination
                    authority amount decimals h)) = false.
Proof.
  intros Hg Ha. unfold resolveTransferHookAccounts.
  apply try_catch_quiet; [|reflexivity].
  unfold resolveTransferHookAccounts_try.
  apply bind_quiet; [now apply call_quiet|]. intros m es.
  destruct (getTransferHook m); [|reflexivity].
  apply bind_quiet; [reflexivity|]. intros mockIx es0.
  apply bind_quiet; [|reflexivity].
  unfold addExtraAccountMetas. cbn. now rewrite Ha.
Qed.

(** The value and the single call of the "ensure the account exists"
    block of [buyToken] and [launchICO]. *)
Lemma ensure_account_inv (w : World) (address prog : PublicKey)
  (create : list Instruction) (h : Trace) :
  try_catch
    (bind (call (fun h0 => getAccount w h0 address prog)
                (EvGetAccount address prog))
          (fun _ => ret []))
    (fun _ => ret create) h
  = (Ok match getAccount w h address prog with
        | Ok _ => []
        | Throw _ => create
        end,
     [EvGetAccount address prog (getAccount w h address prog)]).
Proof.
  unfold try_catch, bind, call, ret.
  destruct (getAccount w h address prog); reflexivity.
Qed.

End QuietFacts.

(** X19: the buyer's token account: [buyToken] asks for it as its last
    preparing call; the pre-instructions are empty when that call
    returns and create exactly that account, for the buyer and the
    mint's token program, when it throws. *)
Theorem buyToken_preInstructions
  (lib : Lib) (w : World) (payer : PublicKey) (params : BuyTokenParams)
  (h : Trace) (preIxs : list Instruction) (c : AnchorCall)
  (es : list Event) :
  buyToken_prepare lib w payer params h = (Ok (preIxs, c), es) ->
  exists tokenProgram es0 r,
    let buyerAta := getAssociatedTokenAddressSync lib (bt_mint params) payer
                      false tokenProgram in
    es = (es0 ++ [EvGetAccount buyerAta tokenProgram r])%list
    /\ preIxs = match r with
                | Ok _ => []
                | Throw _ =>
                    [CreateAssociatedTokenAccount payer buyerAta payer
                       (bt_mint params) tokenProgram]
                end
    /\ lookupAccount "buyerAta" (ac_accounts c) = Some buyerAta
    /\ lookupAccount "tokenProgram" (ac_accounts c) = Some tokenProgram.
Proof.
  intro H. unfold buyToken_prepare in H. cbv zeta in H.
  apply RunFacts.bind_run_inv in H.
  destruct H as (tokenProgram & es1 & r1 & _ & H & ->).
  apply RunFacts.bind_run_inv in H.
  destruct H as (icoData & es2 & r2 & _ & H & ->).
  apply RunFacts.bind_run_inv in H.
  destruct H as (extra & es3 & r3 & _ & H & ->).
  apply RunFacts.bind_run_inv in H.
  destruct H as (pre & es4 & r4 & Hpre & H & ->).
  rewrite QuietFacts.ensure_account_inv in Hpre.
  inversion Hpre as [[Hp He4]]. clear Hpre.
  apply RunFacts.bind_run_inv in H.
  destruct H as (amount & es5 & r5 & Hamount & H & ->).
  apply MonadFacts.lift_Ok_inv in Hamount. destruct Hamount as [_ ->].
  unfold ret in H. inversion H; subst preIxs c r5. clear H.
  exists tokenProgram, (es1 ++ es2 ++ es3)%list.
  eexists. cbv zeta. subst pre es4.
  split; [rewrite !app_nil_r, !app_assoc; reflexivity|].
  split; [reflexivity|]. split; reflexivity.
Qed.

Lemma buyToken_preInstructions_witness :
  exists preIxs c es,
    buyToken_prepare demoLib hookWorld "Buyer" demoPurchase []
    = (Ok (preIxs, c), es)
    /\ exists tokenProgram,
         lookupAccount "tokenProgram" (ac_accounts c) = Some tokenProgram.
Proof.
  assert (exists preIxs c es,
             buyToken_prepare demoLib hookWorld "Buyer" demoPurchase []
             = (Ok (preIxs, c), es)) as (preIxs & c & es & Hrun).
  { do 3 eexists. vm_compute. reflexivity. }
  exists preIxs, c, es. split; [exact Hrun|].
  destruct (buyToken_preInstructions demoLib hookWorld "Buyer" demoPurchase []
              preIxs c es Hrun) as (tp & es0 & r & _ & _ & _ & Htp).
  exists tp. exact Htp.
Defined.

(** X20: on a mint that is not owned by the Token-2022 program (or does
    not exist) [buyToken] never fetches the mint nor probes for extra
    accounts: the purchase goes to the legacy token program with no
    remaining account. *)
Theorem buyToken_legacy_mint
  (lib : Lib) (w : World) (payer : PublicKey) (params : BuyTokenParams)
  (h : Trace) (info : option AccountInfo) :
  getAccountInfo w h (bt_mint params) = Ok info ->
  (forall i, info = Some i -> ai_owner i <> TOKEN_2022_PROGRAM_ID) ->
  let run := buyToken_prepare lib w payer params h in
  existsb isGetMint (snd run) = false
  /\ existsb isProbe (snd run) = false
  /\ forall preIxs c,
       fst run = Ok (preIxs, c) ->
       ac_remaining c = []
       /\ lookupAccount "tokenProgram" (ac_accounts c) = Some TOKEN_PROGRAM_ID.
Proof.
  intros Hinfo Hown run. subst run.
  assert (Htp : getTokenProgram w (bt_mint params) h
                = (Ok TOKEN_PROGRAM_ID,
                   [EvGetAccountInfo (bt_mint params) (Ok info)])).
  { unfold getTokenProgram, bind, call, ret. rewrite Hinfo. cbn.
    destruct info as [i|]; [|reflexivity].
    destruct (String.eqb_spec (ai_owner i) TOKEN_2022_PROGRAM_ID) as [Ho|Ho];
      [|reflexivity].
    exfalso. exact (Hown i eq_refl Ho). }
  assert (Hquiet : forall p : Event -> bool,
             (forall a r, p (EvGetAccountInfo a r) = false) ->
             (forall a r, p (EvAccountFetch a r) = false) ->
             (forall a b r, p (EvGetAccount a b r) = false) ->
             existsb p (snd (buyToken_prepare lib w payer params h)) = false).
  { intros p H1 H2 H3. unfold buyToken_prepare. cbv zeta.
    apply QuietFacts.bind_quiet_run; [rewrite Htp; cbn; now rewrite H1|].
    intros tp es1 Hrun. rewrite Htp in Hrun. inversion Hrun; subst tp es1.
    apply QuietFacts.bind_quiet; [now apply QuietFacts.call_quiet|].
    intros icoData es2.
    apply QuietFacts.bind_quiet; [reflexivity|]. intros extra es3.
    apply QuietFacts.bind_quiet;
      [|intros pre es4; apply QuietFacts.bind_quiet; reflexivity].
    rewrite QuietFacts.ensure_account_inv. cbn. now rewrite H3. }
  split; [now apply Hquiet|]. split; [now apply Hquiet|].
  intros preIxs c H. unfold buyToken_prepare in H. cbv zeta in H.
  apply MonadFacts.bind_Ok_inv in H.
  destruct H as (tp & es1 & Hrun & H).
  rewrite Htp in Hrun. inversion Hrun; subst tp es1. clear Hrun.
  apply MonadFacts.bind_Ok_inv in H. destruct H as (icoData & es2 & _ & H).
  apply MonadFacts.bind_Ok_inv in H. destruct H as (extra & es3 & Hextra & H).
  change (String.eqb TOKEN_PROGRAM_ID TOKEN_2022_PROGRAM_ID) with false
    in Hextra.
  unfold ret in Hextra. inversion Hextra; subst extra es3. clear Hextra.
  apply MonadFacts.bind_Ok_inv in H. destruct H as (pre & es4 & _ & H).
  apply MonadFacts.bind_Ok_inv in H. destruct H as (amount & es5 & _ & H).
  cbn in H. inversion H; subst. split; reflexivity.
Qed.

Lemma buyToken_legacy_mint_witness :
  getAccountInfo sendFailWorld [] (bt_mint demoPurchase) = Ok None
  /\ existsb isGetMint
       (snd (buyToken_prepare demoLib sendFailWorld "Buyer" demoPurchase []))
     = false.
Proof.
  split; [reflexivity|].
  apply (buyToken_legacy_mint demoLib sendFailWorld "Buyer" demoPurchase []
           None eq_refl).
  intros i Hi. discriminate Hi.
Defined.

(** X21: [buyToken] submits at most one call, as its last step, and none
    when the preparation throws: the error of the preparation (a failed
    query of the mint account or of the sale record) is thrown on and
    nothing is submitted. *)
Theorem buyToken_single_rpc
  (lib : Lib) (w : World) (payer : PublicKey) (params : BuyTokenParams)
  (h : Trace) :
  let prep := buyToken_prepare lib w payer params h in
  let run := buyToken lib w payer params h in
  existsb isRpc (snd prep) = false
  /\ (forall e, fst prep = Throw e -> run = (Throw e, snd prep))
  /\ (forall p, fst prep = Ok p ->
        run = (anchorRpc w (h ++ snd prep)%list (fst p) (snd p),
               (snd prep
                ++ [EvAnchorRpc (fst p) (snd p)
                      (anchorRpc w (h ++ snd prep)%list (fst p) (snd p))])%list))
  /\ (List.length (filter isRpc (snd run)) <= 1)%nat.
Proof.
  intros prep run.
  assert (Hq : existsb isRpc (snd prep) = false).
  { subst prep. unfold buyToken_prepare, getTokenProgram. cbv zeta.
    apply QuietFacts.bind_quiet.
    { apply QuietFacts.bind_quiet; [now apply QuietFacts.call_quiet|].
      reflexivity. }
    intros tp es1.
    apply QuietFacts.bind_quiet; [now apply QuietFacts.call_quiet|].
    intros icoData es2.
    apply QuietFacts.bind_quiet.
    { destruct (String.eqb tp TOKEN_2022_PROGRAM_ID); [|reflexivity].
      apply QuietFacts.bind_quiet; [reflexivity|]. intros amount es0.
      now apply QuietFacts.resolver_quiet. }
    intros extra es3.
    apply QuietFacts.bind_quiet;
      [|intros pre es4; apply QuietFacts.bind_quiet; reflexivity].
    now rewrite QuietFacts.ensure_account_inv. }
  assert (Hrun : run = match fst prep with
                       | Ok p =>
                           (anchorRpc w (h ++ snd prep)%list (fst p) (snd p),
                            (snd prep
                             ++ [EvAnchorRpc (fst p) (snd p)
                                   (anchorRpc w (h ++ snd prep)%list (fst p)
                                      (snd p))])%list)
                       | Throw e => (Throw e, snd prep)
                       end).
  { subst run. unfold buyToken, bind, call. fold prep.
    destruct prep as [[p|e] es]; reflexivity. }
  split; [exact Hq|]. split; [|split].
  - intros e He. now rewrite Hrun, He.
  - intros p Hp. now rewrite Hrun, Hp.
  - rewrite Hrun. destruct (fst prep) as [p|e]; cbn [snd].
    + rewrite filter_app, length_app. cbn.
      assert (List.length (filter isRpc (snd prep)) = 0%nat) as ->; [|lia].
      destruct (filter isRpc (snd prep)) as [|x l] eqn:F; [reflexivity|].
      assert (In x (filter isRpc (snd prep))) as Hin by (rewrite F; now left).
      apply filter_In in Hin. destruct Hin as [Hin Hx].
      assert (existsb isRpc (snd prep) = true) as Hc
        by (apply existsb_exists; eauto).
      rewrite Hq in Hc. discriminate.
    + destruct (filter isRpc (snd prep)) as [|x l] eqn:F; [cbn; lia|].
      assert (In x (filter isRpc (snd prep))) as Hin by (rewrite F; now left).
      apply filter_In in Hin. destruct Hin as [Hin Hx].
      assert (existsb isRpc (snd prep) = true) as Hc
        by (apply existsb_exists; eauto).
      rewrite Hq in Hc. discriminate.
Qed.

Lemma buyToken_single_rpc_witness :
  fst (buyToken demoLib sendFailWorld "Buyer" demoPurchase [])
  = Throw (Error "no sale").
Proof.
  destruct (buyToken_single_rpc demoLib sendFailWorld "Buyer" demoPurchase [])
    as (_ & Hthrow & _).
  rewrite (Hthrow (Error "no sale") eq_refl). reflexivity.
Defined.

Module LaunchFacts.

(** What a [launchICO] preparation that returns has done, step by
    step. *)
Lemma launchICO_prepare_inv
  (lib : Lib) (w : World) (payer : PublicKey) (params : LaunchICOParams)
  (now : Z) (h : Trace) (preIxs : list Instruction) (c : AnchorCall)
  (es : list Event) :
  launchICO_prepare lib w payer params now h = (Ok (preIxs, c), es) ->
  let mint := li_mint params in
  let vault := fst (deriveICOVaultAccountPDA lib mint) in
  exists mintInfo esr r,
    let tokenProgram :=
      match mintInfo with
      | Some info =>
          if String.eqb (ai_owner info) TOKEN_2022_PROGRAM_ID
          then TOKEN_2022_PROGRAM_ID else TOKEN_PROGRAM_ID
      | None => TOKEN_PROGRAM_ID
      end in
    let vaultAta := getAssociatedTokenAddressSync lib mint vault true
                      tokenProgram in
    let creatorAta := getAssociatedTokenAddressSync lib mint payer false
                        tokenProgram in
    let h1 := (h ++ [EvGetAccountInfo mint (Ok mintInfo)])%list in
    let start := match startTime params with
                 | Some t => t
                 | None => JS.floor_div now 1000
                 end in
    let finish := match endTime params with
                  | Some t => t
                  | None => start + 30 * 24 * 60 * 60
                  end in
    let args := [ softCapSol params * 10 ^ 9; hardCapSol params * 10 ^ 9;
                  start; finish; li_amount params * 10 ^ 9;
                  pricePerTokenSol params * 10 ^ 9 ] in
    getAccountInfo w h mint = Ok mintInfo
    /\ (if String.eqb tokenProgram TOKEN_2022_PROGRAM_ID
        then resolveTransferHookAccounts w mint creatorAta vaultAta payer
               (li_amount params * 10 ^ 9) 9 h1
             = (Ok (ac_remaining c), esr)
        else ac_remaining c = [] /\ esr = [])
    /\ r = getAccount w (h1 ++ esr)%list creatorAta tokenProgram
    /\ es = (EvGetAccountInfo mint (Ok mintInfo)
             :: esr ++ [EvGetAccount creatorAta tokenProgram r])%list
    /\ preIxs = match r with
                | Ok _ => []
                | Throw _ =>
                    [CreateAssociatedTokenAccount payer creatorAta payer mint
                       tokenProgram]
                end
    /\ ac_args c = map Some args
    /\ ac_accounts c
       = [ ("creator", payer); ("mint", mint);
           ("config", fst (deriveICOConfigPDA lib));
           ("icoConfigAccount", fst (deriveICOConfigAccountPDA lib mint));
           ("icoVaultAccount", vault);
           ("vaultAta", vaultAta); ("creatorAta", creatorAta);
           ("tokenProgram", tokenProgram);
           ("associatedTokenProgram", ASSOCIATED_TOKEN_PROGRAM_ID);
           ("systemProgram", SystemProgram_programId) ]
    /\ Forall (fun n => Z.abs n < 2 ^ 53) args.
Proof.
  intros H mint vault. unfold launchICO_prepare in H. cbv zeta in H.
  apply RunFacts.bind_run_inv in H.
  destruct H as (tp & es1 & r1 & Htp & H & ->).
  apply MonadFacts.getTokenProgram_Ok_inv in Htp.
  destruct Htp as (mintInfo & Einfo & Etp & ->).
  apply RunFacts.bind_run_inv in H.
  destruct H as (extra & esr & r2 & Hextra & H & ->).
  apply RunFacts.bind_run_inv in H.
  destruct H as (pre & es3 & r3 & Hpre & H & ->).
  rewrite QuietFacts.ensure_account_inv in Hpre.
  inversion Hpre as [[Hp He3]]. clear Hpre.
  repeat match type of H with
         | bind (lift (newBN ?n)) _ _ = _ =>
             let a := fresh "a" in
             let B := fresh "B" in
             let L := fresh "L" in
             apply RunFacts.bind_run_inv in H;
             destruct H as (a & ? & ? & B & H & ->);
             apply MonadFacts.lift_Ok_inv in B; destruct B as [B ->];
             apply MonadFacts.newBN_Ok_inv in B; destruct B as [-> L]
         end.
  unfold ret in H. inversion H; subst preIxs c. clear H.
  exists mintInfo, esr, (getAccount w ((h ++ [EvGetAccountInfo mint (Ok mintInfo)]) ++ esr)%list
                           (getAssociatedTokenAddressSync lib mint payer false tp) tp).
  cbv zeta. rewrite <- Etp. cbn [ac_remaining].
  split; [exact Einfo|]. split.
  { destruct (String.eqb tp TOKEN_2022_PROGRAM_ID).
    - apply RunFacts.bind_run_inv in Hextra.
      destruct Hextra as (amount & e0 & e1 & B & Hres & ->).
      apply MonadFacts.lift_Ok_inv in B. destruct B as [B ->].
      apply MonadFacts.newBN_Ok_inv in B. destruct B as [-> _].
      rewrite app_nil_r in Hres. exact Hres.
    - unfold ret in Hextra. inversion Hextra. auto. }
  split; [reflexivity|]. split.
  { cbn [List.app]. reflexivity. }
  split; [symmetry; exact Hp|]. split; [reflexivity|].
  split; [reflexivity|].
  repeat (apply Forall_cons; [assumption|]). apply Forall_nil.
Qed.

End LaunchFacts.

(** X22: for whole-number parameters and a clock below 2^53, a launch
    whose preparation returns passes the caps, the amount and the price
    multiplied by 10^9, and every argument is below 2^53 in absolute
    value (a larger one makes [new BN] throw); a missing start time is
    the clock in whole seconds; a missing end time is thirty days after
    the start; given times are passed on as they are, in whatever
    order. *)
Theorem launchICO_arguments
  (lib : Lib) (w : World) (payer : PublicKey) (params : LaunchICOParams)
  (now : Z) (h : Trace) (preIxs : list Instruction) (c : AnchorCall) :
  0 <= now < 2 ^ 53 ->
  fst (launchICO_prepare lib w payer params now h) = Ok (preIxs, c) ->
  exists start finish,
    ac_args c = [ Some (softCapSol params * 1000000000);
                  Some (hardCapSol params * 1000000000);
                  Some start; Some finish;
                  Some (li_amount params * 1000000000);
                  Some (pricePerTokenSol params * 1000000000) ]
    /\ Forall (fun a => exists n, a = Some n /\ Z.abs n < 2 ^ 53) (ac_args c)
    /\ (forall t, startTime params = Some t -> start = t)
    /\ (startTime params = None -> 1000 * start <= now < 1000 * start + 1000)
    /\ (forall t, endTime params = Some t -> finish = t)
    /\ (endTime params = None -> finish = start + 2592000)
    /\ map fst (ac_accounts c)
       = [ "creator"; "mint"; "config"; "icoConfigAccount"; "icoVaultAccount";
           "vaultAta"; "creatorAta"; "tokenProgram"; "associatedTokenProgram";
           "systemProgram" ]
    /\ lookupAccount "creator" (ac_accounts c) = Some payer
    /\ lookupAccount "mint" (ac_accounts c) = Some (li_mint params).
Proof.
  intros Hnow H.
  destruct (launchICO_prepare lib w payer params now h) as [r es] eqn:Hrun.
  cbn [fst] in H. subst r.
  destruct (LaunchFacts.launchICO_prepare_inv lib w payer params now h preIxs c
              es Hrun)
    as (mintInfo & esr & r & _ & _ & _ & _ & _ & Hargs & Hacc & Hsafe).
  cbv zeta in Hargs, Hacc, Hsafe. rewrite Hargs, Hacc.
  eexists. eexists.
  split; [reflexivity|]. split.
  { apply Forall_map. revert Hsafe. apply Forall_impl. intros n Hn.
    exists n. split; [reflexivity | exact Hn]. }
  split; [intros t ->; reflexivity|].
  split.
  { intros ->. unfold JS.floor_div.
    pose proof (Z.div_mod now 1000 ltac:(lia)).
    pose proof (Z.mod_pos_bound now 1000 ltac:(lia)). lia. }
  split; [intros t ->; reflexivity|].
  split; [intros ->; reflexivity|].
  repeat split.
Qed.

Lemma launchICO_arguments_witness :
  exists preIxs c,
    fst (launchICO_prepare demoLib hookWorld "Creator"
           (mkLaunchICOParams "Mint" 10 100 None None 5000 1) 1700000000999 [])
    = Ok (preIxs, c)
    /\ nth_error (ac_args c) 3 = Some (Some (1700000000 + 2592000)).
Proof.
  assert (exists preIxs c,
             fst (launchICO_prepare demoLib hookWorld "Creator"
                    (mkLaunchICOParams "Mint" 10 100 None None 5000 1)
                    1700000000999 []) = Ok (preIxs, c))
    as (preIxs & c & Hrun).
  { do 2 eexists. vm_compute. reflexivity. }
  exists preIxs, c. split; [exact Hrun|].
  destruct (launchICO_arguments demoLib hookWorld "Creator"
              (mkLaunchICOParams "Mint" 10 100 None None 5000 1)
              1700000000999 [] preIxs c ltac:(lia) Hrun)
    as (start & finish & Hargs & _ & _ & Hstart & _ & Hend & _).
  rewrite Hargs. cbn [nth_error]. specialize (Hstart eq_refl).
  rewrite (Hend eq_refl). do 2 f_equal. lia.
Defined.

(** X23: a launch whose preparation returns has asked for the mint
    account, then, for a mint account owned by the Token-2022 program,
    run [resolveTransferHookAccounts] for the deposit of the amount from
    the creator's token account to the vault's, authorised by the
    creator, with nine decimals, and last asked for the creator's token
    account.  The token program of the call is the owner so found (the
    legacy program for a missing account or another owner); the
    remaining accounts are what the resolver returned, and none for a
    mint outside Token-2022, where the resolver is not run.  The
    creator's token account is created first exactly when the query for
    it throws. *)
Theorem launchICO_transfer_context
  (lib : Lib) (w : World) (payer : PublicKey) (params : LaunchICOParams)
  (now : Z) (h : Trace) (preIxs : list Instruction) (c : AnchorCall)
  (es : list Event) :
  launchICO_prepare lib w payer params now h = (Ok (preIxs, c), es) ->
  let mint := li_mint params in
  let vault := fst (deriveICOVaultAccountPDA lib mint) in
  exists mintInfo esr r,
    let tokenProgram :=
      match mintInfo with
      | Some info =>
          if String.eqb (ai_owner info) TOKEN_2022_PROGRAM_ID
          then TOKEN_2022_PROGRAM_ID else TOKEN_PROGRAM_ID
      | None => TOKEN_PROGRAM_ID
      end in
    let vaultAta := getAssociatedTokenAddressSync lib mint vault true
                      tokenProgram in
    let creatorAta := getAssociatedTokenAddressSync lib mint payer false
                        tokenProgram in
    let h1 := (h ++ [EvGetAccountInfo mint (Ok mintInfo)])%list in
    getAccountInfo w h mint = Ok mintInfo
    /\ es = (EvGetAccountInfo mint (Ok mintInfo)
             :: esr ++ [EvGetAccount creatorAta tokenProgram r])%list
    /\ r = getAccount w (h1 ++ esr)%list creatorAta tokenProgram
    /\ preIxs = match r with
                | Ok _ => []
                | Throw _ =>
                    [CreateAssociatedTokenAccount payer creatorAta payer mint
                       tokenProgram]
                end
    /\ (tokenProgram = TOKEN_2022_PROGRAM_ID ->
        resolveTransferHookAccounts w mint creatorAta vaultAta payer
          (li_amount params * 10 ^ 9) 9 h1 = (Ok (ac_remaining c), esr))
    /\ (tokenProgram <> TOKEN_2022_PROGRAM_ID ->
        ac_remaining c = [] /\ esr = [])
    /\ lookupAccount "vaultAta" (ac_accounts c) = Some vaultAta
    /\ lookupAccount "creatorAta" (ac_accounts c) = Some creatorAta
    /\ lookupAccount "tokenProgram" (ac_accounts c) = Some tokenProgram.
Proof.
  intros H mint vault.
  destruct (LaunchFacts.launchICO_prepare_inv lib w payer params now h preIxs c
              es H)
    as (mintInfo & esr & r & Hinfo & Hextra & Hr & Hes & Hpre & _ & Hacc & _).
  exists mintInfo, esr, r. cbv zeta in *.
  split; [exact Hinfo|]. split; [exact Hes|]. split; [exact Hr|].
  split; [exact Hpre|]. split; [|split].
  - intro T. fold mint vault in Hextra. rewrite T in Hextra.
    rewrite String.eqb_refl in Hextra. fold mint vault. rewrite T.
    exact Hextra.
  - intro T. apply String.eqb_neq in T. rewrite T in Hextra. exact Hextra.
  - rewrite Hacc. repeat split.
Qed.

Lemma launchICO_transfer_context_witness :
  exists preIxs c es,
    launchICO_prepare demoLib hookWorld "Creator"
      (mkLaunchICOParams "Mint" 10 100 None None 5000 1) 1700000000999 []
    = (Ok (preIxs, c), es)
    /\ exists mintInfo,
         getAccountInfo hookWorld [] "Mint" = Ok mintInfo
         /\ lookupAccount "tokenProgram" (ac_accounts c)
            = Some match mintInfo with
                   | Some info =>
                       if String.eqb (ai_owner info) TOKEN_2022_PROGRAM_ID
                       then TOKEN_2022_PROGRAM_ID else TOKEN_PROGRAM_ID
                   | None => TOKEN_PROGRAM_ID
                   end.
Proof.
  assert (exists preIxs c es,
             launchICO_prepare demoLib hookWorld "Creator"
               (mkLaunchICOParams "Mint" 10 100 None None 5000 1)
               1700000000999 [] = (Ok (preIxs, c), es))
    as (preIxs & c & es & Hrun).
  { do 3 eexists. vm_compute. reflexivity. }
  exists preIxs, c, es. split; [exact Hrun|].
  destruct (launchICO_transfer_context demoLib hookWorld "Creator"
              (mkLaunchICOParams "Mint" 10 100 None None 5000 1)
              1700000000999 [] preIxs c es Hrun)
    as (mintInfo & esr & r & Hinfo & _ & _ & _ & _ & _ & _ & _ & Htp).
  exists mintInfo. split; [exact Hinfo | exact Htp].
Defined.

(* ================================================================== *)
(** * Properties of detectExtensions and of the whitelist calls         *)
(* ================================================================== *)

Section DetectFacts.

Variable w : World.
Variable getTransferFeeConfig : Mint -> Outcome (option TransferFeeConfig).
Variable getPermanentDelegate : Mint -> Outcome (option PublicKey).
Variable getInterestBearingMintConfigState :
  Mint -> Outcome (option InterestBearingMintConfigState).
Variable unitsToString : Z -> Z -> string.

Let detect := detectExtensions w getTransferFeeConfig getPermanentDelegate
                getInterestBearingMintConfigState unitsToString.

Lemma detectTransferHook_step (m : Mint) (ext : MintExtensions.t) :
  (coherent ext -> coherent (detectTransferHook m ext))
  /\ details (detectTransferHook m ext)
     = (match getTransferHook m with
        | Some hook =>
            if String.eqb (th_programId hook) PublicKey_.default
            then MintExtensions.transferHookProgramId ext
            else Some (th_programId hook)
        | None => MintExtensions.transferHookProgramId ext
        end,
        MintExtensions.permanentDelegate ext,
        MintExtensions.transferFeeBps ext,
        MintExtensions.currentRate ext).
Proof.
  unfold detectTransferHook, coherent, details.
  destruct (getTransferHook m) as [hook|];
    [destruct (String.eqb (th_programId hook) PublicKey_.default)|];
    cbn; tauto.
Qed.

Lemma detectTransferFee_step (m : Mint) (decimals : Z)
  (ext : MintExtensions.t) :
  let ext' := detectTransferFee getTransferFeeConfig unitsToString m decimals
                ext in
  (coherent ext -> coherent ext')
  /\ details ext'
     = (MintExtensions.transferHookProgramId ext,
        MintExtensions.permanentDelegate ext,
        match getTransferFeeConfig m with
        | Ok (Some tf) => Some (newerTransferFeeBasisPoints tf)
        | _ => MintExtensions.transferFeeBps ext
        end,
        MintExtensions.currentRate ext).
Proof.
  unfold detectTransferFee, coherent, details.
  destruct (getTransferFeeConfig m) as [[tf|]|]; cbn; tauto.
Qed.

Lemma detectPermanentDelegate_step (m : Mint) (ext : MintExtensions.t) :
  let ext' := detectPermanentDelegate getPermanentDelegate m ext in
  (coherent ext -> coherent ext')
  /\ details ext'
     = (MintExtensions.transferHookProgramId ext,
        match getPermanentDelegate m with
        | Ok (Some d) =>
            if String.eqb d PublicKey_.default
            then MintExtensions.permanentDelegate ext
            else Some d
        | _ => MintExtensions.permanentDelegate ext
        end,
        MintExtensions.transferFeeBps ext,
        MintExtensions.currentRate ext).
Proof.
  unfold detectPermanentDelegate, coherent, details.
  destruct (getPermanentDelegate m) as [[d|]|];
    [destruct (String.eqb d PublicKey_.default)| |]; cbn; tauto.
Qed.

Lemma detectInterestBearing_step (m : Mint) (ext : MintExtensions.t) :
  let ext' := detectInterestBearing getInterestBearingMintConfigState m ext in
  (coherent ext -> coherent ext')
  /\ details ext'
     = (MintExtensions.transferHookProgramId ext,
        MintExtensions.permanentDelegate ext,
        MintExtensions.transferFeeBps ext,
        match getInterestBearingMintConfigState m with
        | Ok (Some ib) => Some (ib_currentRate ib)
        | _ => MintExtensions.currentRate ext
        end).
Proof.
  unfold detectInterestBearing, coherent, details.
  destruct (getInterestBearingMintConfigState m) as [[ib|]|]; cbn; tauto.
Qed.

(** The fields of the result, getter by getter. *)
Lemma detectExtensions_fields (mintAddress : PublicKey) (h : Trace) (m : Mint) :
  getMint w h mintAddress = Ok m ->
  exists ext,
    detect mintAddress h = (Ok ext, [EvGetMint mintAddress (Ok m)])
    /\ MintExtensions.transferHookProgramId ext
       = match getTransferHook m with
         | Some hook =>
             if String.eqb (th_programId hook) PublicKey_.default then None
             else Some (th_programId hook)
         | None => None
         end
    /\ MintExtensions.permanentDelegate ext
       = match getPermanentDelegate m with
         | Ok (Some d) =>
             if String.eqb d PublicKey_.default then None else Some d
         | _ => None
         end
    /\ MintExtensions.transferFeeBps ext
       = match getTransferFeeConfig m with
         | Ok (Some tf) => Some (newerTransferFeeBasisPoints tf)
         | _ => None
         end
    /\ MintExtensions.currentRate ext
       = match getInterestBearingMintConfigState m with
         | Ok (Some ib) => Some (ib_currentRate ib)
         | _ => None
         end
    /\ MintExtensions.hasTransferHook ext
       = present (MintExtensions.transferHookProgramId ext)
    /\ MintExtensions.hasPermanentDelegate ext
       = present (MintExtensions.permanentDelegate ext)
    /\ MintExtensions.hasTransferFee ext
       = present (MintExtensions.transferFeeBps ext)
    /\ MintExtensions.hasInterestBearing ext
       = present (MintExtensions.currentRate ext).
Proof.
  intro E. unfold detect, detectExtensions, bind, call, ret. rewrite E.
  cbv beta iota zeta. eexists. split; [reflexivity|].
  set (e0 := MintExtensions.mk false None false None None None None
               false None false None None).
  set (e1 := detectTransferHook m e0).
  set (e2 := detectTransferFee _ _ m _ e1).
  set (e3 := detectPermanentDelegate _ m e2).
  set (e4 := detectInterestBearing _ m e3).
  destruct (detectTransferHook_step m e0) as [C1 D1].
  destruct (detectTransferFee_step m (mintDecimals m) e1) as [C2 D2].
  destruct (detectPermanentDelegate_step m e2) as [C3 D3].
  destruct (detectInterestBearing_step m e3) as [C4 D4].
  fold e1 in C1, D1. fold e2 in C2, D2. fold e3 in C3, D3. fold e4 in C4, D4.
  assert (C0 : coherent e0) by (cbv; tauto).
  pose proof (C4 (C3 (C2 (C1 C0)))) as (H1 & H2 & H3 & H4).
  unfold details in D1, D2, D3, D4.
  injection D1 as A1 B1 F1 G1. injection D2 as A2 B2 F2 G2.
  injection D3 as A3 B3 F3 G3. injection D4 as A4 B4 F4 G4.
  repeat match goal with |- _ /\ _ => split end; try assumption.
  - rewrite A4, A3, A2, A1. destruct (getTransferHook m) as [hook|];
      [destruct (String.eqb (th_programId hook) PublicKey_.default)|];
      reflexivity.
  - rewrite B4, B3, B2, B1. destruct (getPermanentDelegate m) as [[d|]|];
      [destruct (String.eqb d PublicKey_.default)| |]; reflexivity.
  - rewrite F4, F3, F2, F1. destruct (getTransferFeeConfig m) as [[tf|]|];
      reflexivity.
  - rewrite G4, G3, G2, G1.
    destruct (getInterestBearingMintConfigState m) as [[ib|]|]; reflexivity.
Qed.

(** X24: [detectExtensions] makes the one [getMint] call and throws what
    it throws; otherwise it returns, whatever the extension getters do:
    a getter that throws leaves its flag unset.  Each flag is set
    exactly when its detail field is: the transfer hook and the
    permanent delegate count as present only with an address other than
    the null address. *)
Theorem detectExtensions_flags (mintAddress : PublicKey) (h : Trace) :
  (forall e, getMint w h mintAddress = Throw e ->
     detect mintAddress h = (Throw e, [EvGetMint mintAddress (Throw e)]))
  /\ (forall m, getMint w h mintAddress = Ok m ->
        exists ext,
          detect mintAddress h = (Ok ext, [EvGetMint mintAddress (Ok m)])
          /\ (MintExtensions.hasTransferHook ext = true
              <-> exists hook, getTransferHook m = Some hook
                               /\ th_programId hook <> PublicKey_.default)
          /\ (MintExtensions.hasPermanentDelegate ext = true
              <-> exists d, getPermanentDelegate m = Ok (Some d)
                            /\ d <> PublicKey_.default)
          /\ (MintExtensions.hasTransferFee ext = true
              <-> exists tf, getTransferFeeConfig m = Ok (Some tf))
          /\ (MintExtensions.hasInterestBearing ext = true
              <-> exists ib, getInterestBearingMintConfigState m = Ok (Some ib))
          /\ MintExtensions.hasTransferHook ext
             = present (MintExtensions.transferHookProgramId ext)
          /\ MintExtensions.hasPermanentDelegate ext
             = present (MintExtensions.permanentDelegate ext)
          /\ MintExtensions.hasTransferFee ext
             = present (MintExtensions.transferFeeBps ext)
          /\ MintExtensions.hasInterestBearing ext
             = present (MintExtensions.currentRate ext)).
Proof.
  split.
  - intros e E. unfold detect, detectExtensions, bind, call. rewrite E.
    reflexivity.
  - intros m E.
    destruct (detectExtensions_fields mintAddress h m E)
      as (ext & Hrun & Fh & Fd & Ff & Fi & Hh & Hd & Hf & Hi).
    exists ext. split; [exact Hrun|].
    rewrite Hh, Hd, Hf, Hi, Fh, Fd, Ff, Fi.
    repeat match goal with |- _ /\ _ => split end; try reflexivity.
    + destruct (getTransferHook m) as [hook|]; cbn.
      * destruct (String.eqb_spec (th_programId hook) PublicKey_.default);
          cbn; split; try discriminate; eauto.
        intros (hook' & Hh' & Hne). inversion Hh'; subst. contradiction.
      * split; [discriminate | intros (hook' & Hh' & _); discriminate].
    + destruct (getPermanentDelegate m) as [[d|]|]; cbn.
      * destruct (String.eqb_spec d PublicKey_.default);
          cbn; split; try discriminate; eauto.
        intros (d' & Hd' & Hne). inversion Hd'; subst. contradiction.
      * split; [discriminate | intros (d' & Hd' & _); discriminate].
      * split; [discriminate | intros (d' & Hd' & _); discriminate].
    + destruct (getTransferFeeConfig m) as [[tf|]|]; cbn;
        split; try discriminate; eauto; intros (x & Hx); discriminate.
    + destruct (getInterestBearingMintConfigState m) as [[ib|]|]; cbn;
        split; try discriminate; eauto; intros (x & Hx); discriminate.
Qed.

(** X25: the two readings of a mint disagree on a transfer hook whose
    program is the null address: [detectExtensions] reports no transfer
    hook, [resolveTransferHookAccounts] probes for its accounts, for
    every transfer whose amount is a u64 and whose decimals are a u8. *)
Theorem null_hook_detected_absent_but_probed
  (mint source destination authority : PublicKey) (amount decimals : Z)
  (h : Trace) (m : Mint) (hook : TransferHook) :
  0 <= amount < 2 ^ 64 ->
  0 <= decimals < 2 ^ 8 ->
  getMint w h mint = Ok m ->
  getTransferHook m = Some hook ->
  th_programId hook = PublicKey_.default ->
  (exists ext,
      fst (detect mint h) = Ok ext
      /\ MintExtensions.hasTransferHook ext = false
      /\ MintExtensions.transferHookProgramId ext = None)
  /\ existsb isProbe
       (snd (resolveTransferHookAccounts w mint source destination authority
               amount decimals h)) = true.
Proof.
  intros Ha Hd E N P. split.
  - destruct (detectExtensions_fields mint h m E)
      as (ext & Hrun & Fh & _ & _ & _ & Hh & _).
    exists ext. split; [now rewrite Hrun|].
    rewrite N, P, String.eqb_refl in Fh.
    rewrite Hh, Fh. split; reflexivity.
  - exact (resolve_hook_probes w mint source destination authority amount
             decimals h m hook Ha Hd E N).
Qed.

End DetectFacts.

Lemma detectExtensions_flags_witness :
  exists ext,
    fst (detectExtensions hookWorld demoTransferFeeConfig demoPermanentDelegate
           demoInterestBearing demoUnits "Mint" []) = Ok ext
    /\ MintExtensions.hasTransferHook ext = true
    /\ MintExtensions.hasPermanentDelegate ext = false
    /\ MintExtensions.hasInterestBearing ext = false.
Proof.
  destruct (proj2 (detectExtensions_flags hookWorld demoTransferFeeConfig
                     demoPermanentDelegate demoInterestBearing demoUnits
                     "Mint" [])
              (hookMint TRANSFER_HOOK_PROGRAM_ID) eq_refl)
    as (ext & Hrun & Hh & Hd & _ & Hi & _).
  exists ext. split; [rewrite Hrun; reflexivity|]. split; [|split].
  - apply Hh. eexists. split; [reflexivity | discriminate].
  - destruct (MintExtensions.hasPermanentDelegate ext); [|reflexivity].
    destruct (proj1 Hd eq_refl) as (d & Hd' & Hne).
    inversion Hd'; subst d. contradiction.
  - destruct (MintExtensions.hasInterestBearing ext); [|reflexivity].
    destruct (proj1 Hi eq_refl) as (ib & Hib). discriminate Hib.
Defined.

Lemma null_hook_detected_absent_but_probed_witness :
  (exists ext,
      fst (detectExtensions (nullHookWorld demoExtras) demoTransferFeeConfig
             demoPermanentDelegate demoInterestBearing demoUnits "Mint" [])
      = Ok ext
      /\ MintExtensions.hasTransferHook ext = false
      /\ MintExtensions.transferHookProgramId ext = None)
  /\ existsb isProbe
       (snd (resolveTransferHookAccounts (nullHookWorld demoExtras) "Mint"
               "Source" "Destination" "Authority" 5 9 [])) = true.
Proof.
  exact (null_hook_detected_absent_but_probed (nullHookWorld demoExtras)
           demoTransferFeeConfig demoPermanentDelegate demoInterestBearing
           demoUnits "Mint" "Source" "Destination" "Authority" 5 9 []
           (hookMint PublicKey_.default)
           (mkTransferHook "Authority" PublicKey_.default)
           ltac:(lia) ltac:(lia) eq_refl eq_refl eq_refl).
Defined.

(* ================================================================== *)
(** * Properties of the harvest batches                                 *)
(* ================================================================== *)

Module HarvestFacts.

Lemma slice_length {A} (i : nat) (xs : list A) :
  List.length (slice i (i + 20) xs) = Nat.min 20 (List.length xs - i).
Proof.
  unfold slice. rewrite length_firstn, length_skipn.
  replace (i + 20 - i)%nat with 20%nat by lia. reflexivity.
Qed.

(** The batch pushed at the [k]-th turn of the loop. *)
Lemma harvestBatches_nth (sources : list PublicKey) (k i : nat) :
  nth_error (harvestBatches sources i) k
  = if (i + 20 * k <? List.length sources)%nat
    then Some (slice (i + 20 * k) (i + 20 * k + 20) sources)
    else None.
Proof.
  revert i. induction k as [|k IH]; intro i.
  - rewrite harvestBatches_equation_1.
    replace (i + 20 * 0)%nat with i by lia.
    destruct (lt_dec i (List.length sources)) as [Hlt|Hge];
    cbn [harvestBatches_unfold_clause_1 nth_error List.concat List.length].
    + apply Nat.ltb_lt in Hlt. now rewrite Hlt.
    + apply Nat.ltb_nlt in Hge. now rewrite Hge.
  - rewrite harvestBatches_equation_1.
    destruct (lt_dec i (List.length sources)) as [Hlt|Hge];
    cbn [harvestBatches_unfold_clause_1 nth_error List.concat List.length].
    + rewrite IH. replace (i + 20 + 20 * k)%nat with (i + 20 * S k)%nat by lia.
      reflexivity.
    + destruct (Nat.ltb_spec (i + 20 * S k) (List.length sources)); [lia|].
      reflexivity.
Qed.

Lemma harvestBatches_concat (sources : list PublicKey) (i : nat) :
  List.concat (harvestBatches sources i) = skipn i sources.
Proof.
  remember (List.length sources - i)%nat as n eqn:Hn.
  revert i Hn. induction n as [n IH] using lt_wf_ind. intros i Hn.
  rewrite harvestBatches_equation_1.
  destruct (lt_dec i (List.length sources)) as [Hlt|Hge];
    cbn [harvestBatches_unfold_clause_1 nth_error List.concat List.length].
  - rewrite (IH (List.length sources - (i + 20))%nat); [|lia|reflexivity].
    unfold slice. replace (i + 20 - i)%nat with 20%nat by lia.
    replace (i + 20)%nat with (20 + i)%nat by lia.
    rewrite <- skipn_skipn. apply firstn_skipn.
  - symmetry. apply skipn_all2. lia.
Qed.

Lemma ceil20_step (d : nat) :
  (1 <= d)%nat -> ((d + 19) / 20 = S ((d - 20 + 19) / 20))%nat.
Proof.
  intro Hd. destruct (Nat.le_gt_cases 20 d) as [Hbig|Hsmall].
  - replace (d + 19)%nat with (d - 20 + 19 + 1 * 20)%nat by lia.
    rewrite Nat.div_add by lia. lia.
  - replace (d - 20 + 19)%nat with 19%nat by lia.
    symmetry. apply (Nat.div_unique (d + 19) 20 1 (d - 1)); lia.
Qed.

Lemma harvestBatches_length (sources : list PublicKey) (i : nat) :
  List.length (harvestBatches sources i)
  = ((List.length sources - i + 19) / 20)%nat.
Proof.
  remember (List.length sources - i)%nat as n eqn:Hn.
  revert i Hn. induction n as [n IH] using lt_wf_ind. intros i Hn.
  rewrite harvestBatches_equation_1.
  destruct (lt_dec i (List.length sources)) as [Hlt|Hge];
    cbn [harvestBatches_unfold_clause_1 List.length].
  - rewrite (IH (List.length sources - (i + 20))%nat); [|lia|reflexivity].
    rewrite (ceil20_step n) by lia. subst n. do 3 f_equal. lia.
  - replace n with 0%nat by lia. reflexivity.
Qed.

Lemma harvestBatches_sizes (sources : list PublicKey) (i : nat) :
  Forall (fun batch => (1 <= List.length batch <= 20)%nat)
    (harvestBatches sources i).
Proof.
  apply Forall_forall. intros batch Hin.
  apply In_nth_error in Hin. destruct Hin as [k Hk].
  rewrite harvestBatches_nth in Hk.
  destruct (Nat.ltb_spec (i + 20 * k) (List.length sources)); [|discriminate].
  inversion Hk; subst batch. rewrite slice_length. lia.
Qed.

End HarvestFacts.

(** X26: the harvest loop cuts the sources into consecutive batches: the
    batches concatenate back to the sources, there are ceil(n / 20) of
    them, the k-th is the slice from 20k to 20k + 20, none is empty,
    none has more than twenty entries, and all but the last have
    exactly twenty. *)
Theorem harvestBatches_partition (sources : list PublicKey) :
  let batches := harvestBatches sources 0 in
  List.concat batches = sources
  /\ List.length batches = ((List.length sources + 19) / 20)%nat
  /\ (forall k batch, nth_error batches k = Some batch ->
        batch = slice (20 * k)%nat (20 * k + 20)%nat sources
        /\ (1 <= List.length batch <= 20)%nat
        /\ ((S k < List.length batches)%nat -> List.length batch = 20%nat)).
Proof.
  intro batches. subst batches. split; [|split].
  - now rewrite HarvestFacts.harvestBatches_concat.
  - rewrite HarvestFacts.harvestBatches_length. now rewrite Nat.sub_0_r.
  - intros k batch Hk. rewrite HarvestFacts.harvestBatches_nth in Hk.
    cbn [Nat.add] in Hk.
    destruct (Nat.ltb_spec (20 * k) (List.length sources)) as [Hlt|]; [|discriminate].
    inversion Hk; subst batch; clear Hk.
    split; [reflexivity|].
    rewrite HarvestFacts.slice_length. split; [lia|].
    intro Hlast. rewrite HarvestFacts.harvestBatches_length in Hlast.
    rewrite Nat.sub_0_r in Hlast.
    pose proof (Nat.div_mod_eq (List.length sources + 19) 20) as Hq.
    set (q := ((List.length sources + 19) / 20)%nat) in *.
    lia.
Qed.

Lemma harvestBatches_partition_witness :
  List.length (harvestBatches (repeat "A" 45) 0) = 3%nat.
Proof.
  destruct (harvestBatches_partition (repeat "A" 45)) as (_ & Hlen & _).
  rewrite Hlen. reflexivity.
Defined.

(* ================================================================== *)
(** * Properties of harvestTransferFees                                 *)
(* ================================================================== *)

Section HarvestProperties.

Variable lib : Lib.
Variables RawAccount TokenAccount : Type.
Variable unpackAccount :
  PublicKey -> RawAccount -> PublicKey -> Outcome TokenAccount.
Variable getTransferFeeAmount :
  TokenAccount -> Outcome (option TransferFeeAmount).
Variable createHarvestIx :
  PublicKey -> list PublicKey -> PublicKey -> TransactionInstruction.
Variable createWithdrawIx :
  PublicKey -> PublicKey -> PublicKey -> list PublicKey -> PublicKey ->
  TransactionInstruction.

Lemma hasWithheldFees_true (pubkey : PublicKey) (account : RawAccount) :
  hasWithheldFees unpackAccount getTransferFeeAmount pubkey account = true
  <-> exists tokenAccount feeAmount,
        unpackAccount pubkey account TOKEN_2022_PROGRAM_ID = Ok tokenAccount
        /\ getTransferFeeAmount tokenAccount = Ok (Some feeAmount)
        /\ 0 < withheldAmount feeAmount.
Proof.
  unfold hasWithheldFees.
  destruct (unpackAccount pubkey account TOKEN_2022_PROGRAM_ID) as [tok|e].
  - destruct (getTransferFeeAmount tok) as [[fee|]|e] eqn:Efee.
    + split.
      * intro H. apply Z.ltb_lt in H. eauto.
      * intros (tok' & fee' & Htok & Hfee & Hpos).
        inversion Htok; subst tok'. rewrite Efee in Hfee.
        inversion Hfee; subst fee'. now apply Z.ltb_lt.
    + split; [discriminate|].
      intros (tok' & fee' & Htok & Hfee & _).
      inversion Htok; subst tok'. rewrite Efee in Hfee. discriminate.
    + split; [discriminate|].
      intros (tok' & fee' & Htok & Hfee & _).
      inversion Htok; subst tok'. rewrite Efee in Hfee. discriminate.
  - split; [discriminate|]. intros (tok' & fee' & Htok & _). discriminate.
Qed.

Lemma sourcesWithFees_filter (accounts : list (PublicKey * RawAccount)) :
  sourcesWithFees unpackAccount getTransferFeeAmount accounts
  = map fst
      (filter (fun pa => hasWithheldFees unpackAccount getTransferFeeAmount
                           (fst pa) (snd pa))
         accounts).
Proof.
  induction accounts as [|[p a] rest IH]; [reflexivity|].
  cbn [sourcesWithFees filter fst snd].
  destruct (hasWithheldFees unpackAccount getTransferFeeAmount p a);
    cbn [when List.app map fst]; now rewrite IH.
Qed.

(** X27: the scan keeps, in the order of the accounts, the address of
    every account that unpacks, carries transfer-fee data and has
    withheld a positive amount, and no other; an account whose data
    does not unpack, or whose fee data cannot be read, is skipped
    without stopping the scan. *)
Theorem sourcesWithFees_spec (accounts : list (PublicKey * RawAccount)) :
  let sources := sourcesWithFees unpackAccount getTransferFeeAmount accounts in
  sources
  = map fst
      (filter (fun pa => hasWithheldFees unpackAccount getTransferFeeAmount
                           (fst pa) (snd pa))
         accounts)
  /\ (List.length sources <= List.length accounts)%nat
  /\ (forall pubkey,
        In pubkey sources
        <-> exists account tokenAccount feeAmount,
              In (pubkey, account) accounts
              /\ unpackAccount pubkey account TOKEN_2022_PROGRAM_ID
                 = Ok tokenAccount
              /\ getTransferFeeAmount tokenAccount = Ok (Some feeAmount)
              /\ 0 < withheldAmount feeAmount).
Proof.
  intro sources. subst sources. rewrite sourcesWithFees_filter.
  split; [reflexivity|]. split.
  - rewrite length_map. apply filter_length_le.
  - intro pubkey. rewrite in_map_iff. split.
    + intros ([p a] & Hp & Hin). cbn in Hp. subst p.
      apply filter_In in Hin. destruct Hin as [Hin Hfee].
      cbn [fst snd] in Hfee. apply hasWithheldFees_true in Hfee.
      destruct Hfee as (tok & fee & H1 & H2 & H3).
      exists a, tok, fee. auto.
    + intros (a & tok & fee & Hin & H1 & H2 & H3).
      exists (pubkey, a). split; [reflexivity|].
      apply filter_In. split; [exact Hin|].
      cbn [fst snd]. apply hasWithheldFees_true. eauto.
Qed.

(** X28: the harvest transaction is the harvest instructions, then the
    creation of the owner's associated account exactly when the ledger
    has no such account, then the withdrawal to that account, which is
    always last.  The harvest instructions carry the accounts with
    withheld fees, each once and in scan order, in batches of one to
    twenty; with no such account there is no harvest instruction but
    the withdrawal is still there. *)
Theorem harvestInstructions_shape (payer mintAddress : PublicKey)
  (accounts : list (PublicKey * RawAccount))
  (ownerAtaInfo : option AccountInfo) :
  let sources := sourcesWithFees unpackAccount getTransferFeeAmount accounts in
  let ownerAta := getAssociatedTokenAddressSync lib mintAddress payer false
                    TOKEN_2022_PROGRAM_ID in
  let ixs := harvestInstructions lib unpackAccount getTransferFeeAmount
               createHarvestIx createWithdrawIx payer mintAddress accounts
               ownerAtaInfo in
  exists batches,
    ixs = (map (fun batch =>
                  Raw (createHarvestIx mintAddress batch TOKEN_2022_PROGRAM_ID))
             batches
           ++ match ownerAtaInfo with
              | Some _ => []
              | None => [ CreateAssociatedTokenAccount payer ownerAta payer
                            mintAddress TOKEN_2022_PROGRAM_ID ]
              end
           ++ [ Raw (createWithdrawIx mintAddress ownerAta payer []
                       TOKEN_2022_PROGRAM_ID) ])%list
    /\ List.concat batches = sources
    /\ Forall (fun batch => (1 <= List.length batch <= 20)%nat) batches
    /\ List.length ixs
       = ((List.length sources + 19) / 20
          + match ownerAtaInfo with Some _ => 0 | None => 1 end + 1)%nat
    /\ (sources = [] -> batches = []).
Proof.
  intros sources ownerAta ixs.
  exists (harvestBatches sources 0).
  assert (Hixs : ixs
    = (map (fun batch =>
              Raw (createHarvestIx mintAddress batch TOKEN_2022_PROGRAM_ID))
         (harvestBatches sources 0)
       ++ match ownerAtaInfo with
          | Some _ => []
          | None => [ CreateAssociatedTokenAccount payer ownerAta payer
                        mintAddress TOKEN_2022_PROGRAM_ID ]
          end
       ++ [ Raw (createWithdrawIx mintAddress ownerAta payer []
                   TOKEN_2022_PROGRAM_ID) ])%list).
  { subst ixs. unfold harvestInstructions. fold sources. fold ownerAta.
    f_equal.
    - destruct sources as [|s0 rest] eqn:Es; [|reflexivity].
      rewrite harvestBatches_equation_1. reflexivity.
    - destruct ownerAtaInfo; reflexivity. }
  split; [exact Hixs|]. split.
  { rewrite HarvestFacts.harvestBatches_concat. reflexivity. }
  split; [apply HarvestFacts.harvestBatches_sizes|]. split.
  - rewrite Hixs. rewrite !length_app, length_map.
    rewrite HarvestFacts.harvestBatches_length, Nat.sub_0_r.
    destruct ownerAtaInfo; cbn [List.length]; lia.
  - intro Hnil. rewrite Hnil. rewrite harvestBatches_equation_1. reflexivity.
Qed.

(** X29: a harvest that returns has asked once for the owner's associated
    account and then made the five calls of one [sendInstructions]: it
    never simulates, it sends once without [skipPreflight], and the
    transaction it had signed holds the harvest instructions built for
    the answer of that one account query. *)
Theorem harvestTransferFees_success (w : World) (payer : PublicKey)
  (walletSign : WalletSign) (mintAddress : PublicKey)
  (accounts : list (PublicKey * RawAccount)) (h : Trace) (sig : string)
  (es : list Event) :
  harvestTransferFees lib unpackAccount getTransferFeeAmount createHarvestIx
    createWithdrawIx w payer walletSign mintAddress accounts h = (Ok sig, es) ->
  let ownerAta := getAssociatedTokenAddressSync lib mintAddress payer false
                    TOKEN_2022_PROGRAM_ID in
  exists info b1 signed b2 raw,
    let tx := mkVersionedTransaction
                (mkTransactionMessage payer (blockhash b1)
                   (harvestInstructions lib unpackAccount getTransferFeeAmount
                      createHarvestIx createWithdrawIx payer mintAddress
                      accounts info))
                [] in
    getAccountInfo w h ownerAta = Ok info
    /\ es = [ EvGetAccountInfo ownerAta (Ok info);
              EvGetLatestBlockhash (Ok b1);
              EvWalletSign tx (Ok signed);
              EvGetLatestBlockhash (Ok b2);
              EvSendRawTransaction raw false (Ok sig);
              EvConfirmTransaction sig (blockhash b2) (lastValidBlockHeight b2)
                (Ok tt) ]
    /\ existsb isSimulate es = false.
Proof.
  intros Hrun ownerAta. unfold harvestTransferFees in Hrun.
  fold ownerAta in Hrun.
  unfold bind at 1, call at 1 in Hrun.
  destruct (getAccountInfo w h ownerAta) as [info|e] eqn:Einfo;
    [|discriminate Hrun].
  destruct (sendInstructions w payer _ walletSign [] false _)
    as [r es'] eqn:Esend.
  destruct r as [sig'|e]; [|discriminate Hrun].
  inversion Hrun; subst sig' es; clear Hrun.
  destruct (SubmitFacts.sendInstructions_Ok _ _ _ _ _ _ _ _ _ Esend)
    as (b1 & signed & b2 & raw & Hes & _).
  cbv zeta in Hes. exists info, b1, signed, b2, raw. cbv zeta.
  split; [reflexivity|]. rewrite Hes. split; reflexivity.
Qed.

End HarvestProperties.

Lemma harvestInstructions_shape_witness :
  List.length
    (harvestInstructions demoLib demoUnpack demoFeeAmount demoHarvestIx
       demoWithdrawIx "Payer" "Mint" demoAccounts None) = 3%nat.
Proof.
  destruct (harvestInstructions_shape demoLib Z Z demoUnpack demoFeeAmount
              demoHarvestIx demoWithdrawIx "Payer" "Mint" demoAccounts None)
    as (batches & _ & _ & _ & Hlen & _).
  cbv zeta in Hlen. rewrite Hlen. reflexivity.
Defined.

Lemma harvestTransferFees_success_witness :
  exists sig es,
    harvestTransferFees demoLib demoUnpack demoFeeAmount demoHarvestIx
      demoWithdrawIx hookWorld "Payer" demoWallet "Mint" demoAccounts []
    = (Ok sig, es)
    /\ existsb isSimulate es = false.
Proof.
  assert (exists sig es,
    harvestTransferFees demoLib demoUnpack demoFeeAmount demoHarvestIx
      demoWithdrawIx hookWorld "Payer" demoWallet "Mint" demoAccounts []
    = (Ok sig, es)) as (sig & es & Hrun)
    by (eexists; eexists; vm_compute; reflexivity).
  exists sig, es. split; [exact Hrun|].
  destruct (harvestTransferFees_success demoLib Z Z demoUnpack demoFeeAmount
              demoHarvestIx demoWithdrawIx hookWorld "Payer" demoWallet "Mint"
              demoAccounts [] sig es Hrun)
    as (info & b1 & signed & b2 & raw & _ & _ & Hsim).
  exact Hsim.
Defined.

Lemma sourcesWithFees_spec_witness :
  In "D" (sourcesWithFees demoUnpack demoFeeAmount demoAccounts)
  /\ ~ In "C" (sourcesWithFees demoUnpack demoFeeAmount demoAccounts).
Proof.
  destruct (sourcesWithFees_spec Z Z demoUnpack demoFeeAmount demoAccounts)
    as (_ & _ & Hin).
  split.
  - apply Hin. exists 7, 7, (mkTransferFeeAmount 7).
    repeat split; cbn; auto 10.
  - intro HC. apply Hin in HC.
    destruct HC as (a & tok & fee & Hacc & Hunpack & _).
    cbn in Hacc.
    destruct Hacc as [H|[H|[H|[H|[]]]]]; inversion H; subst a.
    discriminate Hunpack.
Defined.

(* ================================================================== *)
(** * The whitelist calls                                               *)
(* ================================================================== *)

(** X30: adding an address to the whitelist of a mint and removing it
    name the same marker account and the same registry account, which
    is the one [createToken] initialises for that mint; both are made
    with the payer as owner, and each is a single call to the hook
    program that sends no other transaction. *)
Theorem whitelist_calls_agree (lib : Lib) (w : World)
  (payer mintAddress userAddress : PublicKey) (metadata : TokenMetadata)
  (hookConfig : TransferHookConfig) (h : Trace) :
  let add := addToWhitelist_call lib payer mintAddress userAddress in
  let remove := removeFromWhitelist_call lib payer mintAddress userAddress in
  (forall name, name <> "systemProgram" ->
     lookupAccount name (ac_accounts add)
     = lookupAccount name (ac_accounts remove))
  /\ lookupAccount "owner" (ac_accounts add) = Some payer
  /\ lookupAccount "whitelistMarker" (ac_accounts add)
     = Some (fst (deriveWhitelistMarkerPDA lib mintAddress userAddress))
  /\ (exists c,
        initRegistryIx lib payer mintAddress metadata hookConfig = Anchor c
        /\ ac_program c = ac_program add
        /\ lookupAccount "config" (ac_accounts c)
           = lookupAccount "config" (ac_accounts add)
        /\ lookupAccount "mint" (ac_accounts c)
           = lookupAccount "mint" (ac_accounts add))
  /\ snd (addToWhitelist lib w payer mintAddress userAddress h)
     = [EvAnchorRpc [] add (anchorRpc w h [] add)]
  /\ snd (removeFromWhitelist lib w payer mintAddress userAddress h)
     = [EvAnchorRpc [] remove (anchorRpc w h [] remove)].
Proof.
  intros add remove. split.
  - intros name Hname. subst add remove.
    unfold addToWhitelist_call, removeFromWhitelist_call.
    cbn [ac_accounts lookupAccount].
    do 6 (destruct (String.eqb _ name); [reflexivity|]).
    destruct (String.eqb_spec "systemProgram" name);
      [congruence | reflexivity].
  - split; [reflexivity|]. split; [reflexivity|]. split.
    + eexists. split; [reflexivity|]. repeat split.
    + split; reflexivity.
Qed.

Lemma whitelist_calls_agree_witness :
  lookupAccount "whitelistMarker"
    (ac_accounts (addToWhitelist_call demoLib "Payer" "Mint" "User"))
  = lookupAccount "whitelistMarker"
      (ac_accounts (removeFromWhitelist_call demoLib "Payer" "Mint" "User")).
Proof.
  destruct (whitelist_calls_agree demoLib hookWorld "Payer" "Mint" "User"
              demoMetadata noHookConfig []) as [Hsame _].
  apply Hsame. discriminate.
Defined.
